(** * Assembly of ERA5 wind fields: a model of [lib/preprocess_era5inp.py]

    The constructor [era5_acc_fields.__init__] walks the calendar from the
    start date to the final date of an integration window, loads one
    pressure-level file per day, concatenates the files along time,
    normalises the longitude axis, derives the sampling metadata, slices
    the wind components to the window and rejects missing values.

    The development follows the constructor statement by statement.  The
    libraries it calls are modelled by what they compute:
    - [datetime] by the proleptic Gregorian ordinal arithmetic of CPython;
    - [xarray]/[pandas] by lists: a coordinate is a list of labels, a
      variable is a nested list indexed [time][level][latitude][longitude];
    - binary64 numbers by Rocq's primitive floats; a grid coordinate is
      kept as the rational value of its binary64 number, and the one
      addition made on coordinates is the binary64 one. *)

From Stdlib Require Import ZArith QArith Bool String Ascii List Lia Lqa.
From Stdlib Require Import Permutation Sorted.
From Stdlib Require Import Floats.
Import ListNotations.
Local Open Scope Z_scope.

(* ================================================================== *)
(** * Outcomes of a run *)
(* ================================================================== *)

(** The exceptions the constructor can end with.  [NotModelled] is none of
    them: it marks a run that leaves what this development follows (files
    on different grids, which [xr.concat] aligns), so that nothing is
    stated about such a run. *)
Inductive exn : Type :=
| FatalError (msg : string)
| OverflowError
| ValueError
| FileNotFoundError (path : string)
| NameError (name : string)
| UnboundLocalError (name : string)
| IndexError
| KeyError
| InvalidIndexError
| ZeroDivisionError
| NotModelled (what : string).

(** A computation returns, raises, or is cut off by the iteration budget
    given to the [while] loop. *)
Inductive outcome (A : Type) : Type :=
| Returns (a : A)
| Raises (e : exn)
| OutOfFuel.

Arguments Returns {A} a.
Arguments Raises {A} e.
Arguments OutOfFuel {A}.

Definition bind {A B : Type} (m : outcome A) (k : A -> outcome B) : outcome B :=
  match m with
  | Returns a => k a
  | Raises e => Raises e
  | OutOfFuel => OutOfFuel
  end.

Notation "x <- m ;; k" := (bind m (fun x => k))
  (at level 61, m at next level, right associativity).
Notation "' pat <- m ;; k" := (bind m (fun x => match x with pat => k end))
  (at level 61, pat pattern, m at next level, right associativity).

(** Modelled from the spec: [utils.throw_error] lives in [lib/utils.py],
    which is not part of the sources at hand.  The specification describes
    it as the single error-raising call through which fatal conditions are
    routed and which terminates the run; it never returns to its caller. *)
Definition throw_error {A : Type} (msg : string) : outcome A :=
  Raises (FatalError msg).

(* ================================================================== *)
(** * The calendar of [datetime] *)
(* ================================================================== *)

Module Calendar.

Definition MINYEAR : Z := 1.
Definition MAXYEAR : Z := 9999.
(** [date(9999, 12, 31).toordinal()] *)
Definition MAXORDINAL : Z := 3652059.

Definition is_leap (year : Z) : bool :=
  (year mod 4 =? 0) && (negb (year mod 100 =? 0) || (year mod 400 =? 0)).

Definition days_before_year (year : Z) : Z :=
  let y := year - 1 in
  y * 365 + y / 4 - y / 100 + y / 400.

Definition DAYS_IN_MONTH (month : Z) : Z :=
  match month with
  | 1 => 31 | 2 => 28 | 3 => 31 | 4 => 30 | 5 => 31 | 6 => 30
  | 7 => 31 | 8 => 31 | 9 => 30 | 10 => 31 | 11 => 30 | 12 => 31
  | _ => 0
  end.

Definition DAYS_BEFORE_MONTH (month : Z) : Z :=
  match month with
  | 1 => 0 | 2 => 31 | 3 => 59 | 4 => 90 | 5 => 120 | 6 => 151
  | 7 => 181 | 8 => 212 | 9 => 243 | 10 => 273 | 11 => 304 | 12 => 334
  | _ => 0
  end.

Definition days_in_month (year month : Z) : Z :=
  if (month =? 2) && is_leap year then 29 else DAYS_IN_MONTH month.

Definition days_before_month (year month : Z) : Z :=
  DAYS_BEFORE_MONTH month + (if (2 <? month) && is_leap year then 1 else 0).

(** [_ymd2ord]: 0001-01-01 is day 1. *)
Definition ymd2ord (year month day : Z) : Z :=
  days_before_year year + days_before_month year month + day.

Definition DI400Y : Z := 146097.
Definition DI100Y : Z := 36524.
Definition DI4Y : Z := 1461.

(** [_ord2ymd], with its successive [divmod]s. *)
Definition ord2ymd (n : Z) : Z * Z * Z :=
  let n := n - 1 in
  let n400 := n / DI400Y in
  let n := n mod DI400Y in
  let year := n400 * 400 + 1 in
  let n100 := n / DI100Y in
  let n := n mod DI100Y in
  let n4 := n / DI4Y in
  let n := n mod DI4Y in
  let n1 := n / 365 in
  let n := n mod 365 in
  let year := year + n100 * 100 + n4 * 4 + n1 in
  if (n1 =? 4) || (n100 =? 4) then (year - 1, 12, 31)
  else
    let leapyear := (n1 =? 3) && (negb (n4 =? 24) || (n100 =? 3)) in
    let month := Z.shiftr (n + 50) 5 in
    let preceding :=
      DAYS_BEFORE_MONTH month + (if (2 <? month) && leapyear then 1 else 0) in
    if n <? preceding then
      let month := month - 1 in
      let preceding :=
        preceding
        - (DAYS_IN_MONTH month + (if (month =? 2) && leapyear then 1 else 0)) in
      (year, month, n - preceding + 1)
    else (year, month, n - preceding + 1).

(** The last step of [ord2ymd] on its own: month and day of the [n]-th day
    (from 0) of a year, estimated and corrected. *)
Definition month_day (leapyear : bool) (n : Z) : Z * Z :=
  let month := Z.shiftr (n + 50) 5 in
  let preceding :=
    DAYS_BEFORE_MONTH month + (if (2 <? month) && leapyear then 1 else 0) in
  if n <? preceding then
    let month := month - 1 in
    let preceding :=
      preceding
      - (DAYS_IN_MONTH month + (if (month =? 2) && leapyear then 1 else 0)) in
    (month, n - preceding + 1)
  else (month, n - preceding + 1).

(** The check that this month and day count back to [n]. *)
Definition month_day_ok (leapyear : bool) (n : Z) : bool :=
  let '(m, d) := month_day leapyear n in
  (1 <=? m) && (m <=? 12) && (1 <=? d)
  && (d <=? DAYS_IN_MONTH m + (if (m =? 2) && leapyear then 1 else 0))
  && (DAYS_BEFORE_MONTH m + (if (2 <? m) && leapyear then 1 else 0) + d
      =? n + 1).

(** Decimal rendering, zero padded, as [%m] and [%d] print it. *)
Definition digit (n : Z) : ascii :=
  match n with
  | 0 => "0" | 1 => "1" | 2 => "2" | 3 => "3" | 4 => "4"
  | 5 => "5" | 6 => "6" | 7 => "7" | 8 => "8" | _ => "9"
  end%char.

Definition zfill2 (n : Z) : string :=
  String (digit (n / 10)) (String (digit (n mod 10)) EmptyString).

Definition zfill4 (n : Z) : string :=
  String (digit (n / 1000))
    (String (digit (n / 100 mod 10))
       (String (digit (n / 10 mod 10))
          (String (digit (n mod 10)) EmptyString))).

(** [%Y] as [strftime] prints it through the C library (glibc): the decimal
    digits of the year without padding, so four digits from year 1000 on
    and fewer before. *)
Definition year_digits (n : Z) : string :=
  if n <? 10 then String (digit n) EmptyString
  else if n <? 100 then zfill2 n
  else if n <? 1000 then String (digit (n / 100)) (zfill2 (n mod 100))
  else zfill4 n.

End Calendar.

(** A [datetime] whose minute, second and microsecond are zero, in the
    normal form the library computes with: the proleptic Gregorian ordinal
    of its date and its hour.  [year], [month] and [day] are read off the
    ordinal. *)
Record datetime : Type := mk_datetime { ordinal : Z; hour : Z }.

Definition valid_datetime (t : datetime) : Prop :=
  1 <= ordinal t <= Calendar.MAXORDINAL /\ 0 <= hour t < 24.

(** [datetime.strptime(s, '%Y%m%d%H')] on the four fields read from [s]:
    the fields must name a date and an hour that exist. *)
Definition strptime_YmdH (f : Z * Z * Z * Z) : outcome datetime :=
  let '(year, month, day, hh) := f in
  if (Calendar.MINYEAR <=? year) && (year <=? Calendar.MAXYEAR)
     && (1 <=? month) && (month <=? 12)
     && (1 <=? day) && (day <=? Calendar.days_in_month year month)
     && (0 <=? hh) && (hh <=? 23)
  then Returns (mk_datetime (Calendar.ymd2ord year month day) hh)
  else Raises ValueError.

(** [t.strftime('%Y%m%d')]. *)
Definition strftime_Ymd (t : datetime) : string :=
  let '(year, month, day) := Calendar.ord2ymd (ordinal t) in
  (Calendar.year_digits year ++ Calendar.zfill2 month
   ++ Calendar.zfill2 day)%string.

(** [datetime.timedelta(days=n)]: the magnitude of a timedelta is bounded. *)
Definition timedelta_days (n : Z) : outcome Z :=
  if Z.abs n <=? 999999999 then Returns n else Raises OverflowError.

(** [t + datetime.timedelta(hours=k)].  The sum is normalised to days and
    hours with floor division; a date outside [1, MAXORDINAL] (and, with it,
    any timedelta too large to build) is an [OverflowError]. *)
Definition add_hours (t : datetime) (k : Z) : outcome datetime :=
  let total := ordinal t * 24 + hour t + k in
  let days := total / 24 in
  if (0 <? days) && (days <=? Calendar.MAXORDINAL)
  then Returns (mk_datetime days (total mod 24))
  else Raises OverflowError.

(** [t + fn_dt] for a timedelta of whole days. *)
Definition add_days (t : datetime) (n : Z) : outcome datetime :=
  let days := ordinal t + n in
  if (0 <? days) && (days <=? Calendar.MAXORDINAL)
  then Returns (mk_datetime days (hour t))
  else Raises OverflowError.

(** The instant of [t] on the [datetime64[ns]] axis: nanoseconds since
    1970-01-01T00, whose ordinal is 719163. *)
Definition ns_per_hour : Z := 3600 * 1000000000.
Definition ns_per_day : Z := 24 * ns_per_hour.
Definition epoch_ordinal : Z := 719163.

Definition to_datetime64 (t : datetime) : Z :=
  ((ordinal t - epoch_ordinal) * 24 + hour t) * ns_per_hour.

(** [t] as a label of a [datetime64[ns]] index.  Sixty-four bits of
    nanoseconds reach from 1677-09-21 to 2262-04-11; an instant outside is
    no label of the index, and looking it up is a [KeyError]. *)
Definition time_label (t : datetime) : outcome Z :=
  let ns := to_datetime64 t in
  if (- 2 ^ 63 <? ns) && (ns <? 2 ^ 63) then Returns ns else Raises KeyError.

(** The calendar day (as an ordinal) a time coordinate falls on. *)
Definition ordinal_of_ns (t : Z) : Z := t / ns_per_day + epoch_ordinal.

(* ================================================================== *)
(** * Binary64 numbers *)
(* ================================================================== *)

(** An integer as the nearest binary64 number (ties to even). *)
Definition float_of_Z (z : Z) : float :=
  SF2Prim (binary_normalize prec emax z 0 false).

(** The rational a finite binary64 number stands for, in lowest terms. *)
Definition binary64_value (f : float) : option Q :=
  match Prim2SF f with
  | S754_zero _ => Some 0%Q
  | S754_finite s m e =>
      let n := if s then Z.neg m else Z.pos m in
      Some (Qred (if 0 <=? e then (n * 2 ^ e) # 1
                  else n # Z.to_pos (2 ^ (- e))))
  | _ => None
  end.

(** The binary64 number of a coordinate value: the quotient of numerator
    and denominator, which is the number itself when the value is one a
    binary64 number has. *)
Definition to_binary64 (x : Q) : float :=
  let r := Qred x in
  (float_of_Z (Qnum r) / float_of_Z (Z.pos (Qden r)))%float.

(* ================================================================== *)
(** * Labeled arrays *)
(* ================================================================== *)

(** Values along the longitude axis, one time frame
    ([isobaricInhPa][latitude][longitude]) and a whole variable. *)
Definition row : Type := list float.
Definition frame : Type := list (list row).
Definition field : Type := list frame.

(** What a daily GRIB file holds once opened: the time axis in
    [datetime64[ns]], the three spatial axes and the variables [u], [v], [w]
    on (time, isobaricInhPa, latitude, longitude). *)
Record Dataset : Type := mk_Dataset {
  time : list Z;
  isobaricInhPa : list Q;
  latitude : list Q;
  longitude : list Q;
  u : field;
  v : field;
  w : field
}.

(** One variable of a dataset with the time axis it is indexed by. *)
Record DataArray : Type := mk_DataArray {
  da_time : list Z;
  da_values : field
}.



(** [Index.equals]: the same labels in the same order. *)
Fixpoint index_equals (a b : list Q) : bool :=
  match a, b with
  | [], [] => true
  | x :: a', y :: b' => Qeq_bool x y && index_equals a' b'
  | _, _ => false
  end.

Definition same_grid (d0 d : Dataset) : bool :=
  index_equals (isobaricInhPa d0) (isobaricInhPa d)
  && index_equals (latitude d0) (latitude d)
  && index_equals (longitude d0) (longitude d).

(** [xr.concat(objs, 'time')].  Datasets on one common grid need no
    alignment: the time axes and the variables are appended in list order.
    Datasets whose grids differ are aligned to the union of the grids and
    filled with NaN, which is not followed here. *)
Definition xr_concat (objs : list Dataset) : outcome Dataset :=
  match objs with
  | [] => Raises ValueError
  | d0 :: rest =>
      if forallb (same_grid d0) rest then
        Returns {| time := concat (map time objs);
                   isobaricInhPa := isobaricInhPa d0;
                   latitude := latitude d0;
                   longitude := longitude d0;
                   u := concat (map u objs);
                   v := concat (map v objs);
                   w := concat (map w objs) |}
      else Raises (NotModelled "alignment of different grids")
  end.

(** ** Longitude *)

Definition Qltb (x y : Q) : bool := negb (Qle_bool y x).

(** [np.nanmin] of a coordinate; an empty array has no minimum. *)
Definition np_nanmin (xs : list Q) : outcome Q :=
  match xs with
  | [] => Raises ValueError
  | x :: xs' =>
      Returns (fold_left (fun a b => if Qle_bool a b then a else b) xs' x)
  end.

(** [xr.where(lon < 0, lon + 360, lon)] at one label: the sum is the
    binary64 one, rounded to the nearest number (it is finite for every
    label a grid can hold). *)
Definition adjust (L : Q) : Q :=
  if Qltb L 0 then
    match binary64_value (to_binary64 L + 360) with
    | Some q => q
    | None => (L + 360)%Q
    end
  else L.

(** Python's [sorted]: stable, comparing with [<] only. *)
Fixpoint insert_sorted (x : Q) (l : list Q) : list Q :=
  match l with
  | [] => [x]
  | y :: l' => if Qltb y x then y :: insert_sorted x l' else x :: l
  end.

Definition sorted (l : list Q) : list Q := fold_right insert_sorted [] l.

(** Position of a label in an index. *)
Fixpoint get_loc (index : list Q) (x : Q) : option nat :=
  match index with
  | [] => None
  | y :: index' =>
      if Qeq_bool y x then Some 0%nat else option_map S (get_loc index' x)
  end.

Fixpoint is_unique (index : list Q) : bool :=
  match index with
  | [] => true
  | y :: index' => negb (existsb (Qeq_bool y) index') && is_unique index'
  end.

(** [Index.get_indexer(labels)]: reindexing needs a uniquely valued index,
    and every label must be found. *)
Fixpoint locate_all (index labels : list Q) : outcome (list nat) :=
  match labels with
  | [] => Returns []
  | x :: labels' =>
      match get_loc index x with
      | None => Raises KeyError
      | Some i => rest <- locate_all index labels' ;; Returns (i :: rest)
      end
  end.

Definition get_indexer (index labels : list Q) : outcome (list nat) :=
  if is_unique index then locate_all index labels
  else Raises InvalidIndexError.

(** Positional selection along one axis. *)
Definition take {A : Type} (d : A) (indexer : list nat) (l : list A) : list A :=
  map (fun i => nth i l d) indexer.

Definition isel_longitude (indexer : list nat) (f : field) : field :=
  map (map (map (take nan indexer))) f.

(** Lines 117-131: when the smallest longitude is negative, the adjusted
    coordinate becomes the dimension, the data are selected in the order of
    its sorted labels, and it takes the place of the old coordinate. *)
Definition normalize_longitude (comb_ds : Dataset) : outcome Dataset :=
  lo <- np_nanmin (longitude comb_ds) ;;
  if Qltb lo 0 then
    let longitude_adjusted := map adjust (longitude comb_ds) in
    indexer <- get_indexer longitude_adjusted (sorted longitude_adjusted) ;;
    Returns {| time := time comb_ds;
               isobaricInhPa := isobaricInhPa comb_ds;
               latitude := latitude comb_ds;
               longitude := take 0%Q indexer longitude_adjusted;
               u := isel_longitude indexer (u comb_ds);
               v := isel_longitude indexer (v comb_ds);
               w := isel_longitude indexer (w comb_ds) |}
  else Returns comb_ds.

(** ** Label-based slicing of the time axis *)

Fixpoint is_monotonic_increasing (l : list Z) : bool :=
  match l with
  | [] => true
  | x :: l' =>
      match l' with
      | [] => true
      | y :: _ => (x <=? y) && is_monotonic_increasing l'
      end
  end.

Fixpoint is_monotonic_decreasing (l : list Z) : bool :=
  match l with
  | [] => true
  | x :: l' =>
      match l' with
      | [] => true
      | y :: _ => (y <=? x) && is_monotonic_decreasing l'
      end
  end.

Definition count (p : Z -> bool) (l : list Z) : nat := length (filter p l).

(** Positions at which a label occurs. *)
Fixpoint occurrences (i : nat) (index : list Z) (x : Z) : list nat :=
  match index with
  | [] => []
  | y :: index' =>
      (if y =? x then [i] else []) ++ occurrences (S i) index' x
  end.

Fixpoint contiguous (ps : list nat) : bool :=
  match ps with
  | [] => true
  | p :: ps' =>
      match ps' with
      | [] => true
      | q :: _ => (q =? S p)%nat && contiguous ps'
      end
  end.

(** [Index.get_slice_bound(label, side)].  On an increasing index the bound
    is the insertion point of the label ([searchsorted]).  Otherwise a label
    that occurs in one run of positions bounds the slice at that run, an
    absent label is placed by [searchsorted] on a decreasing index, and
    anything else is a [KeyError]. *)
Definition get_slice_bound (index : list Z) (label : Z) (right : bool)
  : outcome nat :=
  if is_monotonic_increasing index then
    Returns (if right then count (fun t => t <=? label) index
             else count (fun t => t <? label) index)
  else
    match occurrences 0 index label with
    | [] =>
        if is_monotonic_decreasing index
        then Returns (count (fun t => label <? t) index)
        else Raises KeyError
    | p :: ps =>
        if contiguous (p :: ps)
        then Returns (if right then S (last ps p) else p)
        else Raises KeyError
    end.

(** Python's [l[i:j]]. *)
Definition py_slice {A : Type} (i j : nat) (l : list A) : list A :=
  firstn (j - i) (skipn i l).

(** [da.loc[slice_start:slice_end, :, :]]: both bounds are labels and both
    are included. *)
Definition loc_time_slice (da : DataArray) (slice_start slice_end : datetime)
  : outcome DataArray :=
  lo <- time_label slice_start ;;
  hi <- time_label slice_end ;;
  i <- get_slice_bound (da_time da) lo false ;;
  j <- get_slice_bound (da_time da) hi true ;;
  Returns {| da_time := py_slice i j (da_time da);
             da_values := py_slice i j (da_values da) |}.

(** [np.any(np.isnan(a))] *)
Definition np_any_isnan (a : DataArray) : bool :=
  existsb (existsb (existsb (existsb PrimFloat.is_nan))) (da_values a).

(** ** Sampling metadata *)

(** [(t1 - t0) / np.timedelta64(1, 's')] on [datetime64[ns]] values: both
    sides are cast to binary64 in nanoseconds and divided. *)
Definition timedelta_seconds (t0 t1 : Z) : float :=
  (float_of_Z (t1 - t0) / float_of_Z 1000000000)%float.

(** Python's [x / n] for a float [x] and an int [n]. *)
Definition float_truediv_int (x : float) (n : Z) : outcome float :=
  if n =? 0 then Raises ZeroDivisionError
  else if PrimFloat.is_infinity (float_of_Z n) then Raises OverflowError
  else Returns (x / float_of_Z n)%float.

(* ================================================================== *)
(** * The constructor *)
(* ================================================================== *)

(** The configuration after [configparser] and [int()] have read it:
    [start_ymdh] holds year, month, day and hour of the ['%Y%m%d%H'] text. *)
Record config : Type := mk_config {
  start_ymdh : Z * Z * Z * Z;
  forward_option : Z;
  integration_length : Z;
  input_era5_case : string;
  time_step : Z;
  boundary_check : bool
}.

(** The input directory: the dataset each existing path opens to. *)
Definition filesystem : Type := string -> option Dataset.

Definition os_path_exists (fs : filesystem) (p : string) : bool :=
  match fs p with Some _ => true | None => false end.

Definition xr_load_dataset (fs : filesystem) (p : string) : outcome Dataset :=
  match fs p with
  | Some ds => Returns ds
  | None => Raises (FileNotFoundError p)
  end.

(** The attributes of a constructed object. *)
Record era5_acc_fields : Type := mk_era5_acc_fields {
  strt_t : datetime;
  forward : Z;
  final_t : datetime;
  nc_pres_files : list string;
  drv_fld_dt : float;
  step_per_inpf : float;
  U : DataArray;
  V : DataArray;
  W : DataArray;
  xlat : list Q;
  xlon : list Q;
  xz : list Q;
  inp_nfrm : Z
}.

Definition print_prefix : string := "lib.preprocess_era5inp>>".
Definition fn_suffix : string := "-pl.grib".

Definition pl_file (input_dir : string) (t : datetime) : string :=
  (input_dir ++ "/" ++ strftime_Ymd t ++ fn_suffix)%string.

Definition cannot_locate (fn : string) : string :=
  (print_prefix ++ "cannot locate:" ++ fn
   ++ ", please check files or settings!")%string.

Definition found_nan : string :=
  (print_prefix ++ "found NAN in combined data set, please check the download domains for all variables are identical.")%string.

(** The variables the [while] loop of lines 93-101 updates. *)
Record loop_state : Type := mk_loop_state {
  curr_t : datetime;
  files : list string;
  ds_grib : list Dataset
}.

(** Lines 94-101, one iteration. *)
Definition loop_body (fs : filesystem) (input_dir : string) (fn_dt : Z)
  (st : loop_state) : outcome loop_state :=
  curr <- add_days (curr_t st) fn_dt ;;
  let fn := pl_file input_dir curr in
  if negb (os_path_exists fs fn) then throw_error (cannot_locate fn)
  else
    ds <- xr_load_dataset fs fn ;;
    Returns {| curr_t := curr;
               files := files st ++ [fn];
               ds_grib := ds_grib st ++ [ds] |}.

(** Lines 93-101: [fuel] bounds the number of iterations. *)
Fixpoint while_loop (fuel : nat) (fs : filesystem) (input_dir : string)
  (fn_dt : Z) (final : datetime) (st : loop_state) : outcome loop_state :=
  if negb (String.eqb (strftime_Ymd (curr_t st)) (strftime_Ymd final)) then
    match fuel with
    | O => OutOfFuel
    | S fuel' =>
        st' <- loop_body fs input_dir fn_dt st ;;
        while_loop fuel' fs input_dir fn_dt final st'
    end
  else Returns st.

(** Lines 73-101: the window, the file names and the loaded files, in the
    order of discovery. *)
Record discovered : Type := mk_discovered {
  d_strt_t : datetime;
  d_final_t : datetime;
  d_files : list string;
  d_ds_grib : list Dataset
}.

(** Lines 73-76: the start and the end of the integration. *)
Definition window (cfg : config) : outcome (datetime * datetime) :=
  strt <- strptime_YmdH (start_ymdh cfg) ;;
  let fwd := forward_option cfg in
  final <- add_hours strt (fwd * integration_length cfg) ;;
  Returns (strt, final).

Definition discover (fuel : nat) (cfg : config) (fs : filesystem)
  : outcome discovered :=
  '(strt, final) <- window cfg ;;
  let fwd := forward_option cfg in
  let input_dir := input_era5_case cfg in
  let fn := pl_file input_dir strt in
  if negb (os_path_exists fs fn) then throw_error (cannot_locate fn)
  else
    ds <- xr_load_dataset fs fn ;;
    fn_dt <- timedelta_days (1 * fwd) ;;
    st <- while_loop fuel fs input_dir fn_dt final
            {| curr_t := strt; files := [fn]; ds_grib := [ds] |} ;;
    Returns {| d_strt_t := strt; d_final_t := final;
               d_files := files st; d_ds_grib := ds_grib st |}.

(** Lines 103-112: the order of concatenation and the slice bounds, which
    stay unbound when [forward] is neither -1 nor 1. *)
Definition orient (fwd : Z) (strt final : datetime) (grib : list Dataset)
  : list Dataset * option (datetime * datetime) :=
  if fwd =? -1 then (rev grib, Some (final, strt))
  else if fwd =? 1 then (grib, Some (strt, final))
  else (grib, None).

(** Lines 103-131: the combined dataset and the slice bounds. *)
Definition combine (fwd : Z) (dsc : discovered)
  : outcome (Dataset * option (datetime * datetime)) :=
  let '(grib, bounds) :=
    orient fwd (d_strt_t dsc) (d_final_t dsc) (d_ds_grib dsc) in
  comb_ds <- xr_concat grib ;;
  comb_ds <- normalize_longitude comb_ds ;;
  Returns (comb_ds, bounds).

(** Lines 133-139: the sampling metadata and the sliced variables. *)
Record sliced : Type := mk_sliced {
  s_drv_fld_dt : float;
  s_step_per_inpf : float;
  s_U : DataArray;
  s_V : DataArray;
  s_W : DataArray
}.

Definition var (t : list Z) (f : field) : DataArray :=
  {| da_time := t; da_values := f |}.

Definition slice_fields (cfg : config) (comb_ds : Dataset)
  (bounds : option (datetime * datetime)) : outcome sliced :=
  match time comb_ds with
  | t0 :: t1 :: _ =>
      let dt := timedelta_seconds t0 t1 in
      steps <- float_truediv_int dt (time_step cfg * 60) ;;
      match bounds with
      | None => Raises (UnboundLocalError "slice_start")
      | Some (slice_start, slice_end) =>
          aU <- loc_time_slice (var (time comb_ds) (u comb_ds))
                  slice_start slice_end ;;
          aV <- loc_time_slice (var (time comb_ds) (v comb_ds))
                  slice_start slice_end ;;
          aW <- loc_time_slice (var (time comb_ds) (w comb_ds))
                  slice_start slice_end ;;
          Returns {| s_drv_fld_dt := dt; s_step_per_inpf := steps;
                     s_U := aU; s_V := aV; s_W := aW |}
      end
  | _ => Raises IndexError
  end.

(** Lines 140-156: the check for missing values, the coordinates, the frame
    count and the boundary-check branch, whose [fn_timestamp] is a name
    that nothing binds. *)
Definition finish (cfg : config) (dsc : discovered) (comb_ds : Dataset)
  (s : sliced) : outcome era5_acc_fields :=
  if np_any_isnan (s_U s) || np_any_isnan (s_V s) || np_any_isnan (s_W s)
  then throw_error found_nan
  else
    let self :=
      {| strt_t := d_strt_t dsc;
         forward := forward_option cfg;
         final_t := d_final_t dsc;
         nc_pres_files := d_files dsc;
         drv_fld_dt := s_drv_fld_dt s;
         step_per_inpf := s_step_per_inpf s;
         U := s_U s; V := s_V s; W := s_W s;
         xlat := latitude comb_ds;
         xlon := longitude comb_ds;
         xz := isobaricInhPa comb_ds;
         inp_nfrm := Z.of_nat (length (da_time (s_U s))) |} in
    if boundary_check cfg then Raises (NameError "fn_timestamp")
    else Returns self.

(** [era5_acc_fields.__init__(config)] *)
Definition init (fuel : nat) (cfg : config) (fs : filesystem)
  : outcome era5_acc_fields :=
  dsc <- discover fuel cfg fs ;;
  '(comb_ds, bounds) <- combine (forward_option cfg) dsc ;;
  s <- slice_fields cfg comb_ds bounds ;;
  finish cfg dsc comb_ds s.

(* ================================================================== *)
(** * Sample inputs *)
(* ================================================================== *)

Module Sample.

(** A day of six-hourly frames on a grid of one level, one latitude and the
    longitudes -90, 0, 90; the wind values carry the day and the column. *)
Definition lon3 : list Q := [(-90)%Q; 0%Q; 90%Q].

Definition frame_of (x : float) : frame :=
  [[ [x; (x + 1)%float; (x + 2)%float] ]].

Definition day_times (n : Z) : list Z :=
  map (fun h => to_datetime64 (mk_datetime n h)) [0; 6; 12; 18].

Definition day_field (n : Z) : field :=
  map (fun h => frame_of (float_of_Z (10 * (n mod 100) + h))) [0; 6; 12; 18].

Definition day_dataset (n : Z) : Dataset :=
  {| time := day_times n;
     isobaricInhPa := [500%Q];
     latitude := [30%Q];
     longitude := lon3;
     u := day_field n; v := day_field n; w := day_field n |}.

(** A directory holding the files of the listed days. *)
Definition directory (dir : string) (days : list Z) (mk : Z -> Dataset)
  : filesystem :=
  fun p =>
    match find (fun n => String.eqb p (pl_file dir (mk_datetime n 0))) days with
    | Some n => Some (mk n)
    | None => None
    end.

(** 2019-12-30 is day 737423; 2020-01-01 is day 737425. *)
Definition fs : filesystem :=
  directory "/era5" [737423; 737424; 737425; 737426; 737427] day_dataset.

Definition cfg (fwd len : Z) (start : Z * Z * Z * Z) : config :=
  {| start_ymdh := start; forward_option := fwd; integration_length := len;
     input_era5_case := "/era5"; time_step := 30; boundary_check := false |}.

Definition forward30 : config := cfg 1 30 (2020, 1, 1, 0).
Definition backward30 : config := cfg (-1) 30 (2020, 1, 1, 0).

(** The backward run over the calendar span of [forward30]. *)
Definition backward_span : config := cfg (-1) 30 (2020, 1, 2, 6).

(** A direction that is neither forward nor backward. *)
Definition skipping : config := cfg 2 12 (2020, 1, 1, 0).

Definition with_boundary_check : config :=
  {| start_ymdh := (2020, 1, 1, 0); forward_option := 1;
     integration_length := 30; input_era5_case := "/era5";
     time_step := 30; boundary_check := true |}.

Definition step7 : config :=
  {| start_ymdh := (2020, 1, 1, 0); forward_option := 1;
     integration_length := 30; input_era5_case := "/era5";
     time_step := 7; boundary_check := false |}.

(** The same directory without the file of 2019-12-31. *)
Definition fs_gap : filesystem :=
  directory "/era5" [737423; 737425; 737426; 737427] day_dataset.

(** A day whose [w] misses one value, in its frame of 12:00. *)
Definition day_dataset_nan (n : Z) : Dataset :=
  {| time := day_times n;
     isobaricInhPa := [500%Q];
     latitude := [30%Q];
     longitude := lon3;
     u := day_field n; v := day_field n;
     w := [frame_of 1%float; frame_of 2%float;
           [[ [3%float; nan; 5%float] ]]; frame_of 4%float] |}.

Definition fs_nan : filesystem :=
  directory "/era5" [737423; 737424; 737425; 737426; 737427] day_dataset_nan.

(** What discovery returns on a sample, computed once. *)
Definition found (cfg : config) (fs : filesystem) : discovered :=
  match discover 10 cfg fs with
  | Returns dsc => dsc
  | _ => {| d_strt_t := mk_datetime 0 0; d_final_t := mk_datetime 0 0;
            d_files := []; d_ds_grib := [] |}
  end.

Definition forward30_found : discovered :=
  Eval vm_compute in found forward30 fs.
Definition backward30_found : discovered :=
  Eval vm_compute in found backward30 fs.
Definition backward_span_found : discovered :=
  Eval vm_compute in found backward_span fs.
Definition forward30_nan_found : discovered :=
  Eval vm_compute in found forward30 fs_nan.

(** The combined dataset and the sliced variables of a sample. *)
Definition combined (cfg : config) (dsc : discovered)
  : Dataset * option (datetime * datetime) :=
  match combine (forward_option cfg) dsc with
  | Returns cb => cb
  | _ => (mk_Dataset [] [] [] [] [] [] [], None)
  end.

Definition fields_of (cfg : config) (dsc : discovered) : sliced :=
  let '(comb_ds, bounds) := combined cfg dsc in
  match slice_fields cfg comb_ds bounds with
  | Returns s => s
  | _ => mk_sliced 0%float 0%float (var [] []) (var [] []) (var [] [])
  end.

Definition forward30_combined : Dataset * option (datetime * datetime) :=
  Eval vm_compute in combined forward30 forward30_found.
Definition backward30_combined : Dataset * option (datetime * datetime) :=
  Eval vm_compute in combined backward30 backward30_found.
Definition backward_span_combined : Dataset * option (datetime * datetime) :=
  Eval vm_compute in combined backward_span backward_span_found.
Definition forward30_nan_combined : Dataset * option (datetime * datetime) :=
  Eval vm_compute in combined forward30 forward30_nan_found.
Definition forward30_fields : sliced :=
  Eval vm_compute in fields_of forward30 forward30_found.
Definition backward30_fields : sliced :=
  Eval vm_compute in fields_of backward30 backward30_found.
Definition forward30_nan_fields : sliced :=
  Eval vm_compute in fields_of forward30 forward30_nan_found.

End Sample.

(** Inputs at the edges of what a configuration may hold. *)
Module Edge.

(** No direction at all. *)
Definition undirected : config := Sample.cfg 0 30 (2020, 1, 1, 0).

(** A step of zero minutes. *)
Definition no_step : config :=
  {| start_ymdh := (2020, 1, 1, 0); forward_option := 1;
     integration_length := 30; input_era5_case := "/era5";
     time_step := 0; boundary_check := false |}.

(** A negative length that leaves the start day, and one that stays in it. *)
Definition back_in_time : config := Sample.cfg 1 (-30) (2020, 1, 1, 0).
Definition same_day_back : config := Sample.cfg 1 (-3) (2020, 1, 1, 6).

(** A run inside one day. *)
Definition within_day : config := Sample.cfg 1 0 (2020, 1, 1, 0).

(** A day that holds the frame of 00:00 only. *)
Definition single_frame_dataset (n : Z) : Dataset :=
  {| time := [to_datetime64 (mk_datetime n 0)];
     isobaricInhPa := [500%Q];
     latitude := [30%Q];
     longitude := Sample.lon3;
     u := [Sample.frame_of 1%float];
     v := [Sample.frame_of 2%float];
     w := [Sample.frame_of 3%float] |}.

Definition fs_single : filesystem :=
  Sample.directory "/era5" [737425] single_frame_dataset.

Definition undirected_found : discovered :=
  Eval vm_compute in Sample.found undirected Sample.fs.
Definition undirected_combined : Dataset * option (datetime * datetime) :=
  Eval vm_compute in Sample.combined undirected undirected_found.
Definition no_step_combined : Dataset * option (datetime * datetime) :=
  Eval vm_compute in Sample.combined no_step Sample.forward30_found.
Definition within_day_single_found : discovered :=
  Eval vm_compute in Sample.found within_day fs_single.
Definition within_day_single_combined
  : Dataset * option (datetime * datetime) :=
  Eval vm_compute in Sample.combined within_day within_day_single_found.
Definition same_day_back_found : discovered :=
  Eval vm_compute in Sample.found same_day_back Sample.fs.
Definition same_day_back_combined : Dataset * option (datetime * datetime) :=
  Eval vm_compute in Sample.combined same_day_back same_day_back_found.

(** A day whose four frames are stored latest first, and the run over its
    first six hours. *)
Definition latest_first_dataset (n : Z) : Dataset :=
  {| time := rev (Sample.day_times n);
     isobaricInhPa := [500%Q];
     latitude := [30%Q];
     longitude := Sample.lon3;
     u := rev (Sample.day_field n);
     v := rev (Sample.day_field n);
     w := rev (Sample.day_field n) |}.

Definition fs_latest_first : filesystem :=
  Sample.directory "/era5" [737425] latest_first_dataset.

Definition morning : config := Sample.cfg 1 6 (2020, 1, 1, 0).

Definition morning_found : discovered :=
  Eval vm_compute in Sample.found morning fs_latest_first.
Definition morning_combined : Dataset * option (datetime * datetime) :=
  Eval vm_compute in Sample.combined morning morning_found.
Definition morning_fields : sliced :=
  Eval vm_compute in Sample.fields_of morning morning_found.

(** A forward run of minus six hours, from 06:00 to 00:00 of one day. *)
Definition six_back : config := Sample.cfg 1 (-6) (2020, 1, 1, 6).

Definition six_back_found : discovered :=
  Eval vm_compute in Sample.found six_back Sample.fs.
Definition six_back_combined : Dataset * option (datetime * datetime) :=
  Eval vm_compute in Sample.combined six_back six_back_found.
Definition six_back_fields : sliced :=
  Eval vm_compute in Sample.fields_of six_back six_back_found.



End Edge.

(* ================================================================== *)
(** * Vocabulary of the statements *)
(* ================================================================== *)

(** The pressure-level file of the calendar day with ordinal [n]. *)
Definition day_file (input_dir : string) (n : Z) : string :=
  pl_file input_dir (mk_datetime n 0).

(** The [k] days met from day [n] on in steps of [step] days. *)
Definition walk (n step : Z) (k : nat) : list Z :=
  map (fun i => n + step * Z.of_nat i) (seq 1 k).

(** The number of calendar days between the dates of two datetimes. *)
Definition days_apart (strt final : datetime) : nat :=
  Z.to_nat (Z.abs (ordinal final - ordinal strt)).

(** The days whose files a run needs, in the order it asks for them. *)
Definition required_days (fwd : Z) (strt final : datetime) : list Z :=
  ordinal strt :: walk (ordinal strt) fwd (days_apart strt final).

(** The loop of lines 93-101 as a recursion over the days it visits. *)
Fixpoint visit (fs : filesystem) (input_dir : string) (days : list Z)
  (st : loop_state) : outcome loop_state :=
  match days with
  | [] => Returns st
  | n :: days' =>
      match fs (day_file input_dir n) with
      | None => Raises (FatalError (cannot_locate (day_file input_dir n)))
      | Some ds =>
          visit fs input_dir days'
            {| curr_t := mk_datetime n (hour (curr_t st));
               files := files st ++ [day_file input_dir n];
               ds_grib := ds_grib st ++ [ds] |}
      end
  end.

(** The starting point of the discovery when nothing has been read. *)
Definition nothing_read (strt : datetime) : loop_state :=
  {| curr_t := strt; files := []; ds_grib := [] |}.

Definition as_discovered (strt final : datetime) (st : loop_state)
  : outcome discovered :=
  Returns {| d_strt_t := strt; d_final_t := final;
             d_files := files st; d_ds_grib := ds_grib st |}.

(** A list of file names that runs through strictly increasing dates. *)
Definition increasing_dates (input_dir : string) (fl : list string) : Prop :=
  exists days,
    Forall (fun n => 1 <= n <= Calendar.MAXORDINAL) days
    /\ fl = map (day_file input_dir) days
    /\ StronglySorted Z.lt days.

(** Each daily file holds strictly increasing times of its own day. *)
Definition daily_files_ok (input_dir : string) (fs : filesystem) : Prop :=
  forall n ds,
    1 <= n <= Calendar.MAXORDINAL ->
    fs (day_file input_dir n) = Some ds ->
    StronglySorted Z.lt (time ds)
    /\ Forall (fun t => ordinal_of_ns t = n) (time ds).

(** The value of a variable at (time, level, latitude, longitude). *)
Definition value_at (a : DataArray) (i j k l : nat) : option float :=
  match nth_error (da_values a) i with
  | None => None
  | Some fr =>
      match nth_error fr j with
      | None => None
      | Some lat =>
          match nth_error lat k with
          | None => None
          | Some r => nth_error r l
          end
      end
  end.

Definition missing_in (a : DataArray) : Prop :=
  exists i j k l x, value_at a i j k l = Some x /\ PrimFloat.is_nan x = true.

(** Labels that are pairwise different as numbers. *)
Definition distinct (l : list Q) : Prop :=
  ForallOrdPairs (fun a b => ~ (a == b)%Q) l.

(** The binary64 sum [L + 360] of line 122 commits no rounding. *)
Definition exact_plus_360 (L : Q) : bool :=
  match binary64_value (to_binary64 L + 360) with
  | Some q => Qeq_bool q (L + 360)
  | None => false
  end.

(** The position [get_loc] finds, 0 when there is none. *)
Definition position (index : list Q) (x : Q) : nat :=
  match get_loc index x with
  | Some i => i
  | None => 0%nat
  end.

(** [ceil(a / b)] for a positive [b]. *)
Definition ceil_div (a b : Z) : Z := - ((- a) / b).

(** [msg] contains [p]. *)
Definition names (msg p : string) : Prop :=
  exists pre post, msg = (pre ++ p ++ post)%string.

(* ================================================================== *)
(** * Facts about outcomes *)
(* ================================================================== *)

Lemma bind_returns {A B : Type} (m : outcome A) (k : A -> outcome B) (b : B) :
  bind m k = Returns b -> exists a, m = Returns a /\ k a = Returns b.
Proof.
  destruct m as [a | e | ]; simpl; intros Hk; try discriminate.
  exists a. split; [reflexivity | exact Hk].
Qed.

(* ================================================================== *)
(** * The calendar: ordinals and dates correspond *)
(* ================================================================== *)

Module CalendarFacts.
Import Calendar.

Ltac divmod := Z.to_euclidean_division_equations; lia.

(** The days before a year, in terms of the position of the year inside
    its 400-, 100- and 4-year cycles. *)
Lemma days_before_year_cycles (q400 q100 q4 q1 : Z) :
  0 <= q100 <= 3 -> 0 <= q4 <= 24 -> 0 <= q1 <= 3 ->
  days_before_year (q400 * 400 + 1 + q100 * 100 + q4 * 4 + q1)
  = q400 * DI400Y + q100 * DI100Y + q4 * DI4Y + q1 * 365.
Proof.
  intros H100 H4 H1. unfold days_before_year, DI400Y, DI100Y, DI4Y.
  cbv zeta. divmod.
Qed.

Lemma is_leap_cycles (q400 q100 q4 q1 : Z) :
  0 <= q100 <= 3 -> 0 <= q4 <= 24 -> 0 <= q1 <= 3 ->
  is_leap (q400 * 400 + 1 + q100 * 100 + q4 * 4 + q1)
  = (q1 =? 3) && (negb (q4 =? 24) || (q100 =? 3)).
Proof.
  intros H100 H4 H1. unfold is_leap.
  repeat match goal with
         | |- context [?a =? ?b] => destruct (Z.eqb_spec a b)
         end; cbn [andb orb negb]; try reflexivity; exfalso; divmod.
Qed.

Lemma month_day_checked (leapyear : bool) :
  forallb (fun k => month_day_ok leapyear (Z.of_nat k)) (seq 0 365) = true.
Proof. destruct leapyear; vm_compute; reflexivity. Qed.

Lemma month_day_spec (leapyear : bool) (n : Z) :
  0 <= n < 365 ->
  let '(m, d) := month_day leapyear n in
  1 <= m <= 12
  /\ 1 <= d <= DAYS_IN_MONTH m + (if (m =? 2) && leapyear then 1 else 0)
  /\ DAYS_BEFORE_MONTH m + (if (2 <? m) && leapyear then 1 else 0) + d = n + 1.
Proof.
  intros Hn.
  pose proof (month_day_checked leapyear) as Hall.
  rewrite forallb_forall in Hall.
  specialize (Hall (Z.to_nat n)).
  rewrite Z2Nat.id in Hall by lia.
  assert (Hin : In (Z.to_nat n) (seq 0 365)) by (apply in_seq; lia).
  apply Hall in Hin. unfold month_day_ok in Hin.
  destruct (month_day leapyear n) as [m d].
  repeat rewrite andb_true_iff in Hin.
  destruct Hin as [[[[H1 H2] H3] H4] H5].
  rewrite Z.leb_le in H1, H2, H3, H4. rewrite Z.eqb_eq in H5.
  lia.
Qed.

Lemma DAYS_IN_MONTH_le (m : Z) : DAYS_IN_MONTH m <= 31.
Proof.
  unfold DAYS_IN_MONTH.
  repeat match goal with
         | |- context [match ?x with _ => _ end] => destruct x
         end; lia.
Qed.

(** [ord2ymd] through the quotients of its four divisions. *)
Lemma ord2ymd_cycles (n q400 r400 q100 r100 q4 r4 q1 r1 : Z) :
  n - 1 = q400 * DI400Y + r400 -> 0 <= r400 < DI400Y ->
  r400 = q100 * DI100Y + r100 -> 0 <= r100 < DI100Y ->
  r100 = q4 * DI4Y + r4 -> 0 <= r4 < DI4Y ->
  r4 = q1 * 365 + r1 -> 0 <= r1 < 365 ->
  ord2ymd n
  = let year := q400 * 400 + 1 + q100 * 100 + q4 * 4 + q1 in
    if (q1 =? 4) || (q100 =? 4) then (year - 1, 12, 31)
    else
      let '(m, d) :=
        month_day ((q1 =? 3) && (negb (q4 =? 24) || (q100 =? 3))) r1 in
      (year, m, d).
Proof.
  unfold DI400Y, DI100Y, DI4Y. intros E400 B400 E100 B100 E4 B4 E1 B1.
  unfold ord2ymd, DI400Y, DI100Y, DI4Y. cbv zeta.
  assert (Q400 : (n - 1) / 146097 = q400) by divmod.
  assert (R400 : (n - 1) mod 146097 = r400) by divmod.
  rewrite Q400, R400.
  assert (Q100 : r400 / 36524 = q100) by divmod.
  assert (R100 : r400 mod 36524 = r100) by divmod.
  rewrite Q100, R100.
  assert (Q4 : r100 / 1461 = q4) by divmod.
  assert (R4 : r100 mod 1461 = r4) by divmod.
  rewrite Q4, R4.
  assert (Q1 : r4 / 365 = q1) by divmod.
  assert (R1 : r4 mod 365 = r1) by divmod.
  rewrite Q1, R1.
  destruct ((q1 =? 4) || (q100 =? 4)); [reflexivity | ].
  unfold month_day. cbv zeta.
  match goal with |- context [if ?c then _ else _] =>
    match c with (_ <? _) => destruct c end end; reflexivity.
Qed.

(** Every ordinal is the ordinal of the date [ord2ymd] gives it, and that
    date exists: its month is one of the twelve and its day one of the
    month. *)
Theorem ymd2ord_ord2ymd (n : Z) :
  let '(y, m, d) := ord2ymd n in
  ymd2ord y m d = n /\ 1 <= m <= 12 /\ 1 <= d <= 31
  /\ ((n - 1) / DI400Y) * 400 + 1 <= y <= ((n - 1) / DI400Y) * 400 + 400
  /\ d <= days_in_month y m.
Proof.
  pose proof (Z.div_mod (n - 1) DI400Y ltac:(discriminate)) as E400.
  pose proof (Z.mod_pos_bound (n - 1) DI400Y ltac:(reflexivity)) as B400.
  set (q400 := (n - 1) / DI400Y) in *. set (r400 := (n - 1) mod DI400Y) in *.
  pose proof (Z.div_mod r400 DI100Y ltac:(discriminate)) as E100.
  pose proof (Z.mod_pos_bound r400 DI100Y ltac:(reflexivity)) as B100.
  set (q100 := r400 / DI100Y) in *. set (r100 := r400 mod DI100Y) in *.
  pose proof (Z.div_mod r100 DI4Y ltac:(discriminate)) as E4.
  pose proof (Z.mod_pos_bound r100 DI4Y ltac:(reflexivity)) as B4.
  set (q4 := r100 / DI4Y) in *. set (r4 := r100 mod DI4Y) in *.
  pose proof (Z.div_mod r4 365 ltac:(discriminate)) as E1.
  pose proof (Z.mod_pos_bound r4 365 ltac:(reflexivity)) as B1.
  set (q1 := r4 / 365) in *. set (r1 := r4 mod 365) in *.
  rewrite (ord2ymd_cycles n q400 r400 q100 r100 q4 r4 q1 r1)
    by (assumption || lia).
  clearbody q400 r400 q100 r100 q4 r4 q1 r1.
  unfold DI400Y, DI100Y, DI4Y in *. cbv zeta.
  assert (H100 : 0 <= q100 <= 4) by lia.
  assert (H4 : 0 <= q4 <= 24) by lia.
  assert (H1 : 0 <= q1 <= 4) by lia.
  assert (Dec : forall y, 31 <= days_in_month y 12).
  { intros y. unfold days_in_month. change (12 =? 2) with false.
    cbv [andb DAYS_IN_MONTH]. lia. }
  destruct (Z.eqb_spec q1 4) as [E14 | N14]; simpl orb.
  - (* the last day of a 4-year cycle *)
    assert (q100 <= 3 /\ q4 <= 23) as [L100 L4] by lia.
    replace (q400 * 400 + 1 + q100 * 100 + q4 * 4 + q1 - 1)
      with (q400 * 400 + 1 + q100 * 100 + q4 * 4 + 3) by lia.
    split; [ | repeat split; solve [lia | apply Dec]].
    unfold ymd2ord, days_before_month.
    rewrite days_before_year_cycles, is_leap_cycles by lia.
    unfold DI400Y, DI100Y, DI4Y.
    replace (q4 =? 24) with false by (symmetry; apply Z.eqb_neq; lia).
    simpl. lia.
  - destruct (Z.eqb_spec q100 4) as [E1004 | N1004].
    + (* the last day of a 400-year cycle *)
      assert (q4 = 0 /\ q1 = 0) as [-> ->] by lia. subst q100.
      replace (q400 * 400 + 1 + 4 * 100 + 0 * 4 + 0 - 1)
        with (q400 * 400 + 1 + 3 * 100 + 24 * 4 + 3) by lia.
      split; [ | repeat split; solve [lia | apply Dec]].
      unfold ymd2ord, days_before_month.
      rewrite days_before_year_cycles, is_leap_cycles by lia.
      unfold DI400Y, DI100Y, DI4Y. simpl. lia.
    + pose proof (month_day_spec
                    ((q1 =? 3) && (negb (q4 =? 24) || (q100 =? 3))) r1 B1)
        as Hmd.
      destruct (month_day _ r1) as [m d].
      destruct Hmd as (Hm & Hd & Hsum).
      unfold ymd2ord, days_before_month, days_in_month.
      rewrite days_before_year_cycles, is_leap_cycles by lia.
      unfold DI400Y, DI100Y, DI4Y.
      pose proof (DAYS_IN_MONTH_le m) as Hdim.
      destruct (Z.eqb_spec m 2) as [-> | Nm]; cbn [andb] in *.
      * change (DAYS_IN_MONTH 2) with 28 in *.
        destruct ((q1 =? 3) && _); repeat split; lia.
      * repeat split; lia.
Qed.

Lemma days_before_year_succ (y : Z) :
  days_before_year (y + 1)
  = days_before_year y + 365 + (if is_leap y then 1 else 0).
Proof.
  unfold days_before_year, is_leap. cbv zeta.
  replace (y + 1 - 1) with y by lia.
  repeat match goal with
         | |- context [?a =? ?b] => destruct (Z.eqb_spec a b)
         end; cbn [andb orb negb]; divmod.
Qed.

Lemma days_before_year_mono (y y' : Z) :
  y <= y' -> days_before_year y <= days_before_year y'.
Proof.
  unfold days_before_year. cbv zeta. intros H. divmod.
Qed.

(** Two dates that exist and have the same ordinal are the same date. *)
Lemma ymd2ord_inj (y m d y' m' d' : Z) :
  1 <= m <= 12 -> 1 <= d <= days_in_month y m ->
  1 <= m' <= 12 -> 1 <= d' <= days_in_month y' m' ->
  ymd2ord y m d = ymd2ord y' m' d' ->
  (y, m, d) = (y', m', d').
Proof.
  intros Hm Hd Hm' Hd' E.
  assert (B : forall y m d, 1 <= m <= 12 -> 1 <= d <= days_in_month y m ->
                days_before_year y < ymd2ord y m d
                <= days_before_year (y + 1)).
  { clear. intros y m d Hm. unfold ymd2ord, days_before_month, days_in_month.
    rewrite days_before_year_succ.
    assert (Em : m = 1 \/ m = 2 \/ m = 3 \/ m = 4 \/ m = 5 \/ m = 6 \/ m = 7
                 \/ m = 8 \/ m = 9 \/ m = 10 \/ m = 11 \/ m = 12) by lia.
    repeat (destruct Em as [-> | Em]); try subst m;
      destruct (is_leap y);
      cbv [DAYS_BEFORE_MONTH DAYS_IN_MONTH Z.eqb Z.ltb Z.compare Pos.eqb
           Pos.compare Pos.compare_cont andb]; lia. }
  pose proof (B y m d Hm Hd) as By. pose proof (B y' m' d' Hm' Hd') as By'.
  assert (Ey : y = y').
  { destruct (Z.lt_trichotomy y y') as [L | [Ey | L]]; [ | exact Ey | ].
    - pose proof (days_before_year_mono (y + 1) y' ltac:(lia)). lia.
    - pose proof (days_before_year_mono (y' + 1) y ltac:(lia)). lia. }
  subst y'. clear B By By'.
  unfold ymd2ord, days_before_month, days_in_month in *.
  assert (Em : m = 1 \/ m = 2 \/ m = 3 \/ m = 4 \/ m = 5 \/ m = 6 \/ m = 7
               \/ m = 8 \/ m = 9 \/ m = 10 \/ m = 11 \/ m = 12) by lia.
  assert (Em' : m' = 1 \/ m' = 2 \/ m' = 3 \/ m' = 4 \/ m' = 5 \/ m' = 6
                \/ m' = 7 \/ m' = 8 \/ m' = 9 \/ m' = 10 \/ m' = 11
                \/ m' = 12) by lia.
  revert Hd Hd' E.
  repeat (destruct Em as [-> | Em]); try subst m;
    repeat (destruct Em' as [-> | Em']); try subst m';
    destruct (is_leap y);
    cbv [DAYS_BEFORE_MONTH DAYS_IN_MONTH Z.eqb Z.ltb Z.compare Pos.eqb
         Pos.compare Pos.compare_cont andb];
    intros Hd Hd' E; try (exfalso; lia);
    (replace d' with d by lia); reflexivity.
Qed.

(** The date of the ordinal of a date that exists is that date. *)
Theorem ord2ymd_ymd2ord (y m d : Z) :
  1 <= m <= 12 -> 1 <= d <= days_in_month y m ->
  ord2ymd (ymd2ord y m d) = (y, m, d).
Proof.
  intros Hm Hd. pose proof (ymd2ord_ord2ymd (ymd2ord y m d)) as H.
  destruct (ord2ymd (ymd2ord y m d)) as [[y' m'] d'].
  destruct H as (E & Hm' & Hd' & _ & Hd'').
  apply ymd2ord_inj; try lia. 
Qed.

End CalendarFacts.

(* ================================================================== *)
(** * Dates and file names *)
(* ================================================================== *)

Module NameFacts.
Import Calendar CalendarFacts.

Lemma digit_inj (a b : Z) :
  0 <= a <= 9 -> 0 <= b <= 9 -> digit a = digit b -> a = b.
Proof.
  intros Ha Hb.
  assert (Ea : a = 0 \/ a = 1 \/ a = 2 \/ a = 3 \/ a = 4 \/ a = 5 \/ a = 6
               \/ a = 7 \/ a = 8 \/ a = 9) by lia.
  assert (Eb : b = 0 \/ b = 1 \/ b = 2 \/ b = 3 \/ b = 4 \/ b = 5 \/ b = 6
               \/ b = 7 \/ b = 8 \/ b = 9) by lia.
  repeat (destruct Ea as [-> | Ea]); try subst a;
    repeat (destruct Eb as [-> | Eb]); try subst b;
    simpl; intros E; solve [reflexivity | discriminate E].
Qed.

Lemma zfill2_inj (a b : Z) :
  0 <= a <= 99 -> 0 <= b <= 99 -> zfill2 a = zfill2 b -> a = b.
Proof.
  intros Ha Hb E. unfold zfill2 in E. injection E as E1 E0.
  apply digit_inj in E1; [ | divmod | divmod ].
  apply digit_inj in E0; [ | divmod | divmod ].
  divmod.
Qed.

Lemma zfill4_inj (a b : Z) :
  0 <= a <= 9999 -> 0 <= b <= 9999 -> zfill4 a = zfill4 b -> a = b.
Proof.
  intros Ha Hb E. unfold zfill4 in E. injection E as E3 E2 E1 E0.
  apply digit_inj in E3; [ | divmod | divmod ].
  apply digit_inj in E2; [ | divmod | divmod ].
  apply digit_inj in E1; [ | divmod | divmod ].
  apply digit_inj in E0; [ | divmod | divmod ].
  divmod.
Qed.

(** The date of an ordinal a [datetime] can have. *)
Lemma ord2ymd_range (n : Z) :
  1 <= n <= MAXORDINAL ->
  let '(y, m, d) := ord2ymd n in
  ymd2ord y m d = n /\ 1 <= y <= 9999 /\ 1 <= m <= 12 /\ 1 <= d <= 31.
Proof.
  intros Hn. pose proof (ymd2ord_ord2ymd n) as H.
  destruct (ord2ymd n) as [[y m] d].
  destruct H as (E & Hm & Hd & Hy).
  unfold MAXORDINAL, DI400Y in *.
  assert (Hq : 0 <= (n - 1) / 146097 <= 24) by divmod.
  repeat split; try lia.
  destruct (Z.eq_dec y 10000) as [-> | Ny]; [ | lia].
  exfalso. unfold ymd2ord, days_before_month in E.
  assert (0 <= DAYS_BEFORE_MONTH m).
  { unfold DAYS_BEFORE_MONTH.
    repeat match goal with
           | |- context [match ?x with _ => _ end] => destruct x
           end; lia. }
  change (days_before_year 10000) with 3652059 in E.
  destruct ((2 <? m) && is_leap 10000) in E; lia.
Qed.

Lemma string_length_app (a b : string) :
  String.length (a ++ b) = (String.length a + String.length b)%nat.
Proof. induction a as [ | ch a IH]; simpl; [reflexivity | now rewrite IH]. Qed.

Lemma append_inj_length (a b c d : string) :
  String.length a = String.length b ->
  (a ++ c)%string = (b ++ d)%string -> a = b /\ c = d.
Proof.
  revert b. induction a as [ | ch a IH]; intros [ | ch' b]; simpl;
    intros L E; try discriminate L.
  - now split.
  - injection L as L. injection E as -> E.
    destruct (IH _ L E) as [-> ->]. now split.
Qed.

Lemma append_inj_r (a b c : string) :
  (a ++ c)%string = (b ++ c)%string -> a = b.
Proof.
  intros E. apply (append_inj_length a b c c); [ | exact E].
  apply (f_equal String.length) in E. rewrite !string_length_app in E. lia.
Qed.

(** The digits of a year tell the year, although their number varies. *)
Lemma year_digits_inj (a b : Z) :
  1 <= a <= 9999 -> 1 <= b <= 9999 -> year_digits a = year_digits b -> a = b.
Proof.
  intros Ha Hb. unfold year_digits.
  destruct (Z.ltb_spec a 10) as [A1 | A1];
    [ | destruct (Z.ltb_spec a 100) as [A2 | A2];
        [ | destruct (Z.ltb_spec a 1000) as [A3 | A3]]];
    (destruct (Z.ltb_spec b 10) as [B1 | B1];
     [ | destruct (Z.ltb_spec b 100) as [B2 | B2];
         [ | destruct (Z.ltb_spec b 1000) as [B3 | B3]]]);
    unfold zfill4, zfill2; intros E; try discriminate E.
  - injection E as E. apply digit_inj in E; lia.
  - apply zfill2_inj; [lia | lia | exact E].
  - injection E as E2 E1 E0.
    apply digit_inj in E2; [ | divmod | divmod ].
    apply digit_inj in E1; [ | divmod | divmod ].
    apply digit_inj in E0; [ | divmod | divmod ].
    divmod.
  - apply zfill4_inj; [lia | lia | exact E].
Qed.

Lemma year_digits_length (a : Z) :
  (1 <= String.length (year_digits a) <= 4)%nat.
Proof.
  unfold year_digits.
  destruct (a <? 10); [simpl; lia | ].
  destruct (a <? 100); [simpl; lia | ].
  destruct (a <? 1000); simpl; lia.
Qed.

(** From year 1000 on the year is written on four digits. *)
Lemma year_digits_four (y : Z) : 1000 <= y -> year_digits y = zfill4 y.
Proof.
  intros H. unfold year_digits.
  destruct (Z.ltb_spec y 10); [lia | ].
  destruct (Z.ltb_spec y 100); [lia | ].
  destruct (Z.ltb_spec y 1000); [lia | reflexivity].
Qed.

(** [strftime('%Y%m%d')] tells the dates of two datetimes apart. *)
Lemma strftime_Ymd_inj (t1 t2 : datetime) :
  1 <= ordinal t1 <= MAXORDINAL -> 1 <= ordinal t2 <= MAXORDINAL ->
  strftime_Ymd t1 = strftime_Ymd t2 -> ordinal t1 = ordinal t2.
Proof.
  intros V1 V2. unfold strftime_Ymd.
  pose proof (ord2ymd_range _ V1) as R1. pose proof (ord2ymd_range _ V2) as R2.
  destruct (ord2ymd (ordinal t1)) as [[y1 m1] d1].
  destruct (ord2ymd (ordinal t2)) as [[y2 m2] d2].
  destruct R1 as (E1 & Y1 & M1 & D1). destruct R2 as (E2 & Y2 & M2 & D2).
  intros E.
  assert (L : String.length (year_digits y1) = String.length (year_digits y2)).
  { apply (f_equal String.length) in E. rewrite !string_length_app in E.
    unfold zfill2 in E. simpl in E. lia. }
  destruct (append_inj_length _ _ _ _ L E) as [Ey E'].
  assert (y1 = y2) by (apply year_digits_inj; [lia | lia | exact Ey]).
  unfold zfill2 in E'. simpl in E'. injection E' as ma mb da db.
  assert (m1 = m2).
  { apply zfill2_inj; try lia. unfold zfill2. congruence. }
  assert (d1 = d2).
  { apply zfill2_inj; try lia. unfold zfill2. congruence. }
  congruence.
Qed.

Lemma strftime_Ymd_eqb (t1 t2 : datetime) :
  1 <= ordinal t1 <= MAXORDINAL -> 1 <= ordinal t2 <= MAXORDINAL ->
  String.eqb (strftime_Ymd t1) (strftime_Ymd t2)
  = (ordinal t1 =? ordinal t2).
Proof.
  intros V1 V2.
  destruct (Z.eqb_spec (ordinal t1) (ordinal t2)) as [E | N].
  - unfold strftime_Ymd. rewrite E. apply String.eqb_refl.
  - apply String.eqb_neq. intros E. apply N.
    now apply strftime_Ymd_inj.
Qed.

(** A parsed start time prints as the date it was read from. *)
Lemma strftime_strptime (y m d hh : Z) (t : datetime) :
  strptime_YmdH (y, m, d, hh) = Returns t ->
  strftime_Ymd t = (year_digits y ++ zfill2 m ++ zfill2 d)%string.
Proof.
  unfold strptime_YmdH.
  match goal with |- context [if ?c then _ else _] => destruct c eqn:C end;
    [ | discriminate].
  repeat rewrite andb_true_iff in C. repeat rewrite Z.leb_le in C.
  intros E. injection E as <-. unfold strftime_Ymd. cbn [ordinal].
  rewrite ord2ymd_ymd2ord by lia. reflexivity.
Qed.

Lemma append_inj_l (a b c : string) :
  (a ++ b)%string = (a ++ c)%string -> b = c.
Proof.
  induction a as [ | ch a IH]; simpl; intros E; [exact E | ].
  injection E as E. now apply IH.
Qed.

End NameFacts.

(* ================================================================== *)
(** * The discovery loop *)
(* ================================================================== *)

Module LoopFacts.
Import Calendar NameFacts.

Lemma pl_file_day_file (dir : string) (t : datetime) :
  pl_file dir t = day_file dir (ordinal t).
Proof. reflexivity. Qed.

Lemma day_file_inj (dir : string) (n1 n2 : Z) :
  1 <= n1 <= MAXORDINAL -> 1 <= n2 <= MAXORDINAL ->
  day_file dir n1 = day_file dir n2 -> n1 = n2.
Proof.
  intros V1 V2 E. unfold day_file, pl_file in E.
  apply append_inj_l in E. apply append_inj_l in E.
  apply append_inj_r in E.
  exact (strftime_Ymd_inj (mk_datetime n1 0) (mk_datetime n2 0) V1 V2 E).
Qed.

Lemma walk_S (n step : Z) (k : nat) :
  walk n step (S k) = (n + step) :: walk (n + step) step k.
Proof.
  unfold walk. simpl. f_equal; [f_equal; lia | ].
  rewrite <- seq_shift, map_map. apply map_ext. intros i. lia.
Qed.

Lemma walk_length (n step : Z) (k : nat) : length (walk n step k) = k.
Proof. unfold walk. now rewrite length_map, length_seq. Qed.

Lemma in_walk (n step : Z) (k : nat) (x : Z) :
  In x (walk n step k) <->
  exists i, (1 <= i <= k)%nat /\ x = n + step * Z.of_nat i.
Proof.
  unfold walk. rewrite in_map_iff. split.
  - intros (i & E & Hi). apply in_seq in Hi. exists i. split; [lia | now subst].
  - intros (i & Hi & E). exists i. split; [now subst | apply in_seq; lia].
Qed.

(** One iteration moves the cursor by [fn_dt] days and asks for the file
    of the day it lands on. *)
Lemma loop_body_step (fs : filesystem) (dir : string) (fn_dt : Z)
  (st : loop_state) :
  1 <= ordinal (curr_t st) + fn_dt <= MAXORDINAL ->
  loop_body fs dir fn_dt st
  = visit fs dir [ordinal (curr_t st) + fn_dt] st.
Proof.
  intros V. unfold loop_body, add_days.
  replace (0 <? ordinal (curr_t st) + fn_dt) with true
    by (symmetry; apply Z.ltb_lt; lia).
  replace (ordinal (curr_t st) + fn_dt <=? MAXORDINAL) with true
    by (symmetry; apply Z.leb_le; lia).
  simpl. rewrite pl_file_day_file. simpl ordinal.
  unfold os_path_exists, xr_load_dataset, throw_error.
  destruct (fs (day_file dir (ordinal (curr_t st) + fn_dt))); reflexivity.
Qed.

Lemma visit_app (fs : filesystem) (dir : string) (d1 d2 : list Z)
  (st : loop_state) :
  visit fs dir (d1 ++ d2) st = bind (visit fs dir d1 st) (visit fs dir d2).
Proof.
  revert st. induction d1 as [ | n d1 IH]; intros st; simpl; [reflexivity | ].
  destruct (fs (day_file dir n)); [apply IH | reflexivity].
Qed.

(** With a step of one day towards a final date [k] days away, and a budget
    of at least [k] iterations, the loop visits exactly the [k] days that
    separate the cursor from the final date. *)
Lemma while_loop_visits (fs : filesystem) (dir : string) (step : Z)
  (final : datetime) (k : nat) :
  forall (fuel : nat) (st : loop_state),
    step = 1 \/ step = -1 ->
    1 <= ordinal (curr_t st) <= MAXORDINAL ->
    1 <= ordinal final <= MAXORDINAL ->
    ordinal final = ordinal (curr_t st) + step * Z.of_nat k ->
    (k <= fuel)%nat ->
    while_loop fuel fs dir step final st
    = visit fs dir (walk (ordinal (curr_t st)) step k) st.
Proof.
  induction k as [ | k IH]; intros fuel st Hs Vc Vf E Hk.
  - assert (E0 : ordinal (curr_t st) = ordinal final) by lia.
    destruct fuel; simpl; rewrite strftime_Ymd_eqb, E0, Z.eqb_refl by lia;
      reflexivity.
  - destruct fuel as [ | fuel]; [lia | ].
    simpl while_loop.
    rewrite strftime_Ymd_eqb by lia.
    replace (ordinal (curr_t st) =? ordinal final) with false
      by (symmetry; apply Z.eqb_neq; lia).
    simpl negb. cbv iota.
    rewrite loop_body_step by lia.
    rewrite walk_S.
    change ((ordinal (curr_t st) + step)
              :: walk (ordinal (curr_t st) + step) step k)
      with ([ordinal (curr_t st) + step]
              ++ walk (ordinal (curr_t st) + step) step k).
    rewrite visit_app.
    destruct (visit fs dir [ordinal (curr_t st) + step] st) as [st' | e | ] eqn:V1;
      simpl; try reflexivity.
    assert (Ec : ordinal (curr_t st') = ordinal (curr_t st) + step).
    { simpl in V1. destruct (fs (day_file dir _)); [ | discriminate].
      injection V1 as <-. reflexivity. }
    rewrite <- Ec. apply IH; try lia.
Qed.

(** With too small a budget and every file at hand, the loop is cut off. *)
Lemma while_loop_short (fs : filesystem) (dir : string) (step : Z)
  (final : datetime) (k : nat) :
  forall (fuel : nat) (st : loop_state),
    step = 1 \/ step = -1 ->
    1 <= ordinal (curr_t st) <= MAXORDINAL ->
    1 <= ordinal final <= MAXORDINAL ->
    ordinal final = ordinal (curr_t st) + step * Z.of_nat k ->
    (fuel < k)%nat ->
    (forall n, In n (walk (ordinal (curr_t st)) step k) ->
               fs (day_file dir n) <> None) ->
    while_loop fuel fs dir step final st = OutOfFuel.
Proof.
  induction k as [ | k IH]; intros fuel st Hs Vc Vf E Hk Hfs; [lia | ].
  assert (N : (ordinal (curr_t st) =? ordinal final) = false)
    by (apply Z.eqb_neq; lia).
  destruct fuel as [ | fuel]; simpl while_loop;
    rewrite strftime_Ymd_eqb, N by lia; simpl negb; cbv iota;
    [reflexivity | ].
  rewrite loop_body_step by lia. simpl visit.
  rewrite walk_S in Hfs.
  destruct (fs (day_file dir (ordinal (curr_t st) + step))) as [ds | ] eqn:F.
  - simpl bind. apply IH; simpl curr_t; simpl ordinal; try lia.
    intros n Hn. apply Hfs. right. exact Hn.
  - exfalso. apply (Hfs (ordinal (curr_t st) + step)); [now left | exact F].
Qed.

Lemma last_cons {A : Type} (l : list A) :
  forall a d, last (a :: l) d = last l a.
Proof.
  induction l as [ | b l IH]; intros a d; [reflexivity | ].
  change (last (a :: b :: l) d) with (last (b :: l) d).
  now rewrite !IH.
Qed.

(** What [visit] returns, which it does when every file exists. *)
Lemma visit_returns (fs : filesystem) (dir : string) (days : list Z) :
  forall st st',
    visit fs dir days st = Returns st' ->
    exists dss,
      Forall2 (fun n ds => fs (day_file dir n) = Some ds) days dss
      /\ files st' = files st ++ map (day_file dir) days
      /\ ds_grib st' = ds_grib st ++ dss
      /\ hour (curr_t st') = hour (curr_t st)
      /\ ordinal (curr_t st') = last days (ordinal (curr_t st)).
Proof.
  induction days as [ | n days IH]; intros st st' V; simpl in V.
  - injection V as <-. exists []. rewrite !app_nil_r.
    repeat split; constructor.
  - destruct (fs (day_file dir n)) as [ds | ] eqn:F; [ | discriminate].
    apply IH in V. simpl in V. destruct V as (dss & Hd & Hf & Hg & Hh & Hl).
    exists (ds :: dss). repeat split.
    + constructor; assumption.
    + rewrite Hf, <- app_assoc. reflexivity.
    + rewrite Hg, <- app_assoc. reflexivity.
    + exact Hh.
    + rewrite Hl. symmetry. apply last_cons.
Qed.

Lemma visit_all_exist (fs : filesystem) (dir : string) (days : list Z) :
  forall st,
    (forall n, In n days -> fs (day_file dir n) <> None) ->
    exists st', visit fs dir days st = Returns st'.
Proof.
  induction days as [ | n days IH]; intros st Hfs; simpl.
  - now exists st.
  - destruct (fs (day_file dir n)) as [ds | ] eqn:F.
    + apply IH. intros m Hm. apply Hfs. now right.
    + exfalso. apply (Hfs n); [now left | exact F].
Qed.

(** The first day whose file is missing ends the visit with an error that
    carries the name of that file. *)
Lemma visit_missing (fs : filesystem) (dir : string) (days : list Z) :
  forall st,
    (exists n, In n days /\ fs (day_file dir n) = None) ->
    exists n, In n days /\ fs (day_file dir n) = None
              /\ visit fs dir days st
                 = Raises (FatalError (cannot_locate (day_file dir n))).
Proof.
  induction days as [ | n days IH]; intros st (m & Hm & Fm).
  - destruct Hm.
  - simpl. destruct (fs (day_file dir n)) as [ds | ] eqn:F.
    + destruct Hm as [-> | Hm]; [congruence | ].
      destruct (IH {| curr_t := mk_datetime n (hour (curr_t st));
                      files := files st ++ [day_file dir n];
                      ds_grib := ds_grib st ++ [ds] |})
        as (n' & Hn' & Fn' & V); [now exists m | ].
      exists n'. repeat split; [now right | exact Fn' | exact V].
    + exists n. repeat split; [now left | exact F].
Qed.

(** A visit never runs out of budget. *)
Lemma visit_not_cut (fs : filesystem) (dir : string) (days : list Z) :
  forall st, visit fs dir days st <> OutOfFuel.
Proof.
  induction days as [ | n days IH]; intros st; simpl; [discriminate | ].
  destruct (fs (day_file dir n)); [apply IH | discriminate].
Qed.

End LoopFacts.

(* ================================================================== *)
(** * The integration window and the discovered files *)
(* ================================================================== *)

Module DiscoverFacts.
Import Calendar CalendarFacts NameFacts LoopFacts.

Lemma days_before_month_bounds (y m d : Z) :
  1 <= m <= 12 -> 1 <= d <= days_in_month y m ->
  1 <= days_before_month y m + d <= 365 + (if is_leap y then 1 else 0).
Proof.
  intros Hm. unfold days_before_month, days_in_month.
  assert (Em : m = 1 \/ m = 2 \/ m = 3 \/ m = 4 \/ m = 5 \/ m = 6 \/ m = 7
               \/ m = 8 \/ m = 9 \/ m = 10 \/ m = 11 \/ m = 12) by lia.
  repeat (destruct Em as [-> | Em]); try subst m;
    destruct (is_leap y);
    cbv [DAYS_BEFORE_MONTH DAYS_IN_MONTH Z.eqb Z.ltb Z.compare Pos.eqb
         Pos.compare Pos.compare_cont andb]; lia.
Qed.

(** The ordinal of a date that exists is one a [datetime] can have. *)
Lemma ymd2ord_range (y m d : Z) :
  MINYEAR <= y <= MAXYEAR -> 1 <= m <= 12 -> 1 <= d <= days_in_month y m ->
  1 <= ymd2ord y m d <= MAXORDINAL.
Proof.
  unfold MINYEAR, MAXYEAR, MAXORDINAL. intros Hy Hm Hd.
  pose proof (days_before_month_bounds y m d Hm Hd) as B.
  unfold ymd2ord.
  assert (L : is_leap y = true -> y <= 9996).
  { unfold is_leap. intros E. apply andb_true_iff in E. destruct E as [E _].
    apply Z.eqb_eq in E. divmod. }
  assert (D : 0 <= days_before_year y
              /\ (y <= 9996 -> days_before_year y <= 3650598)
              /\ days_before_year y <= 3651694).
  { unfold days_before_year. cbv zeta. divmod. }
  destruct (is_leap y); [specialize (L eq_refl) | ]; lia.
Qed.

Lemma window_inv (cfg : config) (strt final : datetime) :
  window cfg = Returns (strt, final) ->
  valid_datetime strt /\ valid_datetime final
  /\ ordinal final
     = (ordinal strt * 24 + hour strt
        + forward_option cfg * integration_length cfg) / 24
  /\ hour final
     = (ordinal strt * 24 + hour strt
        + forward_option cfg * integration_length cfg) mod 24.
Proof.
  unfold window, strptime_YmdH. destruct (start_ymdh cfg) as [[[y m] d] hh].
  match goal with |- context [if ?c then _ else _] => destruct c eqn:C end;
    [ | discriminate].
  repeat rewrite andb_true_iff in C. repeat rewrite Z.leb_le in C.
  simpl bind. unfold add_hours. simpl ordinal. simpl hour.
  match goal with |- context [if ?c then _ else _] => destruct c eqn:C' end;
    [ | discriminate].
  rewrite andb_true_iff, Z.ltb_lt, Z.leb_le in C'.
  simpl. intros E. injection E as <- <-. unfold valid_datetime. simpl.
  pose proof (ymd2ord_range y m d) as R.
  repeat split; try lia; try divmod.
Qed.

(** In a forward or backward run of non-negative length the final date
    lies [days_apart] days from the start date in the direction of the
    run. *)
Lemma final_ordinal (cfg : config) (strt final : datetime) :
  window cfg = Returns (strt, final) ->
  forward_option cfg = 1 \/ forward_option cfg = -1 ->
  0 <= integration_length cfg ->
  ordinal final
  = ordinal strt + forward_option cfg * Z.of_nat (days_apart strt final).
Proof.
  intros Hw Hf HL. apply window_inv in Hw.
  destruct Hw as ((Vs & Hs) & (Vf & Hh) & Eo & _).
  unfold days_apart. rewrite Z2Nat.id by lia.
  destruct Hf as [Hf | Hf]; rewrite Hf in *.
  - assert (ordinal strt <= ordinal final) by (rewrite Eo; divmod). lia.
  - assert (ordinal final <= ordinal strt) by (rewrite Eo; divmod). lia.
Qed.

(** Discovery asks for the files of the required days in turn,
    provided the loop is given as many iterations as there are days
    between the two dates. *)
Lemma discover_visits (fuel : nat) (cfg : config) (fs : filesystem)
  (strt final : datetime) :
  window cfg = Returns (strt, final) ->
  forward_option cfg = 1 \/ forward_option cfg = -1 ->
  0 <= integration_length cfg ->
  (days_apart strt final <= fuel)%nat ->
  discover fuel cfg fs
  = bind (visit fs (input_era5_case cfg)
            (required_days (forward_option cfg) strt final)
            (nothing_read strt))
      (as_discovered strt final).
Proof.
  intros Hw Hf HL Hk.
  pose proof (final_ordinal cfg strt final Hw Hf HL) as Eo.
  pose proof (window_inv cfg strt final Hw) as ((Vs & Hs) & (Vf & Hh) & _).
  unfold discover. rewrite Hw, Z.mul_1_l. cbn [bind].
  unfold required_days. cbn [visit].
  rewrite pl_file_day_file.
  unfold os_path_exists, xr_load_dataset, throw_error.
  destruct (fs (day_file (input_era5_case cfg) (ordinal strt))) as [ds | ];
    [ | reflexivity].
  cbn [negb bind]. unfold timedelta_days.
  replace (Z.abs (forward_option cfg) <=? 999999999) with true
    by (symmetry; apply Z.leb_le; lia).
  cbn [bind nothing_read curr_t files ds_grib hour app].
  replace (mk_datetime (ordinal strt) (hour strt)) with strt
    by (destruct strt; reflexivity).
  rewrite (while_loop_visits fs _ (forward_option cfg) final
             (days_apart strt final)); cbn [curr_t]; try lia.
  reflexivity.
Qed.

End DiscoverFacts.

Module RunFacts.
Import Calendar CalendarFacts NameFacts LoopFacts DiscoverFacts.

(** A loop that was not cut off does the same with a larger budget. *)
Lemma while_loop_more_fuel (fs : filesystem) (dir : string) (fn_dt : Z)
  (final : datetime) (fuel : nat) :
  forall (fuel' : nat) (st : loop_state),
    (fuel <= fuel')%nat ->
    while_loop fuel fs dir fn_dt final st <> OutOfFuel ->
    while_loop fuel' fs dir fn_dt final st
    = while_loop fuel fs dir fn_dt final st.
Proof.
  induction fuel as [ | fuel IH]; intros fuel' st Hle Hne.
  - destruct fuel'; simpl in *;
      destruct (negb _); try reflexivity; now contradiction Hne.
  - destruct fuel' as [ | fuel']; [lia | ]. simpl in *.
    destruct (negb _); [ | reflexivity].
    destruct (loop_body fs dir fn_dt st) as [st' | e | ]; simpl in *;
      try reflexivity.
    apply IH; [lia | exact Hne].
Qed.

Lemma discover_more_fuel (fuel fuel' : nat) (cfg : config) (fs : filesystem)
  (dsc : discovered) :
  (fuel <= fuel')%nat ->
  discover fuel cfg fs = Returns dsc -> discover fuel' cfg fs = Returns dsc.
Proof.
  intros Hle. unfold discover.
  destruct (window cfg) as [[strt final] | e | ]; simpl; try discriminate.
  destruct (negb _); [intros E; exact E | ].
  destruct (xr_load_dataset fs _) as [ds | e | ]; simpl; try discriminate.
  destruct (timedelta_days _) as [fn_dt | e | ]; simpl; try discriminate.
  intros E.
  rewrite (while_loop_more_fuel _ _ _ _ fuel fuel'); [exact E | exact Hle | ].
  intros C. rewrite C in E. discriminate.
Qed.

Lemma discover_window (fuel : nat) (cfg : config) (fs : filesystem)
  (dsc : discovered) :
  discover fuel cfg fs = Returns dsc ->
  window cfg = Returns (d_strt_t dsc, d_final_t dsc).
Proof.
  unfold discover.
  destruct (window cfg) as [[strt final] | e | ]; simpl; try discriminate.
  destruct (negb _); [discriminate | ].
  destruct (xr_load_dataset fs _) as [ds | e | ]; simpl; try discriminate.
  destruct (timedelta_days _) as [fn_dt | e | ]; simpl; try discriminate.
  destruct (while_loop _ _ _ _ _ _) as [st | e | ]; simpl; try discriminate.
  intros E. injection E as <-. reflexivity.
Qed.

(** What discovery returns in a forward or backward run: the files of the
    required days and the datasets they open to, in the order of the walk. *)
Lemma discover_returns (fuel : nat) (cfg : config) (fs : filesystem)
  (dsc : discovered) :
  forward_option cfg = 1 \/ forward_option cfg = -1 ->
  0 <= integration_length cfg ->
  discover fuel cfg fs = Returns dsc ->
  let days :=
    required_days (forward_option cfg) (d_strt_t dsc) (d_final_t dsc) in
  window cfg = Returns (d_strt_t dsc, d_final_t dsc)
  /\ d_files dsc = map (day_file (input_era5_case cfg)) days
  /\ Forall2 (fun n ds => fs (day_file (input_era5_case cfg) n) = Some ds)
       days (d_ds_grib dsc).
Proof.
  intros Hf HL E. pose proof (discover_window _ _ _ _ E) as Hw.
  destruct dsc as [strt final fl grib]. cbn [d_strt_t d_final_t] in *.
  cbn [d_files d_ds_grib].
  apply (discover_more_fuel fuel (Nat.max fuel (days_apart strt final)))
    in E; [ | lia].
  rewrite (discover_visits _ cfg fs _ _ Hw Hf HL) in E by lia.
  apply bind_returns in E. destruct E as (st & V & E).
  apply visit_returns in V. destruct V as (dss & Hd & Hfl & Hg & _).
  unfold as_discovered in E. injection E as <- <-.
  rewrite Hfl, Hg. repeat split; assumption.
Qed.

Lemma walk_bounds (n step : Z) (k : nat) (x : Z) :
  In x (walk n step k) ->
  (step = 1 -> n < x <= n + Z.of_nat k)
  /\ (step = -1 -> n - Z.of_nat k <= x < n).
Proof.
  rewrite in_walk. intros (i & Hi & ->). split; intros ->; lia.
Qed.

Lemma walk_increasing (k : nat) :
  forall n, StronglySorted Z.lt (n :: walk n 1 k).
Proof.
  induction k as [ | k IH]; intros n.
  - repeat constructor.
  - constructor.
    + rewrite walk_S. apply IH.
    + apply Forall_forall. intros x Hx.
      apply walk_bounds in Hx. destruct Hx as [Hx _]. specialize (Hx eq_refl).
      lia.
Qed.

Lemma walk_decreasing (k : nat) :
  forall n, StronglySorted Z.gt (n :: walk n (-1) k).
Proof.
  induction k as [ | k IH]; intros n.
  - repeat constructor.
  - constructor.
    + rewrite walk_S. apply IH.
    + apply Forall_forall. intros x Hx.
      apply walk_bounds in Hx. destruct Hx as [_ Hx]. specialize (Hx eq_refl).
      lia.
Qed.

End RunFacts.

(* ================================================================== *)
(** * Discovery: order, count, missing files, termination *)
(* ================================================================== *)

Import Calendar CalendarFacts NameFacts LoopFacts DiscoverFacts RunFacts.

(** C1 (amended).  During file discovery the cursor date is advanced by
    [forward] calendar days per iteration: one day later in a forward run,
    one day earlier in a backward run.  So for every valid configuration
    (direction +1 or -1, non-negative length) the discovered file list
    names the days from the start date to the final date in the order of
    the walk: strictly increasing dates for a forward run, strictly
    decreasing dates for a backward run. *)
Theorem C1_discovery_walks_in_direction
  (fuel : nat) (cfg : config) (fs : filesystem) (dsc : discovered) :
  forward_option cfg = 1 \/ forward_option cfg = -1 ->
  0 <= integration_length cfg ->
  discover fuel cfg fs = Returns dsc ->
  let days :=
    required_days (forward_option cfg) (d_strt_t dsc) (d_final_t dsc) in
  (forall st st',
      loop_body fs (input_era5_case cfg) (1 * forward_option cfg) st
      = Returns st' ->
      ordinal (curr_t st') = ordinal (curr_t st) + forward_option cfg)
  /\ d_files dsc = map (day_file (input_era5_case cfg)) days
  /\ (forward_option cfg = 1 -> StronglySorted Z.lt days)
  /\ (forward_option cfg = -1 -> StronglySorted Z.gt days).
Proof.
  intros Hf HL E days.
  destruct (discover_returns fuel cfg fs dsc Hf HL E) as (_ & Hfl & _).
  repeat split.
  - intros st st'. rewrite Z.mul_1_l. unfold loop_body, add_days.
    destruct ((0 <? _) && _); cbn [bind]; [ | discriminate].
    destruct (negb _); [discriminate | ].
    destruct (xr_load_dataset fs _); cbn [bind]; try discriminate.
    intros R. injection R as <-. reflexivity.
  - exact Hfl.
  - intros F1. subst days. rewrite F1. apply walk_increasing.
  - intros F1. subst days. rewrite F1. apply walk_decreasing.
Qed.

(** The backward run of 30 hours from 2020-01-01T00 walks back through
    2019-12-31 to 2019-12-30. *)
Lemma C1_discovery_walks_in_direction_witness :
  d_files Sample.backward30_found
  = map (day_file "/era5") [737425; 737424; 737423]
  /\ StronglySorted Z.gt [737425; 737424; 737423].
Proof.
  pose proof
    (C1_discovery_walks_in_direction 10 Sample.backward30 Sample.fs
       Sample.backward30_found
       (or_intror eq_refl)
       ltac:(vm_compute; discriminate)
       ltac:(vm_compute; reflexivity)) as H.
  destruct H as (_ & Hfl & _ & Hgt).
  split; [exact Hfl | exact (Hgt eq_refl)].
Defined.

(** C1 as stated fails: in the backward run of 30 hours from 2020-01-01T00
    an iteration takes the cursor from 2020-01-01 to 2019-12-31, one day
    back, and the files of 2020-01-01, 2019-12-31 and 2019-12-30 are
    discovered in that order, which is not one of increasing dates. *)
Lemma C1_backward_discovery_counterexample :
  forward_option Sample.backward30 = -1
  /\ (exists st',
         loop_body Sample.fs "/era5" (1 * forward_option Sample.backward30)
           (nothing_read (mk_datetime 737425 0)) = Returns st'
         /\ ordinal (curr_t st') = 737425 - 1)
  /\ discover 10 Sample.backward30 Sample.fs
     = Returns Sample.backward30_found
  /\ d_files Sample.backward30_found
     = ["/era5/20200101-pl.grib"; "/era5/20191231-pl.grib";
        "/era5/20191230-pl.grib"]%string
  /\ ~ increasing_dates "/era5" (d_files Sample.backward30_found).
Proof.
  split; [reflexivity | ].
  split; [eexists; split; vm_compute; reflexivity | ].
  split; [vm_compute; reflexivity | ].
  split; [reflexivity | ].
  intros (days & V & E & S).
  change (d_files Sample.backward30_found)
    with (map (day_file "/era5") [737425; 737424; 737423]) in E.
  destruct days as [ | a [ | b days]]; try discriminate E.
  assert (Ea : day_file "/era5" 737425 = day_file "/era5" a)
    by exact (f_equal (fun l => nth 0 l EmptyString) E).
  assert (Eb : day_file "/era5" 737424 = day_file "/era5" b)
    by exact (f_equal (fun l => nth 1 l EmptyString) E).
  inversion V as [ | ? ? Va V']; subst. inversion V' as [ | ? ? Vb _]; subst.
  apply day_file_inj in Ea; [ | unfold MAXORDINAL; lia | exact Va].
  apply day_file_inj in Eb; [ | unfold MAXORDINAL; lia | exact Vb].
  inversion S as [ | ? ? _ Hall]; subst.
  inversion Hall as [ | ? ? Hab _]; subst. lia.
Qed.

(** C2 (amended).  For every valid configuration the discovered file list
    has one entry per calendar day from the start date to the final date
    inclusive.  With start hour [h] and length [L] hours that is
    [floor((h + L) / 24) + 1] entries in a forward run and
    [ceil((L - h) / 24) + 1] entries in a backward run: the count depends
    on the direction and on the start hour, and lies between
    [floor(L / 24) + 1] and [ceil(L / 24) + 1]. *)
Theorem C2_one_file_per_calendar_day
  (fuel : nat) (cfg : config) (fs : filesystem) (dsc : discovered) :
  forward_option cfg = 1 \/ forward_option cfg = -1 ->
  0 <= integration_length cfg ->
  discover fuel cfg fs = Returns dsc ->
  let n := Z.of_nat (length (d_files dsc)) in
  let h := hour (d_strt_t dsc) in
  let L := integration_length cfg in
  n = Z.abs (ordinal (d_final_t dsc) - ordinal (d_strt_t dsc)) + 1
  /\ (forward_option cfg = 1 -> n = (h + L) / 24 + 1)
  /\ (forward_option cfg = -1 -> n = ceil_div (L - h) 24 + 1)
  /\ L / 24 + 1 <= n <= ceil_div L 24 + 1.
Proof.
  intros Hf HL E n h L.
  destruct (discover_returns fuel cfg fs dsc Hf HL E) as (Hw & Hfl & _).
  pose proof (window_inv _ _ _ Hw) as ((Vs & Hs) & (Vf & Hh) & Eo & _).
  assert (En : n = Z.abs (ordinal (d_final_t dsc) - ordinal (d_strt_t dsc)) + 1).
  { subst n. rewrite Hfl, length_map. unfold required_days.
    cbn [length]. rewrite walk_length. unfold days_apart. lia. }
  fold h in Hs, Eo. fold L in Eo, HL. unfold ceil_div.
  split; [exact En | ].
  rewrite En, Eo. clear En Eo Hfl Hw E.
  destruct Hf as [F | F]; rewrite F; repeat split; try (intros; divmod).
Qed.

(** The same backward run, which starts at hour 0, discovers
    [ceil(30 / 24) + 1] files. *)
Lemma C2_one_file_per_calendar_day_witness :
  Z.of_nat (length (d_files Sample.backward30_found)) = ceil_div (30 - 0) 24 + 1.
Proof.
  pose proof
    (C2_one_file_per_calendar_day 10 Sample.backward30 Sample.fs
       Sample.backward30_found
       (or_intror eq_refl)
       ltac:(vm_compute; discriminate)
       ltac:(vm_compute; reflexivity)) as H.
  destruct H as (_ & _ & Hb & _).
  exact (Hb eq_refl).
Defined.

(** C2 as stated fails: the forward run of 30 hours from 2020-01-01T00 ends
    on 2020-01-02 and discovers two files, not [ceil(30 / 24) + 1 = 3]; the
    backward run of the same start and length discovers three, so the
    count is not independent of the direction either. *)
Lemma C2_file_count_counterexample :
  forward_option Sample.forward30 = 1
  /\ discover 10 Sample.forward30 Sample.fs = Returns Sample.forward30_found
  /\ Z.of_nat (length (d_files Sample.forward30_found))
     <> ceil_div (integration_length Sample.forward30) 24 + 1
  /\ discover 10 Sample.backward30 Sample.fs
     = Returns Sample.backward30_found
  /\ length (d_files Sample.backward30_found)
     <> length (d_files Sample.forward30_found).
Proof.
  repeat split; try (vm_compute; reflexivity); vm_compute; discriminate.
Qed.

(** A construction ends the way its discovery ends when that is with an
    exception. *)
Lemma init_discover_raises (fuel : nat) (cfg : config) (fs : filesystem)
  (e : exn) :
  discover fuel cfg fs = Raises e -> init fuel cfg fs = Raises e.
Proof. unfold init. intros ->. reflexivity. Qed.

Lemma string_app_assoc (a b c : string) :
  ((a ++ b) ++ c)%string = (a ++ b ++ c)%string.
Proof.
  induction a as [ | ch a IH]; simpl; [reflexivity | now rewrite IH].
Qed.

Lemma names_cannot_locate (fn : string) : names (cannot_locate fn) fn.
Proof.
  exists (print_prefix ++ "cannot locate:")%string,
         ", please check files or settings!"%string.
  unfold cannot_locate. now rewrite string_app_assoc.
Qed.

(** C7.  If a required daily pressure-level file (the first one or any
    later one) does not exist, the construction ends in the fatal error
    raised for a missing required file, whose message names the path of
    that file; no object is constructed. *)
Theorem C7_missing_file_is_fatal
  (fuel : nat) (cfg : config) (fs : filesystem) (strt final : datetime) :
  window cfg = Returns (strt, final) ->
  forward_option cfg = 1 \/ forward_option cfg = -1 ->
  0 <= integration_length cfg ->
  (days_apart strt final <= fuel)%nat ->
  (exists n, In n (required_days (forward_option cfg) strt final)
             /\ fs (day_file (input_era5_case cfg) n) = None) ->
  exists n,
    In n (required_days (forward_option cfg) strt final)
    /\ os_path_exists fs (day_file (input_era5_case cfg) n) = false
    /\ init fuel cfg fs
       = Raises (FatalError (cannot_locate (day_file (input_era5_case cfg) n)))
    /\ names (cannot_locate (day_file (input_era5_case cfg) n))
         (day_file (input_era5_case cfg) n).
Proof.
  intros Hw Hf HL Hk Hmiss.
  destruct (visit_missing fs (input_era5_case cfg) _ (nothing_read strt) Hmiss)
    as (n & Hn & Fn & V).
  exists n. repeat split.
  - exact Hn.
  - unfold os_path_exists. now rewrite Fn.
  - apply init_discover_raises.
    rewrite (discover_visits fuel cfg fs strt final Hw Hf HL Hk), V.
    reflexivity.
  - apply names_cannot_locate.
Qed.

(** Without the file of 2019-12-31 the backward run ends in the fatal
    error that names a missing file. *)
Lemma C7_missing_file_is_fatal_witness :
  exists n,
    In n [737425; 737424; 737423]
    /\ os_path_exists Sample.fs_gap (day_file "/era5" n) = false
    /\ init 10 Sample.backward30 Sample.fs_gap
       = Raises (FatalError (cannot_locate (day_file "/era5" n)))
    /\ names (cannot_locate (day_file "/era5" n)) (day_file "/era5" n).
Proof.
  assert (Hmiss : exists n,
             In n (required_days (forward_option Sample.backward30)
                     (mk_datetime 737425 0) (mk_datetime 737423 18))
             /\ Sample.fs_gap
                  (day_file (input_era5_case Sample.backward30) n) = None).
  { exists 737424. split; [right; left; reflexivity | reflexivity]. }
  exact
    (C7_missing_file_is_fatal 10 Sample.backward30 Sample.fs_gap
       (mk_datetime 737425 0) (mk_datetime 737423 18)
       ltac:(vm_compute; reflexivity)
       (or_intror eq_refl)
       ltac:(vm_compute; discriminate)
       ltac:(vm_compute; lia)
       Hmiss).
Defined.

(** With fewer iterations than there are days between the two dates, and
    every file at hand, discovery is cut off inside the loop. *)
Lemma discover_cut_short (fuel : nat) (cfg : config) (fs : filesystem)
  (strt final : datetime) :
  window cfg = Returns (strt, final) ->
  forward_option cfg = 1 \/ forward_option cfg = -1 ->
  0 <= integration_length cfg ->
  (fuel < days_apart strt final)%nat ->
  (forall n, In n (required_days (forward_option cfg) strt final) ->
             fs (day_file (input_era5_case cfg) n) <> None) ->
  discover fuel cfg fs = OutOfFuel.
Proof.
  intros Hw Hf HL Hk Hfs.
  pose proof (final_ordinal cfg strt final Hw Hf HL) as Eo.
  pose proof (window_inv cfg strt final Hw) as ((Vs & Hs) & (Vf & Hh) & _).
  unfold discover. rewrite Hw, Z.mul_1_l. cbn [bind].
  rewrite pl_file_day_file.
  unfold os_path_exists, xr_load_dataset, throw_error.
  destruct (fs (day_file (input_era5_case cfg) (ordinal strt))) as [ds | ] eqn:F.
  - cbn [negb bind]. unfold timedelta_days.
    replace (Z.abs (forward_option cfg) <=? 999999999) with true
      by (symmetry; apply Z.leb_le; lia).
    cbn [bind].
    rewrite (while_loop_short fs _ (forward_option cfg) final
               (days_apart strt final)); cbn [curr_t]; try lia.
    + reflexivity.
    + intros n Hn. apply Hfs. right. exact Hn.
  - exfalso. apply (Hfs (ordinal strt)); [now left | exact F].
Qed.

(** A cursor that moves two days at a time from an odd day never stands on
    the even day 737426 (2020-01-02): the loop test never fails, and the
    loop can only end in an exception. *)
Lemma skipping_loop_never_exits (fs : filesystem) (dir : string) (fuel : nat) :
  forall st st',
    1 <= ordinal (curr_t st) <= MAXORDINAL ->
    ordinal (curr_t st) mod 2 = 1 ->
    while_loop fuel fs dir 2 (mk_datetime 737426 0) st <> Returns st'.
Proof.
  induction fuel as [ | fuel IH]; intros st st' V Odd;
    assert (N : (ordinal (curr_t st) =? 737426) = false)
      by (apply Z.eqb_neq; intros E; rewrite E in Odd; discriminate Odd);
    simpl while_loop;
    rewrite strftime_Ymd_eqb by (cbn [ordinal]; unfold MAXORDINAL in *; lia);
    cbn [ordinal]; rewrite N; cbn [negb]; [discriminate | ].
  unfold loop_body, add_days.
  destruct ((0 <? ordinal (curr_t st) + 2)
            && (ordinal (curr_t st) + 2 <=? MAXORDINAL)) eqn:R;
    cbn [bind]; [ | discriminate].
  apply andb_true_iff in R. rewrite Z.ltb_lt, Z.leb_le in R.
  destruct (negb _); [discriminate | ].
  destruct (xr_load_dataset fs _) as [ds | e | ]; cbn [bind]; try discriminate.
  apply IH; cbn [curr_t ordinal]; [lia | ].
  rewrite <- Odd. divmod.
Qed.

(** C10.  For a direction of +1 or -1 and a non-negative length the
    discovery loop terminates: given as many iterations as there are
    calendar days between the start date and the final date it is never
    cut off, whatever the directory holds; each iteration brings the
    cursor one day closer to the final date; and when every required file
    exists it runs exactly that many iterations.  The loop structure gives
    no such guarantee for other directions: with direction 2 and an odd
    distance the test of the loop never fails. *)
Theorem C10_discovery_loop_terminates
  (cfg : config) (strt final : datetime) :
  window cfg = Returns (strt, final) ->
  forward_option cfg = 1 \/ forward_option cfg = -1 ->
  0 <= integration_length cfg ->
  let k := days_apart strt final in
  let dir := input_era5_case cfg in
  let days := required_days (forward_option cfg) strt final in
  (forall fs fuel, (k <= fuel)%nat -> discover fuel cfg fs <> OutOfFuel)
  /\ (forall fs st st' j,
         0 < j ->
         ordinal final = ordinal (curr_t st) + forward_option cfg * j ->
         loop_body fs dir (1 * forward_option cfg) st = Returns st' ->
         ordinal final = ordinal (curr_t st') + forward_option cfg * (j - 1))
  /\ (forall fs,
         (forall n, In n days -> fs (day_file dir n) <> None) ->
         (exists dsc, discover k cfg fs = Returns dsc
                      /\ length (d_files dsc) = S k)
         /\ (forall fuel, (fuel < k)%nat -> discover fuel cfg fs = OutOfFuel))
  /\ (forward_option Sample.skipping = 2
      /\ forall fuel fs dsc, discover fuel Sample.skipping fs <> Returns dsc).
Proof.
  intros Hw Hf HL k dir days. repeat split.
  - intros fs fuel Hk.
    rewrite (discover_visits fuel cfg fs strt final Hw Hf HL Hk).
    destruct (visit fs _ _ _) as [st | e | ] eqn:V; try discriminate.
    now apply visit_not_cut in V.
  - intros fs st st' j Hj Eo. rewrite Z.mul_1_l. unfold loop_body, add_days.
    destruct ((0 <? _) && _); cbn [bind]; [ | discriminate].
    destruct (negb _); [discriminate | ].
    destruct (xr_load_dataset fs _); cbn [bind]; try discriminate.
    intros R. injection R as <-. cbn [curr_t ordinal]. lia.
  - rewrite (discover_visits k cfg fs strt final Hw Hf HL (le_n _)).
    destruct (visit_all_exist fs dir days (nothing_read strt) H) as (st & V).
    subst dir days. rewrite V. cbn [bind as_discovered].
    eexists. split; [reflexivity | ]. cbn [d_files].
    apply visit_returns in V. destruct V as (_ & _ & Hfl & _).
    rewrite Hfl. cbn [nothing_read files app].
    rewrite length_map. unfold required_days. cbn [length].
    now rewrite walk_length.
  - intros fuel Hk. now apply (discover_cut_short fuel cfg fs strt final).
  - intros fuel fs dsc. unfold discover.
    change (window Sample.skipping)
      with (Returns (A := datetime * datetime)
              (mk_datetime 737425 0, mk_datetime 737426 0)).
    cbn [bind]. destruct (negb _); [discriminate | ].
    destruct (xr_load_dataset fs _) as [ds | e | ]; cbn [bind];
      try discriminate.
    change (timedelta_days (1 * forward_option Sample.skipping))
      with (Returns (A := Z) 2).
    cbn [bind].
    destruct (while_loop _ _ _ _ _ _) as [st | e | ] eqn:W; cbn [bind];
      try discriminate.
    exfalso. revert W. apply skipping_loop_never_exits; cbn [curr_t ordinal].
    + unfold MAXORDINAL. lia.
    + reflexivity.
Qed.

(** The backward run of 30 hours needs exactly two iterations. *)
Lemma C10_discovery_loop_terminates_witness :
  (exists dsc, discover 2 Sample.backward30 Sample.fs = Returns dsc
               /\ length (d_files dsc) = 3%nat)
  /\ (forall fuel, (fuel < 2)%nat ->
                   discover fuel Sample.backward30 Sample.fs = OutOfFuel).
Proof.
  pose proof
    (C10_discovery_loop_terminates Sample.backward30
       (mk_datetime 737425 0) (mk_datetime 737423 18)
       ltac:(vm_compute; reflexivity)
       (or_intror eq_refl)
       ltac:(vm_compute; discriminate)) as H.
  destruct H as (_ & _ & H & _).
  apply (H Sample.fs).
  intros n Hn.
  destruct Hn as [<- | [<- | [<- | []]]]; vm_compute; discriminate.
Defined.

(* ================================================================== *)
(** * Missing values, sampling metadata, boundary check *)
(* ================================================================== *)

Lemma existsb_nth_error {A : Type} (p : A -> bool) (l : list A) :
  existsb p l = true <-> exists i x, nth_error l i = Some x /\ p x = true.
Proof.
  rewrite existsb_exists. split.
  - intros (x & Hin & Hp). apply In_nth_error in Hin. destruct Hin as (i & Hi).
    now exists i, x.
  - intros (i & x & Hi & Hp). exists x. split; [ | exact Hp].
    now apply nth_error_In with i.
Qed.

(** [np.any(np.isnan(a))] holds exactly when some location of [a] holds a
    not-a-number. *)
Lemma np_any_isnan_spec (a : DataArray) :
  np_any_isnan a = true <-> missing_in a.
Proof.
  unfold np_any_isnan, missing_in, value_at. split.
  - intros H. apply existsb_nth_error in H. destruct H as (i & fr & Hi & H).
    apply existsb_nth_error in H. destruct H as (j & lat & Hj & H).
    apply existsb_nth_error in H. destruct H as (k & r & Hk & H).
    apply existsb_nth_error in H. destruct H as (l & x & Hl & H).
    exists i, j, k, l, x. unfold frame, row. now rewrite Hi, Hj, Hk.
  - intros (i & j & k & l & x & Hv & Hx).
    destruct (nth_error (da_values a) i) as [fr | ] eqn:Hi; [ | discriminate].
    destruct (nth_error fr j) as [lat | ] eqn:Hj; [ | discriminate].
    destruct (nth_error lat k) as [r | ] eqn:Hk; [ | discriminate].
    unfold frame, row in *.
    apply existsb_nth_error. exists i, fr. split; [exact Hi | ].
    apply existsb_nth_error. exists j, lat. split; [exact Hj | ].
    apply existsb_nth_error. exists k, r. split; [exact Hk | ].
    apply existsb_nth_error. now exists l, x.
Qed.

Lemma init_stages (fuel : nat) (cfg : config) (fs : filesystem)
  (dsc : discovered) (comb_ds : Dataset)
  (bounds : option (datetime * datetime)) :
  discover fuel cfg fs = Returns dsc ->
  combine (forward_option cfg) dsc = Returns (comb_ds, bounds) ->
  init fuel cfg fs
  = bind (slice_fields cfg comb_ds bounds) (finish cfg dsc comb_ds).
Proof. unfold init. intros -> . cbn [bind]. intros ->. reflexivity. Qed.

Lemma index_equals_refl (a : list Q) : index_equals a a = true.
Proof.
  induction a as [ | x a IH]; [reflexivity | ].
  cbn [index_equals]. rewrite IH, andb_true_r.
  apply Qeq_bool_iff. reflexivity.
Qed.

(** Files that are combined share the grid of one of them: no alignment
    has filled a value in. *)
Lemma combine_common_grid (fwd : Z) (dsc : discovered) (comb_ds : Dataset)
  (bounds : option (datetime * datetime)) :
  combine fwd dsc = Returns (comb_ds, bounds) ->
  exists d0,
    In d0 (d_ds_grib dsc)
    /\ Forall (fun d => same_grid d0 d = true) (d_ds_grib dsc).
Proof.
  unfold combine.
  destruct (orient fwd _ _ _) as [grib b] eqn:Eo.
  assert (Hin : forall x, In x grib <-> In x (d_ds_grib dsc)).
  { unfold orient in Eo.
    destruct (fwd =? -1); [ | destruct (fwd =? 1)]; injection Eo as <- _;
      intros x; [symmetry; apply in_rev | reflexivity | reflexivity]. }
  destruct grib as [ | d0 grib]; cbn [xr_concat bind]; [discriminate | ].
  destruct (forallb (same_grid d0) grib) eqn:G; cbn [bind]; [ | discriminate].
  intros _. exists d0. split; [apply Hin; now left | ].
  apply Forall_forall. intros d Hd. apply Hin in Hd.
  destruct Hd as [<- | Hd].
  - unfold same_grid. now rewrite !index_equals_refl.
  - rewrite forallb_forall in G. now apply G.
Qed.

(** C6.  Once the files, which share one grid, are read, combined and
    sliced, the construction ends in the fatal error for missing values
    exactly when one of the sliced arrays U, V, W holds a not-a-number at
    some (time, level, latitude, longitude); an input without missing
    values over that extent passes the check, and the construction
    returns the object holding those arrays (the boundary-check branch,
    taken only when its flag is set, is the subject of C9). *)
Theorem C6_missing_values_are_fatal
  (fuel : nat) (cfg : config) (fs : filesystem) (dsc : discovered)
  (comb_ds : Dataset) (bounds : option (datetime * datetime)) (s : sliced) :
  discover fuel cfg fs = Returns dsc ->
  combine (forward_option cfg) dsc = Returns (comb_ds, bounds) ->
  slice_fields cfg comb_ds bounds = Returns s ->
  let missing :=
    missing_in (s_U s) \/ missing_in (s_V s) \/ missing_in (s_W s) in
  (missing -> init fuel cfg fs = Raises (FatalError found_nan))
  /\ (init fuel cfg fs = Raises (FatalError found_nan) -> missing)
  /\ (~ missing ->
      init fuel cfg fs <> Raises (FatalError found_nan)
      /\ (boundary_check cfg = false ->
          exists self, init fuel cfg fs = Returns self
                       /\ U self = s_U s /\ V self = s_V s /\ W self = s_W s))
  /\ (exists d0,
         In d0 (d_ds_grib dsc)
         /\ Forall (fun d => same_grid d0 d = true) (d_ds_grib dsc)).
Proof.
  intros Hd Hc Hs missing.
  pose proof (combine_common_grid _ _ _ _ Hc) as Hgrid.
  rewrite (init_stages fuel cfg fs dsc comb_ds bounds Hd Hc), Hs.
  cbn [bind]. unfold finish, throw_error.
  assert (Hm : np_any_isnan (s_U s) || np_any_isnan (s_V s)
               || np_any_isnan (s_W s) = true <-> missing).
  { subst missing. rewrite !orb_true_iff, !np_any_isnan_spec. tauto. }
  destruct (np_any_isnan (s_U s) || np_any_isnan (s_V s)
            || np_any_isnan (s_W s)).
  - assert (M : missing) by now apply Hm.
    split; [reflexivity | ]. split; [intros _; exact M | ].
    split; [ | exact Hgrid].
    intros N. contradiction.
  - assert (N : ~ missing) by (intros M; apply Hm in M; discriminate).
    split; [intros M; contradiction | ].
    split; [destruct (boundary_check cfg); discriminate | ].
    split; [ | exact Hgrid].
    intros _. split; [destruct (boundary_check cfg); discriminate | ].
    intros ->. eexists. split; [reflexivity | ]. repeat split.
Qed.

(** One missing value in the 12:00 frame of [w] ends the construction; the
    same run on complete data returns. *)
Lemma C6_missing_values_are_fatal_witness :
  init 10 Sample.forward30 Sample.fs_nan = Raises (FatalError found_nan)
  /\ exists self, init 10 Sample.forward30 Sample.fs = Returns self.
Proof.
  split.
  - refine
      (proj1
         (C6_missing_values_are_fatal 10 Sample.forward30 Sample.fs_nan
            Sample.forward30_nan_found
            (fst Sample.forward30_nan_combined)
            (snd Sample.forward30_nan_combined)
            Sample.forward30_nan_fields
            ltac:(vm_compute; reflexivity)
            ltac:(vm_compute; reflexivity)
            ltac:(vm_compute; reflexivity)) _).
    right. right. exists 2%nat, 0%nat, 0%nat, 0%nat, nan.
    split; vm_compute; reflexivity.
  - pose proof
      (C6_missing_values_are_fatal 10 Sample.forward30 Sample.fs
         Sample.forward30_found
         (fst Sample.forward30_combined)
         (snd Sample.forward30_combined)
         Sample.forward30_fields
         ltac:(vm_compute; reflexivity)
         ltac:(vm_compute; reflexivity)
         ltac:(vm_compute; reflexivity)) as (_ & _ & H & _).
    assert (N : ~ (missing_in (s_U Sample.forward30_fields)
                   \/ missing_in (s_V Sample.forward30_fields)
                   \/ missing_in (s_W Sample.forward30_fields))).
    { rewrite <- !np_any_isnan_spec. vm_compute.
      intros [E | [E | E]]; discriminate E. }
    destruct (H N) as (_ & H'). destruct (H' eq_refl) as (self & E & _).
    now exists self.
Defined.

Lemma normalize_longitude_time (ds ds' : Dataset) :
  normalize_longitude ds = Returns ds' -> time ds' = time ds.
Proof.
  unfold normalize_longitude.
  destruct (np_nanmin (longitude ds)) as [lo | e | ]; cbn [bind];
    try discriminate.
  destruct (Qltb lo 0).
  - destruct (get_indexer _ _) as [ix | e | ]; cbn [bind]; try discriminate.
    intros E. injection E as <-. reflexivity.
  - intros E. injection E as <-. reflexivity.
Qed.

(** The combined dataset carries the time axes of the files in the order
    of concatenation. *)
Lemma combine_inv (fwd : Z) (dsc : discovered) (comb_ds : Dataset)
  (bounds : option (datetime * datetime)) :
  combine fwd dsc = Returns (comb_ds, bounds) ->
  let o := orient fwd (d_strt_t dsc) (d_final_t dsc) (d_ds_grib dsc) in
  time comb_ds = concat (map time (fst o)) /\ bounds = snd o.
Proof.
  unfold combine.
  destruct (orient fwd _ _ _) as [grib b]. cbn [fst snd].
  destruct grib as [ | d0 grib]; cbn [xr_concat bind]; [discriminate | ].
  destruct (forallb (same_grid d0) grib); cbn [bind]; [ | discriminate].
  destruct (normalize_longitude _) as [ds' | e | ] eqn:N; cbn [bind];
    try discriminate.
  intros E. injection E as <- <-.
  apply normalize_longitude_time in N. rewrite N. split; reflexivity.
Qed.

(** C8.  [drv_fld_dt] is the difference, in seconds, between the first two
    time coordinates of the concatenated series, and [step_per_inpf] is
    that number divided by [time_step * 60], in binary64 and without any
    test of integrality: for a cadence of 21600 seconds and a step of 30
    minutes it is 12, and with a step of 7 minutes the construction
    returns the fraction 21600 / 420. *)
Theorem C8_sampling_metadata
  (fuel : nat) (cfg : config) (fs : filesystem) (dsc : discovered)
  (comb_ds : Dataset) (bounds : option (datetime * datetime))
  (self : era5_acc_fields) :
  discover fuel cfg fs = Returns dsc ->
  combine (forward_option cfg) dsc = Returns (comb_ds, bounds) ->
  init fuel cfg fs = Returns self ->
  (exists t0 t1 rest,
      concat (map time
                (fst (orient (forward_option cfg) (d_strt_t dsc)
                        (d_final_t dsc) (d_ds_grib dsc))))
      = t0 :: t1 :: rest
      /\ drv_fld_dt self
         = (float_of_Z (t1 - t0) / float_of_Z 1000000000)%float
      /\ step_per_inpf self
         = (drv_fld_dt self / float_of_Z (time_step cfg * 60))%float
      /\ (t1 - t0 = 21600 * 1000000000 ->
          drv_fld_dt self = 21600%float
          /\ (time_step cfg = 30 -> step_per_inpf self = 12%float)))
  /\ (exists self7,
         init 10 Sample.step7 Sample.fs = Returns self7
         /\ drv_fld_dt self7 = 21600%float
         /\ step_per_inpf self7 = (21600 / 420)%float
         /\ (51 <? step_per_inpf self7)%float = true
         /\ (step_per_inpf self7 <? 52)%float = true).
Proof.
  intros Hd Hc Hi. split.
  - rewrite (init_stages fuel cfg fs dsc comb_ds bounds Hd Hc) in Hi.
    apply bind_returns in Hi. destruct Hi as (s & Hs & Hfin).
    destruct (combine_inv _ _ _ _ Hc) as (Ht & _). rewrite <- Ht.
    unfold slice_fields in Hs.
    destruct (time comb_ds) as [ | t0 [ | t1 rest]]; try discriminate Hs.
    exists t0, t1, rest. split; [reflexivity | ].
    unfold float_truediv_int in Hs.
    destruct (time_step cfg * 60 =? 0); [discriminate Hs | ].
    destruct (is_infinity _); [discriminate Hs | ].
    cbn [bind] in Hs.
    destruct bounds as [[lo hi] | ]; [ | discriminate Hs].
    destruct (loc_time_slice _ lo hi) as [aU | e | ]; cbn [bind] in Hs;
      try discriminate Hs.
    destruct (loc_time_slice _ lo hi) as [aV | e | ]; cbn [bind] in Hs;
      try discriminate Hs.
    destruct (loc_time_slice _ lo hi) as [aW | e | ]; cbn [bind] in Hs;
      try discriminate Hs.
    injection Hs as <-.
    unfold finish in Hfin. cbn [s_drv_fld_dt s_step_per_inpf] in Hfin.
    destruct (_ || _); [discriminate Hfin | ].
    destruct (boundary_check cfg); [discriminate Hfin | ].
    injection Hfin as <-. cbn [drv_fld_dt step_per_inpf].
    unfold timedelta_seconds.
    split; [reflexivity | ]. split; [reflexivity | ].
    intros ->. split; [vm_compute; reflexivity | ].
    intros ->. vm_compute. reflexivity.
  - eexists. split; [vm_compute; reflexivity | ].
    cbn [drv_fld_dt step_per_inpf]. repeat split; vm_compute; reflexivity.
Qed.

(** Six-hourly frames and a step of 30 minutes: 21600 seconds, 12 steps. *)
Lemma C8_sampling_metadata_witness :
  exists self,
    init 10 Sample.backward30 Sample.fs = Returns self
    /\ drv_fld_dt self = 21600%float /\ step_per_inpf self = 12%float.
Proof.
  destruct (init 10 Sample.backward30 Sample.fs) as [self | e | ] eqn:Hi;
    try (vm_compute in Hi; discriminate Hi).
  exists self. split; [reflexivity | ].
  destruct
    (C8_sampling_metadata 10 Sample.backward30 Sample.fs
       Sample.backward30_found
       (fst Sample.backward30_combined) (snd Sample.backward30_combined)
       self
       ltac:(vm_compute; reflexivity)
       ltac:(vm_compute; reflexivity)
       Hi) as ((t0 & t1 & rest & Ht & _ & _ & H) & _).
  vm_compute in Ht. injection Ht as <- <- _.
  destruct (H eq_refl) as (H1 & H2). split; [exact H1 | exact (H2 eq_refl)].
Defined.

(** C9 fails on the code: the branch taken when the boundary-check flag is
    set reads [fn_timestamp], a name bound nowhere, so the construction
    ends in a [NameError] instead of opening the single-level file; the
    same run without the flag returns, and no construction with the flag
    set ever returns. *)
Theorem C9_boundary_check_raises_NameError :
  boundary_check Sample.with_boundary_check = true
  /\ init 10 Sample.with_boundary_check Sample.fs
     = Raises (NameError "fn_timestamp")
  /\ (exists self, init 10 Sample.forward30 Sample.fs = Returns self)
  /\ (forall fuel cfg fs self,
         init fuel cfg fs = Returns self -> boundary_check cfg = false).
Proof.
  split; [reflexivity | ].
  split; [vm_compute; reflexivity | ].
  split; [eexists; vm_compute; reflexivity | ].
  intros fuel cfg fs self. unfold init.
  destruct (discover fuel cfg fs) as [dsc | e | ]; cbn [bind]; try discriminate.
  destruct (combine _ dsc) as [[comb_ds bounds] | e | ]; cbn [bind];
    try discriminate.
  destruct (slice_fields cfg comb_ds bounds) as [s | e | ]; cbn [bind];
    try discriminate.
  unfold finish. destruct (_ || _); [discriminate | ].
  destruct (boundary_check cfg); [discriminate | reflexivity].
Qed.

(* ================================================================== *)
(** * Slicing an increasing time axis *)
(* ================================================================== *)

Module SliceFacts.

Lemma is_monotonic_increasing_sorted (l : list Z) :
  is_monotonic_increasing l = true -> StronglySorted Z.le l.
Proof.
  intros H. apply Sorted_StronglySorted; [intros x y z; apply Z.le_trans | ].
  induction l as [ | x l IH]; [constructor | ].
  destruct l as [ | y l].
  - repeat constructor.
  - cbn [is_monotonic_increasing] in H. apply andb_true_iff in H.
    destruct H as [Hxy Hl]. apply Z.leb_le in Hxy.
    constructor; [apply IH; exact Hl | constructor; exact Hxy].
Qed.

Lemma sorted_is_monotonic_increasing (l : list Z) :
  StronglySorted Z.lt l -> is_monotonic_increasing l = true.
Proof.
  induction l as [ | x l IH]; intros S; [reflexivity | ].
  inversion S as [ | ? ? S' Hall]; subst.
  destruct l as [ | y l]; [reflexivity | ].
  cbn [is_monotonic_increasing]. apply andb_true_iff. split.
  - apply Z.leb_le. inversion Hall; subst. lia.
  - apply IH. exact S'.
Qed.

Lemma filter_none (p : Z -> bool) (l : list Z) :
  (forall y, In y l -> p y = false) -> filter p l = [].
Proof.
  induction l as [ | x l IH]; intros H; [reflexivity | ].
  cbn [filter]. rewrite (H x (or_introl eq_refl)).
  apply IH. intros y Hy. apply H. now right.
Qed.

(** On an increasing list a predicate that holds below every point where
    it holds selects a prefix. *)
Lemma filter_prefix (p : Z -> bool) (l : list Z) :
  StronglySorted Z.le l ->
  (forall x y, x <= y -> p y = true -> p x = true) ->
  filter p l = firstn (count p l) l
  /\ filter (fun t => negb (p t)) l = skipn (count p l) l.
Proof.
  intros S Hp. unfold count.
  induction l as [ | x l IH]; [split; reflexivity | ].
  inversion S as [ | ? ? S' Hall]; subst.
  destruct (IH S') as [IH1 IH2]. cbn [filter].
  destruct (p x) eqn:Px; cbn [negb length firstn skipn].
  - split; [now rewrite IH1 at 1 | exact IH2].
  - assert (E : filter p l = []).
    { apply filter_none. intros y Hy. rewrite Forall_forall in Hall.
      specialize (Hall y Hy). destruct (p y) eqn:Py; [ | reflexivity].
      rewrite (Hp x y Hall Py) in Px. discriminate Px. }
    rewrite E. cbn [length firstn skipn]. split; [reflexivity | ].
    f_equal. rewrite IH2, E. reflexivity.
Qed.

Lemma filter_sorted (p : Z -> bool) (l : list Z) :
  StronglySorted Z.le l -> StronglySorted Z.le (filter p l).
Proof.
  induction l as [ | x l IH]; intros S; [constructor | ].
  inversion S as [ | ? ? S' Hall]; subst. cbn [filter].
  destruct (p x); [ | now apply IH].
  constructor; [now apply IH | ].
  rewrite Forall_forall in *. intros y Hy. apply filter_In in Hy.
  now apply Hall.
Qed.

Lemma count_split (p q : Z -> bool) (l : list Z) :
  count q l
  = Nat.add (count q (filter p l))
      (count q (filter (fun t => negb (p t)) l)).
Proof.
  unfold count. induction l as [ | x l IH]; [reflexivity | ].
  cbn [filter]. destruct (p x), (q x) eqn:Qx; cbn [negb filter length];
    rewrite ?Qx; cbn [length]; lia.
Qed.

Lemma filter_filter (p q : Z -> bool) (l : list Z) :
  filter q (filter p l) = filter (fun t => p t && q t) l.
Proof.
  induction l as [ | x l IH]; [reflexivity | ].
  cbn [filter]. destruct (p x); cbn [filter andb]; [ | exact IH].
  destruct (q x); now rewrite IH.
Qed.

(** The positions that [get_slice_bound] gives on an increasing axis cut
    out the labels between the two bounds, both included. *)
Lemma py_slice_between (l : list Z) (lo hi : Z) :
  StronglySorted Z.le l -> lo <= hi ->
  py_slice (count (fun t => t <? lo) l) (count (fun t => t <=? hi) l) l
  = filter (fun t => (lo <=? t) && (t <=? hi)) l.
Proof.
  intros S Hlh. unfold py_slice.
  destruct (filter_prefix (fun t => t <? lo) l S) as [P1 P2].
  { intros x y Hxy Hy. apply Z.ltb_lt in Hy. apply Z.ltb_lt. lia. }
  rewrite <- P2.
  set (l1 := filter (fun t => negb (t <? lo)) l).
  assert (S1 : StronglySorted Z.le l1) by now apply filter_sorted.
  destruct (filter_prefix (fun t => t <=? hi) l1 S1) as [Q1 _].
  { intros x y Hxy Hy. apply Z.leb_le in Hy. apply Z.leb_le. lia. }
  assert (Ec : Nat.sub (count (fun t => t <=? hi) l)
                 (count (fun t => t <? lo) l)
               = count (fun t => t <=? hi) l1).
  { rewrite (count_split (fun t => t <? lo) (fun t => t <=? hi) l).
    fold l1.
    assert (El : count (fun t => t <=? hi) (filter (fun t => t <? lo) l)
                 = count (fun t => t <? lo) l).
    { unfold count. f_equal. rewrite filter_filter.
      apply filter_ext. intros t.
      destruct (Z.ltb_spec t lo); cbn [andb]; [ | reflexivity].
      apply Z.leb_le. lia. }
    rewrite El. lia. }
  rewrite Ec, <- Q1. unfold l1. rewrite filter_filter.
  apply filter_ext. intros t. f_equal.
  destruct (Z.ltb_spec t lo), (Z.leb_spec lo t); cbn [negb]; lia || reflexivity.
Qed.

End SliceFacts.

Import SliceFacts.

(** A slice that returns has found its two bounds. *)
Lemma loc_time_slice_returns (da : DataArray) (lo hi : datetime)
  (a : DataArray) :
  loc_time_slice da lo hi = Returns a ->
  exists i j,
    time_label lo = Returns (to_datetime64 lo)
    /\ time_label hi = Returns (to_datetime64 hi)
    /\ get_slice_bound (da_time da) (to_datetime64 lo) false = Returns i
    /\ get_slice_bound (da_time da) (to_datetime64 hi) true = Returns j
    /\ a = {| da_time := py_slice i j (da_time da);
              da_values := py_slice i j (da_values da) |}.
Proof.
  unfold loc_time_slice, time_label.
  destruct ((- 2 ^ 63 <? to_datetime64 lo) && (to_datetime64 lo <? 2 ^ 63));
    cbn [bind]; [ | discriminate].
  destruct ((- 2 ^ 63 <? to_datetime64 hi) && (to_datetime64 hi <? 2 ^ 63));
    cbn [bind]; [ | discriminate].
  destruct (get_slice_bound _ _ false) as [i | e | ]; cbn [bind];
    try discriminate.
  destruct (get_slice_bound _ _ true) as [j | e | ]; cbn [bind];
    try discriminate.
  intros E. injection E as <-. exists i, j. repeat split; reflexivity.
Qed.

Lemma slice_fields_inv (cfg : config) (comb_ds : Dataset)
  (bounds : option (datetime * datetime)) (s : sliced) :
  slice_fields cfg comb_ds bounds = Returns s ->
  exists lo hi,
    bounds = Some (lo, hi)
    /\ loc_time_slice (var (time comb_ds) (u comb_ds)) lo hi = Returns (s_U s)
    /\ loc_time_slice (var (time comb_ds) (v comb_ds)) lo hi = Returns (s_V s)
    /\ loc_time_slice (var (time comb_ds) (w comb_ds)) lo hi = Returns (s_W s).
Proof.
  unfold slice_fields.
  destruct (time comb_ds) as [ | t0 [ | t1 rest]]; try discriminate.
  destruct (float_truediv_int _ _) as [steps | e | ]; cbn [bind];
    try discriminate.
  destruct bounds as [[lo hi] | ]; [ | discriminate].
  destruct (loc_time_slice (var _ (u comb_ds)) lo hi) as [aU | e | ] eqn:HU;
    cbn [bind]; try discriminate.
  destruct (loc_time_slice (var _ (v comb_ds)) lo hi) as [aV | e | ] eqn:HV;
    cbn [bind]; try discriminate.
  destruct (loc_time_slice (var _ (w comb_ds)) lo hi) as [aW | e | ] eqn:HW;
    cbn [bind]; try discriminate.
  intros E. injection E as <-. exists lo, hi. cbn [s_U s_V s_W].
  repeat split; assumption.
Qed.

(** The two ends of the window in chronological order. *)
Lemma window_chronological (cfg : config) (strt final : datetime) :
  window cfg = Returns (strt, final) ->
  0 <= integration_length cfg ->
  (forward_option cfg = 1 -> to_datetime64 strt <= to_datetime64 final)
  /\ (forward_option cfg = -1 -> to_datetime64 final <= to_datetime64 strt).
Proof.
  intros Hw HL. apply window_inv in Hw.
  destruct Hw as (_ & _ & Eo & Eh).
  assert (E : ordinal final * 24 + hour final
              = ordinal strt * 24 + hour strt
                + forward_option cfg * integration_length cfg).
  { rewrite Eo, Eh. divmod. }
  unfold to_datetime64, ns_per_hour. split; intros F; rewrite F in E; nia.
Qed.

(** C5.  In a forward or backward run of non-negative length the slice
    bounds are chronological, [final_t, strt_t] for a backward run and
    [strt_t, final_t] for a forward run, and on an increasing time axis
    the slice of U, V and W keeps exactly the frames whose time lies
    between the two bounds, both included: when the start time or the final
    time is one of the time coordinates, it is one of the sliced result. *)
Theorem C5_slice_is_chronological_and_inclusive
  (fuel : nat) (cfg : config) (fs : filesystem) (dsc : discovered)
  (comb_ds : Dataset) (bounds : option (datetime * datetime)) (s : sliced) :
  forward_option cfg = 1 \/ forward_option cfg = -1 ->
  0 <= integration_length cfg ->
  discover fuel cfg fs = Returns dsc ->
  combine (forward_option cfg) dsc = Returns (comb_ds, bounds) ->
  slice_fields cfg comb_ds bounds = Returns s ->
  is_monotonic_increasing (time comb_ds) = true ->
  let lo := if forward_option cfg =? -1 then d_final_t dsc else d_strt_t dsc in
  let hi := if forward_option cfg =? -1 then d_strt_t dsc else d_final_t dsc in
  let inside t := (to_datetime64 lo <=? t) && (t <=? to_datetime64 hi) in
  bounds = Some (lo, hi)
  /\ to_datetime64 lo <= to_datetime64 hi
  /\ da_time (s_U s) = filter inside (time comb_ds)
  /\ da_time (s_V s) = filter inside (time comb_ds)
  /\ da_time (s_W s) = filter inside (time comb_ds)
  /\ (exists i j, da_time (s_U s) = py_slice i j (time comb_ds)
                  /\ da_values (s_U s) = py_slice i j (u comb_ds)
                  /\ da_values (s_V s) = py_slice i j (v comb_ds)
                  /\ da_values (s_W s) = py_slice i j (w comb_ds))
  /\ (forall t,
         t = to_datetime64 (d_strt_t dsc) \/ t = to_datetime64 (d_final_t dsc) ->
         In t (time comb_ds) ->
         In t (da_time (s_U s)) /\ In t (da_time (s_V s))
         /\ In t (da_time (s_W s))).
Proof.
  intros Hf HL Hd Hc Hs M lo hi inside.
  pose proof (discover_window _ _ _ _ Hd) as Hw.
  destruct (window_chronological cfg _ _ Hw HL) as [Cf Cb].
  destruct (combine_inv _ _ _ _ Hc) as (_ & Hb).
  destruct (slice_fields_inv _ _ _ _ Hs) as (lo' & hi' & Eb & HU & HV & HW).
  assert (Ebs : bounds = Some (lo, hi)).
  { rewrite Hb. unfold orient. subst lo hi.
    destruct Hf as [F | F]; rewrite F; reflexivity. }
  assert (Hlh : to_datetime64 lo <= to_datetime64 hi).
  { subst lo hi. destruct Hf as [F | F]; rewrite F; cbn [Z.eqb Pos.eqb];
      [now apply Cf | now apply Cb]. }
  rewrite Ebs in Eb. injection Eb as <- <-.
  apply loc_time_slice_returns in HU, HV, HW.
  destruct HU as (iU & jU & _ & _ & BiU & BjU & HU).
  destruct HV as (iV & jV & _ & _ & BiV & BjV & HV).
  destruct HW as (iW & jW & _ & _ & BiW & BjW & HW).
  unfold get_slice_bound in BiU, BjU, BiV, BjV, BiW, BjW.
  cbn [var da_time da_values] in *.
  rewrite M in BiU, BjU, BiV, BjV, BiW, BjW.
  injection BiU as <-. injection BjU as <-. injection BiV as <-.
  injection BjV as <-. injection BiW as <-. injection BjW as <-.
  assert (Et : py_slice
                 (count (fun t => t <? to_datetime64 lo) (time comb_ds))
                 (count (fun t => t <=? to_datetime64 hi) (time comb_ds))
                 (time comb_ds)
               = filter inside (time comb_ds)).
  { apply py_slice_between;
      [now apply is_monotonic_increasing_sorted | exact Hlh]. }
  rewrite HU, HV, HW. cbn [da_time da_values].
  split; [exact Ebs | ]. split; [exact Hlh | ].
  split; [exact Et | ]. split; [exact Et | ]. split; [exact Et | ].
  split.
  - eexists. eexists. repeat split.
  - intros t Ht Hin. rewrite Et.
    assert (In t (filter inside (time comb_ds))); [ | tauto].
    apply filter_In. split; [exact Hin | ].
    subst inside. cbv beta. apply andb_true_iff.
    rewrite !Z.leb_le. subst lo hi.
    destruct Hf as [F | F]; rewrite F in *; cbn [Z.eqb Pos.eqb] in *;
      destruct Ht as [-> | ->]; lia.
Qed.

(** The backward run keeps the frames from 2019-12-30T18 to 2020-01-01T00,
    both ends included. *)
Lemma C5_slice_is_chronological_and_inclusive_witness :
  snd Sample.backward30_combined
  = Some (mk_datetime 737423 18, mk_datetime 737425 0)
  /\ In (to_datetime64 (mk_datetime 737425 0))
       (da_time (s_U Sample.backward30_fields))
  /\ In (to_datetime64 (mk_datetime 737423 18))
       (da_time (s_U Sample.backward30_fields)).
Proof.
  pose proof
    (C5_slice_is_chronological_and_inclusive 10 Sample.backward30 Sample.fs
       Sample.backward30_found
       (fst Sample.backward30_combined) (snd Sample.backward30_combined)
       Sample.backward30_fields
       (or_intror eq_refl)
       ltac:(vm_compute; discriminate)
       ltac:(vm_compute; reflexivity)
       ltac:(vm_compute; reflexivity)
       ltac:(vm_compute; reflexivity)
       ltac:(vm_compute; reflexivity)) as (Hb & _ & _ & _ & _ & _ & Hin).
  split; [exact Hb | ]. split.
  - apply (Hin _ (or_introl eq_refl)). vm_compute. tauto.
  - apply (Hin _ (or_intror eq_refl)). vm_compute. tauto.
Defined.

(** C5 as stated fails on a time axis that does not increase.  The file of
    2020-01-01 holds its frames latest first, 18:00, 12:00, 06:00, 00:00;
    the forward run from 00:00 to 06:00 finds both its start time and its
    final time among the time coordinates, the slice is bounded at the
    position of the start time and past the position of the final time,
    which comes before it, and the construction returns U, V and W
    without a single frame: neither the start time nor the final time is
    in the sliced result.  The same happens on an increasing time axis
    when the length of the run is negative: the forward run of minus six
    hours from 06:00 slices from 06:00 to 00:00, and nothing is kept. *)
Lemma C5_endpoints_left_out_counterexample :
  (discover 10 Edge.six_back Sample.fs = Returns Edge.six_back_found
   /\ combine (forward_option Edge.six_back) Edge.six_back_found
      = Returns Edge.six_back_combined
   /\ slice_fields Edge.six_back (fst Edge.six_back_combined)
        (snd Edge.six_back_combined)
      = Returns Edge.six_back_fields
   /\ is_monotonic_increasing (time (fst Edge.six_back_combined)) = true
   /\ snd Edge.six_back_combined
      = Some (mk_datetime 737425 6, mk_datetime 737425 0)
   /\ In (to_datetime64 (d_strt_t Edge.six_back_found))
        (time (fst Edge.six_back_combined))
   /\ In (to_datetime64 (d_final_t Edge.six_back_found))
        (time (fst Edge.six_back_combined))
   /\ da_time (s_U Edge.six_back_fields) = []
   /\ da_time (s_V Edge.six_back_fields) = []
   /\ da_time (s_W Edge.six_back_fields) = []
   /\ exists self,
        init 10 Edge.six_back Sample.fs = Returns self
        /\ U self = s_U Edge.six_back_fields
        /\ inp_nfrm self = 0)
  /\ discover 10 Edge.morning Edge.fs_latest_first = Returns Edge.morning_found
  /\ combine (forward_option Edge.morning) Edge.morning_found
     = Returns Edge.morning_combined
  /\ slice_fields Edge.morning (fst Edge.morning_combined)
       (snd Edge.morning_combined)
     = Returns Edge.morning_fields
  /\ is_monotonic_increasing (time (fst Edge.morning_combined)) = false
  /\ In (to_datetime64 (d_strt_t Edge.morning_found))
       (time (fst Edge.morning_combined))
  /\ In (to_datetime64 (d_final_t Edge.morning_found))
       (time (fst Edge.morning_combined))
  /\ get_slice_bound (time (fst Edge.morning_combined))
       (to_datetime64 (d_strt_t Edge.morning_found)) false
     = Returns 3%nat
  /\ get_slice_bound (time (fst Edge.morning_combined))
       (to_datetime64 (d_final_t Edge.morning_found)) true
     = Returns 3%nat
  /\ da_time (s_U Edge.morning_fields) = []
  /\ da_time (s_V Edge.morning_fields) = []
  /\ da_time (s_W Edge.morning_fields) = []
  /\ exists self,
       init 10 Edge.morning Edge.fs_latest_first = Returns self
       /\ U self = s_U Edge.morning_fields
       /\ V self = s_V Edge.morning_fields
       /\ W self = s_W Edge.morning_fields
       /\ inp_nfrm self = 0.
Proof.
  split.
  { split; [vm_compute; reflexivity | ].
    split; [vm_compute; reflexivity | ].
    split; [vm_compute; reflexivity | ].
    split; [vm_compute; reflexivity | ].
    split; [reflexivity | ].
    split; [vm_compute; tauto | ].
    split; [vm_compute; tauto | ].
    split; [reflexivity | ]. split; [reflexivity | ]. split; [reflexivity | ].
    eexists. split; [vm_compute; reflexivity | ].
    split; reflexivity. }
  split; [vm_compute; reflexivity | ].
  split; [vm_compute; reflexivity | ].
  split; [vm_compute; reflexivity | ].
  split; [vm_compute; reflexivity | ].
  split; [vm_compute; tauto | ].
  split; [vm_compute; tauto | ].
  split; [vm_compute; reflexivity | ].
  split; [vm_compute; reflexivity | ].
  split; [reflexivity | ]. split; [reflexivity | ]. split; [reflexivity | ].
  eexists. split; [vm_compute; reflexivity | ].
  repeat split.
Qed.

(* ================================================================== *)
(** * Longitude normalisation *)
(* ================================================================== *)

Module LongitudeFacts.

Lemma Qltb_lt (x y : Q) : Qltb x y = true <-> (x < y)%Q.
Proof.
  unfold Qltb. rewrite negb_true_iff. split.
  - intros H. apply Qnot_le_lt. intros C. apply Qle_bool_iff in C. congruence.
  - intros H. destruct (Qle_bool y x) eqn:E; [ | reflexivity].
    apply Qle_bool_iff in E. exfalso. apply (Qlt_not_le _ _ H E).
Qed.

Lemma Qltb_ge (x y : Q) : Qltb x y = false <-> (y <= x)%Q.
Proof.
  unfold Qltb. rewrite negb_false_iff. apply Qle_bool_iff.
Qed.

(** The fold of [np_nanmin] ends on an element that is below all. *)
Lemma fold_min_spec (xs : list Q) :
  forall a,
    let m := fold_left (fun a b => if Qle_bool a b then a else b) xs a in
    In m (a :: xs) /\ (m <= a)%Q /\ Forall (fun x => (m <= x)%Q) xs.
Proof.
  induction xs as [ | x xs IH]; intros a; cbn [fold_left].
  - split; [now left | ]. split; [apply Qle_refl | constructor].
  - destruct (Qle_bool a x) eqn:E.
    + apply Qle_bool_iff in E. destruct (IH a) as (Hin & Hle & Hall).
      split; [destruct Hin as [<- | Hin]; [now left | now right; right] | ].
      split; [exact Hle | ].
      constructor; [now apply Qle_trans with a | exact Hall].
    + assert (Hxa : (x <= a)%Q).
      { apply Qlt_le_weak. apply Qnot_le_lt. intros C.
        apply Qle_bool_iff in C. congruence. }
      destruct (IH x) as (Hin & Hle & Hall).
      split; [right; exact Hin | ].
      split; [now apply Qle_trans with x | ].
      constructor; [exact Hle | exact Hall].
Qed.

(** The test of line 118 holds exactly when some longitude is negative. *)
Lemma np_nanmin_negative (xs : list Q) :
  xs <> [] ->
  exists lo, np_nanmin xs = Returns lo
             /\ (Qltb lo 0 = true <-> exists L, In L xs /\ (L < 0)%Q).
Proof.
  destruct xs as [ | x xs]; [congruence | intros _].
  cbn [np_nanmin]. eexists. split; [reflexivity | ].
  destruct (fold_min_spec xs x) as (Hin & Hle & Hall).
  set (m := fold_left _ xs x) in *. rewrite Qltb_lt. split.
  - intros Hm. now exists m.
  - intros (L & [<- | HL] & Hneg).
    + now apply Qle_lt_trans with x.
    + rewrite Forall_forall in Hall. apply Qle_lt_trans with L; auto.
Qed.

Lemma adjust_nonneg (L : Q) : (0 <= L)%Q -> adjust L = L.
Proof.
  intros H. unfold adjust. apply Qltb_ge in H. now rewrite H.
Qed.

(** Where the binary64 sum commits no rounding, a negative label moves by
    360 exactly. *)
Lemma adjust_neg (L : Q) :
  (L < 0)%Q -> exact_plus_360 L = true -> (adjust L == L + 360)%Q.
Proof.
  intros H X. unfold adjust. apply Qltb_lt in H. rewrite H.
  unfold exact_plus_360 in X.
  destruct (binary64_value _) as [q | ]; [ | discriminate X].
  now apply Qeq_bool_iff.
Qed.

Lemma adjust_cases (L : Q) :
  ((L < 0)%Q -> exact_plus_360 L = true) ->
  ((L < 0)%Q /\ (adjust L == L + 360)%Q) \/ ((0 <= L)%Q /\ adjust L = L).
Proof.
  intros X. destruct (Qlt_le_dec L 0) as [Hneg | Hge].
  - left. split; [exact Hneg | ]. apply adjust_neg; auto.
  - right. split; [exact Hge | ]. now apply adjust_nonneg.
Qed.

Lemma adjust_range (L : Q) :
  (-360 <= L < 360)%Q -> ((L < 0)%Q -> exact_plus_360 L = true) ->
  (0 <= adjust L < 360)%Q.
Proof.
  intros H X. destruct (adjust_cases L X) as [(Hneg & E) | (Hge & E)].
  - rewrite E. lra.
  - rewrite E. lra.
Qed.



Lemma is_unique_distinct (l : list Q) : distinct l -> is_unique l = true.
Proof.
  unfold distinct. intros D.
  induction D as [ | a l Ha D IH]; [reflexivity | ].
  cbn [is_unique]. rewrite IH, andb_true_r. apply negb_true_iff.
  destruct (existsb (Qeq_bool a) l) eqn:E; [ | reflexivity].
  apply existsb_exists in E. destruct E as (b & Hb & E).
  apply Qeq_bool_iff in E. rewrite Forall_forall in Ha.
  now destruct (Ha b Hb).
Qed.

(** ** [sorted] *)

Lemma insert_sorted_perm (x : Q) (l : list Q) :
  Permutation (insert_sorted x l) (x :: l).
Proof.
  induction l as [ | y l IH]; cbn [insert_sorted]; [reflexivity | ].
  destruct (Qltb y x); [ | reflexivity].
  rewrite IH. apply perm_swap.
Qed.

Lemma sorted_perm (l : list Q) : Permutation (sorted l) l.
Proof.
  induction l as [ | x l IH]; [reflexivity | ].
  unfold sorted in *. cbn [fold_right].
  rewrite insert_sorted_perm. now constructor.
Qed.

Lemma insert_sorted_increasing (x : Q) (l : list Q) :
  StronglySorted Qlt l ->
  Forall (fun y => ~ (x == y)%Q) l ->
  StronglySorted Qlt (insert_sorted x l).
Proof.
  induction l as [ | y l IH]; intros S N; cbn [insert_sorted].
  - repeat constructor.
  - inversion S as [ | ? ? S' Hall]; subst.
    inversion N as [ | ? ? Nxy N']; subst.
    destruct (Qltb y x) eqn:E.
    + apply Qltb_lt in E. constructor; [now apply IH | ].
      apply Forall_forall. intros z Hz.
      apply (Permutation_in _ (insert_sorted_perm x l)) in Hz.
      destruct Hz as [<- | Hz]; [exact E | ].
      rewrite Forall_forall in Hall. now apply Hall.
    + apply Qltb_ge in E.
      assert (Hxy : (x < y)%Q).
      { apply Qle_lt_or_eq in E. destruct E as [E | E]; [exact E | ].
        now destruct Nxy. }
      constructor; [exact S | ].
      constructor; [exact Hxy | ].
      rewrite Forall_forall in *. intros z Hz.
      apply Qlt_trans with y; auto.
Qed.

Lemma sorted_increasing (l : list Q) :
  distinct l -> StronglySorted Qlt (sorted l).
Proof.
  unfold distinct. intros D.
  induction D as [ | a l Ha D IH]; [constructor | ].
  unfold sorted in *. cbn [fold_right].
  apply insert_sorted_increasing; [exact IH | ].
  rewrite Forall_forall in *. intros y Hy. apply Ha.
  apply (Permutation_in _ (sorted_perm l)). exact Hy.
Qed.

(** ** Reindexing by the sorted labels *)

Lemma get_loc_head (index : list Q) (x : Q) :
  get_loc (x :: index) x = Some 0%nat.
Proof.
  cbn [get_loc]. replace (Qeq_bool x x) with true; [reflexivity | ].
  symmetry. apply Qeq_bool_iff. reflexivity.
Qed.

Lemma get_loc_tail (index : list Q) (y x : Q) :
  ~ (y == x)%Q -> get_loc (y :: index) x = option_map S (get_loc index x).
Proof.
  intros N. cbn [get_loc]. destruct (Qeq_bool y x) eqn:E; [ | reflexivity].
  apply Qeq_bool_iff in E. contradiction.
Qed.

Lemma get_loc_found (index : list Q) (x : Q) :
  In x index -> exists i, get_loc index x = Some i.
Proof.
  induction index as [ | y index IH]; intros Hin; [destruct Hin | ].
  cbn [get_loc]. destruct (Qeq_bool y x) eqn:E; [now exists 0%nat | ].
  destruct Hin as [-> | Hin].
  - assert (T : Qeq_bool x x = true) by (apply Qeq_bool_iff; reflexivity).
    congruence.
  - destruct (IH Hin) as (i & ->). now exists (S i).
Qed.

Lemma locate_all_positions (index labels : list Q) :
  (forall x, In x labels -> In x index) ->
  locate_all index labels = Returns (map (position index) labels).
Proof.
  induction labels as [ | x labels IH]; intros Hin; [reflexivity | ].
  cbn [locate_all map]. unfold position at 1.
  destruct (get_loc_found index x (Hin x (or_introl eq_refl))) as (i & ->).
  rewrite IH; [reflexivity | ]. intros y Hy. apply Hin. now right.
Qed.

(** In an index of distinct labels every label sits at its position. *)
Lemma nth_position (index : list Q) (d x : Q) :
  distinct index -> In x index -> nth (position index x) index d = x.
Proof.
  unfold distinct. intros D.
  induction D as [ | y index Hy D IH]; intros Hin; [destruct Hin | ].
  destruct Hin as [-> | Hin].
  - unfold position. now rewrite get_loc_head.
  - rewrite Forall_forall in Hy. unfold position.
    rewrite get_loc_tail by now apply Hy.
    destruct (get_loc_found index x Hin) as (i & Ei).
    specialize (IH Hin). unfold position in IH. rewrite Ei in *.
    exact IH.
Qed.

Lemma positions_of_index (index : list Q) :
  distinct index -> map (position index) index = seq 0 (length index).
Proof.
  unfold distinct. intros D.
  induction D as [ | y index Hy D IH]; [reflexivity | ].
  cbn [map length seq]. f_equal.
  - unfold position. now rewrite get_loc_head.
  - rewrite <- seq_shift, <- IH, map_map. apply map_ext_in.
    intros x Hx. rewrite Forall_forall in Hy. unfold position.
    rewrite get_loc_tail by now apply Hy.
    destruct (get_loc_found index x Hx) as (i & ->). reflexivity.
Qed.




(** What [get_indexer] returns for the sorted labels of an index of
    distinct labels: a permutation of the positions that puts the labels
    in sorted order. *)
Lemma get_indexer_sorted (index : list Q) :
  distinct index ->
  exists indexer,
    get_indexer index (sorted index) = Returns indexer
    /\ Permutation indexer (seq 0 (length index))
    /\ take 0%Q indexer index = sorted index.
Proof.
  intros D. exists (map (position index) (sorted index)).
  assert (Hin : forall x, In x (sorted index) -> In x index).
  { intros x. apply Permutation_in, sorted_perm. }
  unfold get_indexer. rewrite (is_unique_distinct _ D).
  split; [now apply locate_all_positions | ]. split.
  - rewrite <- (positions_of_index index D).
    apply Permutation_map, sorted_perm.
  - unfold take. rewrite map_map. rewrite <- (map_id (sorted index)) at 2.
    apply map_ext_in. intros x Hx. apply nth_position; auto.
Qed.





End LongitudeFacts.

Import LongitudeFacts.





(* ================================================================== *)
(** * Forward and backward runs over one calendar span *)
(* ================================================================== *)

Module SpanFacts.

Lemma walk_snoc (n step : Z) (k : nat) :
  walk n step (S k) = walk n step k ++ [n + step * Z.of_nat (S k)].
Proof.
  unfold walk. rewrite seq_S, map_app. reflexivity.
Qed.

(** The days of a backward walk are those of the forward walk over the
    same span, in reverse. *)
Lemma rev_walk (k : nat) :
  forall a, rev (a :: walk a 1 k) = (a + Z.of_nat k) :: walk (a + Z.of_nat k) (-1) k.
Proof.
  induction k as [ | k IH]; intros a.
  - cbn. f_equal. lia.
  - rewrite walk_S. change (rev (a :: (a + 1) :: walk (a + 1) 1 k))
      with (rev ((a + 1) :: walk (a + 1) 1 k) ++ [a]).
    rewrite IH, walk_snoc.
    replace (a + 1 + Z.of_nat k) with (a + Z.of_nat (S k)) by lia.
    cbn [app]. do 3 f_equal. lia.
Qed.

Lemma Forall2_functional {A B : Type} (R : A -> B -> Prop) (l : list A) :
  (forall a b b', R a b -> R a b' -> b = b') ->
  forall l1 l2, Forall2 R l l1 -> Forall2 R l l2 -> l1 = l2.
Proof.
  intros HR. induction l as [ | a l IH]; intros l1 l2 H1 H2;
    inversion H1; subst; inversion H2; subst; [reflexivity | ].
  f_equal; [eapply HR; eassumption | now apply IH].
Qed.

Lemma Forall2_rev {A B : Type} (R : A -> B -> Prop) (l : list A) (l' : list B) :
  Forall2 R l l' -> Forall2 R (rev l) (rev l').
Proof.
  induction 1 as [ | a b l l' Hab H IH]; [constructor | ].
  cbn [rev]. apply Forall2_app; [exact IH | now repeat constructor].
Qed.

Lemma sorted_app (l1 l2 : list Z) :
  StronglySorted Z.lt l1 -> StronglySorted Z.lt l2 ->
  (forall x y, In x l1 -> In y l2 -> x < y) ->
  StronglySorted Z.lt (l1 ++ l2).
Proof.
  induction l1 as [ | a l1 IH]; intros S1 S2 H; [exact S2 | ].
  inversion S1 as [ | ? ? S1' Hall]; subst. cbn [app].
  constructor.
  - apply IH; [exact S1' | exact S2 | ].
    intros x y Hx Hy. apply H; [now right | exact Hy].
  - apply Forall_app. split; [exact Hall | ].
    apply Forall_forall. intros y Hy. apply H; [now left | exact Hy].
Qed.

Lemma ordinal_of_ns_lt (t1 t2 : Z) :
  ordinal_of_ns t1 < ordinal_of_ns t2 -> t1 < t2.
Proof.
  unfold ordinal_of_ns, ns_per_day, ns_per_hour. intros H.
  Z.to_euclidean_division_equations. lia.
Qed.

(** Daily files taken in the order of increasing days concatenate to a
    strictly increasing time axis. *)
Lemma concat_times_increasing (dir : string) (fs : filesystem)
  (days : list Z) (dss : list Dataset) :
  daily_files_ok dir fs ->
  Forall (fun n => 1 <= n <= Calendar.MAXORDINAL) days ->
  StronglySorted Z.lt days ->
  Forall2 (fun n ds => fs (day_file dir n) = Some ds) days dss ->
  StronglySorted Z.lt (concat (map time dss))
  /\ Forall (fun t => exists n, In n days /\ ordinal_of_ns t = n)
       (concat (map time dss)).
Proof.
  intros Hok V S F. induction F as [ | n ds days dss Hn F IH].
  - split; constructor.
  - inversion S as [ | ? ? S' Hall]; subst.
    inversion V as [ | ? ? Vn V']; subst.
    destruct (IH V' S') as (IHs & IHd).
    destruct (Hok n ds Vn Hn) as (Hs & Hd).
    cbn [map concat]. split.
    + apply sorted_app; [exact Hs | exact IHs | ].
      intros x y Hx Hy. apply ordinal_of_ns_lt.
      rewrite Forall_forall in Hd, IHd, Hall.
      rewrite (Hd x Hx). destruct (IHd y Hy) as (m & Hm & ->).
      now apply Hall.
    + apply Forall_app. split.
      * eapply Forall_impl; [ | exact Hd]. cbv beta.
        intros t Ht. exists n. split; [now left | exact Ht].
      * eapply Forall_impl; [ | exact IHd]. cbv beta.
        intros t (m & Hm & Ht). exists m. split; [now right | exact Ht].
Qed.

(** The days a forward run requires are days of the calendar. *)
Lemma required_days_valid (strt final : datetime) :
  valid_datetime strt -> valid_datetime final ->
  ordinal final = ordinal strt + Z.of_nat (days_apart strt final) ->
  Forall (fun n => 1 <= n <= Calendar.MAXORDINAL)
    (required_days 1 strt final).
Proof.
  intros (Vs & _) (Vf & _) E. unfold required_days.
  constructor; [exact Vs | ].
  apply Forall_forall. intros n Hn. apply RunFacts.walk_bounds in Hn.
  destruct Hn as [Hn _]. specialize (Hn eq_refl). lia.
Qed.

(** The sample directory holds, for each of its days, the four frames of
    that day. *)
Lemma sample_files_ok : daily_files_ok "/era5" Sample.fs.
Proof.
  intros n ds Vn. unfold Sample.fs, Sample.directory.
  destruct (find _ _) as [m | ] eqn:F; [ | discriminate].
  apply find_some in F. destruct F as (Hm & E).
  apply String.eqb_eq in E. intros D. injection D as <-.
  assert (Vm : 1 <= m <= Calendar.MAXORDINAL).
  { unfold Calendar.MAXORDINAL.
    repeat (destruct Hm as [<- | Hm]; [lia | ]). destruct Hm. }
  apply (LoopFacts.day_file_inj "/era5" n m Vn Vm) in E. subst n.
  repeat (destruct Hm as [<- | Hm];
          [split; [repeat constructor | repeat constructor; vm_compute; reflexivity] | ]).
  destruct Hm.
Qed.

End SpanFacts.

Import SpanFacts.

(** C3 (amended).  For a forward run and a backward run over the same
    calendar span of one directory: the discovered file paths are the
    same set, listed in opposite orders; the backward run reverses its
    loaded sequence before concatenation, so both runs concatenate the
    per-file structures in the same order, that of increasing dates; and
    when every daily file holds strictly increasing times of its own day,
    the combined time coordinate is strictly increasing in both runs. *)
Theorem C3_forward_and_backward_runs
  (fuelF fuelB : nat) (cfgF cfgB : config) (fs : filesystem)
  (dscF dscB : discovered) :
  forward_option cfgF = 1 -> forward_option cfgB = -1 ->
  0 <= integration_length cfgF -> 0 <= integration_length cfgB ->
  input_era5_case cfgB = input_era5_case cfgF ->
  discover fuelF cfgF fs = Returns dscF ->
  discover fuelB cfgB fs = Returns dscB ->
  ordinal (d_strt_t dscB) = ordinal (d_final_t dscF) ->
  ordinal (d_final_t dscB) = ordinal (d_strt_t dscF) ->
  let catF :=
    fst (orient 1 (d_strt_t dscF) (d_final_t dscF) (d_ds_grib dscF)) in
  let catB :=
    fst (orient (-1) (d_strt_t dscB) (d_final_t dscB) (d_ds_grib dscB)) in
  d_files dscB = rev (d_files dscF)
  /\ (forall p, In p (d_files dscB) <-> In p (d_files dscF))
  /\ d_ds_grib dscB = rev (d_ds_grib dscF)
  /\ catB = rev (d_ds_grib dscB)
  /\ catB = catF
  /\ (daily_files_ok (input_era5_case cfgF) fs ->
      forall comb_ds bounds,
        combine 1 dscF = Returns (comb_ds, bounds)
        \/ combine (-1) dscB = Returns (comb_ds, bounds) ->
        StronglySorted Z.lt (time comb_ds)).
Proof.
  intros FF FB LF LB Edir HdF HdB Es Ef catF catB.
  destruct (discover_returns fuelF cfgF fs dscF (or_introl FF) LF HdF)
    as (HwF & HflF & HgF).
  destruct (discover_returns fuelB cfgB fs dscB (or_intror FB) LB HdB)
    as (HwB & HflB & HgB).
  pose proof (final_ordinal cfgF _ _ HwF (or_introl FF) LF) as EoF.
  rewrite FF in *. rewrite FB in *. rewrite Edir in *.
  set (dir := input_era5_case cfgF) in *.
  set (a := ordinal (d_strt_t dscF)) in *.
  set (k := days_apart (d_strt_t dscF) (d_final_t dscF)) in *.
  assert (Ek : days_apart (d_strt_t dscB) (d_final_t dscB) = k).
  { subst k. unfold days_apart. rewrite Es, Ef. f_equal. lia. }
  assert (Edays : required_days (-1) (d_strt_t dscB) (d_final_t dscB)
                  = rev (required_days 1 (d_strt_t dscF) (d_final_t dscF))).
  { unfold required_days. fold a k. rewrite Ek, Es, EoF, rev_walk.
    replace (a + 1 * Z.of_nat k) with (a + Z.of_nat k) by lia. reflexivity. }
  rewrite Edays in HflB, HgB.
  assert (Eg : d_ds_grib dscB = rev (d_ds_grib dscF)).
  { apply Forall2_rev in HgF.
    eapply Forall2_functional; [ | exact HgB | exact HgF].
    cbv beta. intros n d1 d2 H1 H2. congruence. }
  assert (EcB : catB = rev (d_ds_grib dscB)) by reflexivity.
  assert (EcF : catF = d_ds_grib dscF) by reflexivity.
  assert (Ecat : catB = catF).
  { rewrite EcB, EcF, Eg. apply rev_involutive. }
  split; [rewrite HflB, HflF; apply map_rev | ].
  split.
  { intros p. rewrite HflB, HflF, map_rev. symmetry. apply in_rev. }
  split; [exact Eg | ]. split; [exact EcB | ]. split; [exact Ecat | ].
  intros Hok comb_ds bounds Hc.
  assert (Et : time comb_ds = concat (map time (d_ds_grib dscF))).
  { destruct Hc as [Hc | Hc]; apply combine_inv in Hc; destruct Hc as (Ht & _).
    - exact Ht.
    - fold catB in Ht. rewrite Ecat, EcF in Ht. exact Ht. }
  rewrite Et.
  destruct (window_inv _ _ _ HwF) as (Vs & Vf & _).
  apply (concat_times_increasing dir fs
           (required_days 1 (d_strt_t dscF) (d_final_t dscF)));
    [exact Hok | | apply walk_increasing | exact HgF].
  apply required_days_valid; [exact Vs | exact Vf | ].
  fold a k. lia.
Qed.

(** The forward run from 2020-01-01T00 to 2020-01-02T06 and the backward
    run from 2020-01-02T06 to 2020-01-01T00. *)
Lemma C3_forward_and_backward_runs_witness :
  d_files Sample.backward_span_found = rev (d_files Sample.forward30_found)
  /\ fst (orient (-1) (d_strt_t Sample.backward_span_found)
            (d_final_t Sample.backward_span_found)
            (d_ds_grib Sample.backward_span_found))
     = d_ds_grib Sample.forward30_found
  /\ StronglySorted Z.lt (time (fst Sample.forward30_combined))
  /\ StronglySorted Z.lt (time (fst Sample.backward_span_combined)).
Proof.
  pose proof
    (C3_forward_and_backward_runs 10 10 Sample.forward30 Sample.backward_span
       Sample.fs Sample.forward30_found Sample.backward_span_found
       eq_refl eq_refl
       ltac:(vm_compute; discriminate) ltac:(vm_compute; discriminate)
       eq_refl
       ltac:(vm_compute; reflexivity) ltac:(vm_compute; reflexivity)
       eq_refl eq_refl) as (Hfl & _ & _ & _ & Hcat & Htime).
  split; [exact Hfl | ]. split; [exact Hcat | ].
  specialize (Htime sample_files_ok). split.
  - apply (Htime _ (snd Sample.forward30_combined)). left.
    vm_compute. reflexivity.
  - apply (Htime _ (snd Sample.backward_span_combined)). right.
    vm_compute. reflexivity.
Defined.

(** C3 as stated fails: the forward run from 2020-01-01T00 to 2020-01-02T06
    and the backward run from 2020-01-02T06 to 2020-01-01T00 discover the
    same two files and concatenate their datasets in one and the same
    order, the file of 2020-01-01 first; the order of concatenation of the
    one is not the reverse of that of the other. *)
Lemma C3_concatenation_order_counterexample :
  discover 10 Sample.forward30 Sample.fs = Returns Sample.forward30_found
  /\ discover 10 Sample.backward_span Sample.fs
     = Returns Sample.backward_span_found
  /\ ordinal (d_strt_t Sample.backward_span_found)
     = ordinal (d_final_t Sample.forward30_found)
  /\ ordinal (d_final_t Sample.backward_span_found)
     = ordinal (d_strt_t Sample.forward30_found)
  /\ let catF :=
       fst (orient (forward_option Sample.forward30)
              (d_strt_t Sample.forward30_found)
              (d_final_t Sample.forward30_found)
              (d_ds_grib Sample.forward30_found)) in
     let catB :=
       fst (orient (forward_option Sample.backward_span)
              (d_strt_t Sample.backward_span_found)
              (d_final_t Sample.backward_span_found)
              (d_ds_grib Sample.backward_span_found)) in
     catB = catF /\ catB <> rev catF.
Proof.
  split; [vm_compute; reflexivity | ].
  split; [vm_compute; reflexivity | ].
  split; [reflexivity | ]. split; [reflexivity | ].
  split; [vm_compute; reflexivity | ].
  intros E. apply (f_equal (map time)) in E. vm_compute in E.
  discriminate E.
Qed.

(* ================================================================== *)
(** * Further properties of the constructor *)
(* ================================================================== *)

Module MoreLoopFacts.

(** Whatever the step, a loop that returns has only appended: each new
    file name is followed by the dataset that file opens to, and the
    cursor ends on the date of the final time. *)
Lemma while_loop_appends (fs : filesystem) (dir : string) (fn_dt : Z)
  (final : datetime) (fuel : nat) :
  forall st st',
    while_loop fuel fs dir fn_dt final st = Returns st' ->
    exists fl dl,
      files st' = files st ++ fl
      /\ ds_grib st' = ds_grib st ++ dl
      /\ Forall2 (fun p ds => fs p = Some ds) fl dl
      /\ strftime_Ymd (curr_t st') = strftime_Ymd final
      /\ (fl = [] -> st' = st)
      /\ (fl <> [] -> last fl EmptyString = pl_file dir (curr_t st')).
Proof.
  induction fuel as [ | fuel IH]; intros st st'; cbn [while_loop];
    destruct (String.eqb (strftime_Ymd (curr_t st)) (strftime_Ymd final))
      eqn:T; cbn [negb]; try discriminate.
  - intros E. injection E as <-. exists [], []. rewrite !app_nil_r.
    apply String.eqb_eq in T. repeat split; try constructor; congruence.
  - intros E. injection E as <-. exists [], []. rewrite !app_nil_r.
    apply String.eqb_eq in T. repeat split; try constructor; congruence.
  - unfold loop_body.
    destruct (add_days (curr_t st) fn_dt) as [curr | e | ]; cbn [bind];
      try discriminate.
    unfold os_path_exists, xr_load_dataset, throw_error.
    destruct (fs (pl_file dir curr)) as [ds | ] eqn:F; cbn [negb bind];
      [ | discriminate].
    intros W. apply IH in W. cbn [files ds_grib curr_t] in W.
    destruct W as (fl & dl & Hf & Hg & H2 & Hc & Hnil & Hlast).
    exists (pl_file dir curr :: fl), (ds :: dl).
    rewrite Hf, Hg, <- !app_assoc. cbn [app].
    split; [reflexivity | ]. split; [reflexivity | ].
    split; [constructor; assumption | ]. split; [exact Hc | ].
    split; [discriminate | ]. intros _.
    destruct fl as [ | p fl].
    + rewrite (Hnil eq_refl). reflexivity.
    + change (last (pl_file dir curr :: p :: fl) EmptyString)
        with (last (p :: fl) EmptyString).
      apply Hlast. discriminate.
Qed.

Lemma Forall2_In_left {A B : Type} (R : A -> B -> Prop)
  (l : list A) (l' : list B) (a : A) :
  Forall2 R l l' -> In a l -> exists b, In b l' /\ R a b.
Proof.
  induction 1 as [ | x y l l' Hxy H IH]; intros Hin; [destruct Hin | ].
  destruct Hin as [<- | Hin].
  - exists y. split; [now left | exact Hxy].
  - destruct (IH Hin) as (b & Hb & Rb). exists b. split; [now right | exact Rb].
Qed.

Lemma pl_file_same_date (dir : string) (t1 t2 : datetime) :
  strftime_Ymd t1 = strftime_Ymd t2 -> pl_file dir t1 = pl_file dir t2.
Proof. unfold pl_file. now intros ->. Qed.

(** What discovery returns, whatever the direction. *)
Lemma discover_any_direction (fuel : nat) (cfg : config) (fs : filesystem)
  (dsc : discovered) :
  discover fuel cfg fs = Returns dsc ->
  exists fl,
    d_files dsc = pl_file (input_era5_case cfg) (d_strt_t dsc) :: fl
    /\ Forall2 (fun p ds => fs p = Some ds) (d_files dsc) (d_ds_grib dsc)
    /\ last (d_files dsc) EmptyString
       = pl_file (input_era5_case cfg) (d_final_t dsc).
Proof.
  unfold discover.
  destruct (window cfg) as [[strt final] | e | ]; cbn [bind];
    try discriminate.
  unfold os_path_exists, xr_load_dataset, throw_error.
  destruct (fs (pl_file (input_era5_case cfg) strt)) as [ds | ] eqn:F;
    cbn [negb bind]; [ | discriminate].
  destruct (timedelta_days _) as [fn_dt | e | ]; cbn [bind]; try discriminate.
  destruct (while_loop _ _ _ _ _ _) as [st | e | ] eqn:W; cbn [bind];
    try discriminate.
  intros E. injection E as <-. cbn [d_files d_ds_grib d_strt_t d_final_t].
  apply while_loop_appends in W. cbn [files ds_grib curr_t] in W.
  destruct W as (fl & dl & Hf & Hg & H2 & Hc & Hnil & Hlast).
  exists fl. rewrite Hf, Hg. cbn [app].
  split; [reflexivity | ]. split; [constructor; assumption | ].
  destruct fl as [ | p fl].
  - rewrite (Hnil eq_refl) in Hc. cbn [curr_t] in Hc. cbn [last].
    now apply pl_file_same_date.
  - change (last (pl_file (input_era5_case cfg) strt :: p :: fl) EmptyString)
      with (last (p :: fl) EmptyString).
    rewrite Hlast by discriminate. now apply pl_file_same_date.
Qed.

End MoreLoopFacts.

Import MoreLoopFacts.

(** X1.  Whatever the direction and the length, a discovery that returns
    from a start date of year 1000 or later has listed first the
    pressure-level file of the configured start date,
    [<input_dir>/<YYYYMMDD>-pl.grib] with the digits of the
    configuration, and last the file of the date of the final time; every
    listed file exists, and the loaded datasets are the contents of the
    listed files, in the same order. *)
Theorem X1_discovered_files_and_datasets
  (fuel : nat) (cfg : config) (fs : filesystem) (dsc : discovered)
  (y m d hh : Z) :
  start_ymdh cfg = (y, m, d, hh) ->
  1000 <= y ->
  discover fuel cfg fs = Returns dsc ->
  hd_error (d_files dsc)
  = Some (input_era5_case cfg ++ "/"
          ++ (Calendar.zfill4 y ++ Calendar.zfill2 m ++ Calendar.zfill2 d)
          ++ "-pl.grib")%string
  /\ last (d_files dsc) EmptyString
     = pl_file (input_era5_case cfg) (d_final_t dsc)
  /\ Forall2 (fun p ds => fs p = Some ds) (d_files dsc) (d_ds_grib dsc)
  /\ (forall p, In p (d_files dsc) -> os_path_exists fs p = true).
Proof.
  intros Es Hy Hd.
  destruct (discover_any_direction _ _ _ _ Hd) as (fl & Hf & H2 & Hl).
  pose proof (discover_window _ _ _ _ Hd) as Hw.
  assert (Hs : strptime_YmdH (y, m, d, hh) = Returns (d_strt_t dsc)).
  { unfold window in Hw. rewrite Es in Hw.
    destruct (strptime_YmdH (y, m, d, hh)) as [t | e | ]; cbn [bind] in Hw;
      try discriminate Hw.
    destruct (add_hours t _) as [t' | e | ]; cbn [bind] in Hw;
      try discriminate Hw.
    injection Hw as -> _. reflexivity. }
  split.
  - rewrite Hf. cbn [hd_error]. unfold pl_file.
    rewrite (strftime_strptime _ _ _ _ _ Hs).
    now rewrite (NameFacts.year_digits_four y Hy).
  - split; [exact Hl | ]. split; [exact H2 | ].
    intros p Hp. unfold os_path_exists.
    destruct (Forall2_In_left _ _ _ _ H2 Hp) as (ds & _ & ->).
    reflexivity.
Qed.

Lemma X1_discovered_files_and_datasets_witness :
  hd_error (d_files Sample.backward30_found)
  = Some "/era5/20200101-pl.grib"%string
  /\ last (d_files Sample.backward30_found) EmptyString
     = "/era5/20191230-pl.grib"%string.
Proof.
  pose proof
    (X1_discovered_files_and_datasets 10 Sample.backward30 Sample.fs
       Sample.backward30_found 2020 1 1 0
       eq_refl ltac:(lia) ltac:(vm_compute; reflexivity)) as (H1 & H2 & _).
  split; [exact H1 | exact H2].
Defined.

(** X2.  A direction other than +1 and -1 never gives an object: lines
    103-112 then bind neither [slice_start] nor [slice_end], and when the
    files are read and combined, at least two frames are at hand and the
    step divides, the construction ends at line 137 in the error of an
    unbound local name. *)
Theorem X2_other_directions_bind_no_slice
  (fuel : nat) (cfg : config) (fs : filesystem) :
  forward_option cfg <> 1 -> forward_option cfg <> -1 ->
  (forall self, init fuel cfg fs <> Returns self)
  /\ (forall dsc comb_ds bounds t0 t1 rest steps,
         discover fuel cfg fs = Returns dsc ->
         combine (forward_option cfg) dsc = Returns (comb_ds, bounds) ->
         time comb_ds = t0 :: t1 :: rest ->
         float_truediv_int (timedelta_seconds t0 t1) (time_step cfg * 60)
         = Returns steps ->
         init fuel cfg fs = Raises (UnboundLocalError "slice_start")).
Proof.
  intros N1 N2.
  assert (Hb : forall dsc comb_ds bounds,
             combine (forward_option cfg) dsc = Returns (comb_ds, bounds) ->
             bounds = None).
  { intros dsc comb_ds bounds Hc. apply combine_inv in Hc.
    destruct Hc as (_ & ->). unfold orient.
    destruct (Z.eqb_spec (forward_option cfg) (-1)); [contradiction | ].
    destruct (Z.eqb_spec (forward_option cfg) 1); [contradiction | ].
    reflexivity. }
  split.
  - intros self Hi. unfold init in Hi.
    apply bind_returns in Hi. destruct Hi as (dsc & Hd & Hi).
    apply bind_returns in Hi. destruct Hi as ([comb_ds bounds] & Hc & Hi).
    apply bind_returns in Hi. destruct Hi as (s & Hs & _).
    rewrite (Hb _ _ _ Hc) in Hs.
    destruct (slice_fields_inv _ _ _ _ Hs) as (lo & hi & E & _).
    discriminate E.
  - intros dsc comb_ds bounds t0 t1 rest steps Hd Hc Ht Hs.
    rewrite (init_stages _ _ _ _ _ _ Hd Hc), (Hb _ _ _ Hc).
    unfold slice_fields. rewrite Ht, Hs. reflexivity.
Qed.

Lemma X2_other_directions_bind_no_slice_witness :
  init 10 Edge.undirected Sample.fs = Raises (UnboundLocalError "slice_start").
Proof.
  destruct
    (X2_other_directions_bind_no_slice 10 Edge.undirected Sample.fs
       ltac:(vm_compute; discriminate) ltac:(vm_compute; discriminate))
    as (_ & H).
  apply (H Edge.undirected_found (fst Edge.undirected_combined)
           (snd Edge.undirected_combined)
           1577836800000000000 1577858400000000000
           [1577880000000000000; 1577901600000000000] 12%float);
    vm_compute; reflexivity.
Defined.

Lemma length_concat_rev {A : Type} (l : list (list A)) :
  length (concat (rev l)) = length (concat l).
Proof.
  induction l as [ | x l IH]; [reflexivity | ].
  cbn [rev concat]. rewrite concat_app, !length_app, IH.
  cbn [concat]. rewrite app_nil_r. lia.
Qed.

(** The number of frames of the combined dataset is that of the loaded
    files together. *)
Lemma combine_frames (fwd : Z) (dsc : discovered) (comb_ds : Dataset)
  (bounds : option (datetime * datetime)) :
  combine fwd dsc = Returns (comb_ds, bounds) ->
  length (time comb_ds) = length (concat (map time (d_ds_grib dsc))).
Proof.
  intros Hc. apply combine_inv in Hc. destruct Hc as (-> & _).
  unfold orient. destruct (fwd =? -1); [ | destruct (fwd =? 1); reflexivity].
  cbn [fst]. rewrite map_rev. apply length_concat_rev.
Qed.

(** X3.  When the loaded files hold fewer than two time frames together,
    the construction ends in the [IndexError] of [comb_ds.time[1]] at line
    134, whatever the direction, the step and the values are. *)
Theorem X3_one_frame_is_not_enough
  (fuel : nat) (cfg : config) (fs : filesystem) (dsc : discovered)
  (comb_ds : Dataset) (bounds : option (datetime * datetime)) :
  discover fuel cfg fs = Returns dsc ->
  combine (forward_option cfg) dsc = Returns (comb_ds, bounds) ->
  (length (concat (map time (d_ds_grib dsc))) < 2)%nat ->
  init fuel cfg fs = Raises IndexError.
Proof.
  intros Hd Hc Hlen.
  rewrite (init_stages _ _ _ _ _ _ Hd Hc).
  rewrite <- (combine_frames _ _ _ _ Hc) in Hlen.
  unfold slice_fields.
  destruct (time comb_ds) as [ | t0 [ | t1 rest]]; cbn [length] in Hlen;
    [reflexivity | reflexivity | lia].
Qed.

Lemma X3_one_frame_is_not_enough_witness :
  init 10 Edge.within_day Edge.fs_single = Raises IndexError.
Proof.
  exact
    (X3_one_frame_is_not_enough 10 Edge.within_day Edge.fs_single
       Edge.within_day_single_found
       (fst Edge.within_day_single_combined)
       (snd Edge.within_day_single_combined)
       ltac:(vm_compute; reflexivity)
       ltac:(vm_compute; reflexivity)
       ltac:(vm_compute; lia)).
Defined.

(** X4.  With a time step of zero minutes and at least two frames at
    hand, the construction ends in the [ZeroDivisionError] of line 136,
    before the direction is looked at and before anything is sliced or
    checked for missing values. *)
Theorem X4_zero_time_step_divides_by_zero
  (fuel : nat) (cfg : config) (fs : filesystem) (dsc : discovered)
  (comb_ds : Dataset) (bounds : option (datetime * datetime)) :
  time_step cfg = 0 ->
  discover fuel cfg fs = Returns dsc ->
  combine (forward_option cfg) dsc = Returns (comb_ds, bounds) ->
  (2 <= length (concat (map time (d_ds_grib dsc))))%nat ->
  init fuel cfg fs = Raises ZeroDivisionError.
Proof.
  intros Hz Hd Hc Hlen.
  rewrite (init_stages _ _ _ _ _ _ Hd Hc).
  rewrite <- (combine_frames _ _ _ _ Hc) in Hlen.
  unfold slice_fields, float_truediv_int. rewrite Hz.
  destruct (time comb_ds) as [ | t0 [ | t1 rest]]; cbn [length] in Hlen;
    [lia | lia | reflexivity].
Qed.

Lemma X4_zero_time_step_divides_by_zero_witness :
  init 10 Edge.no_step Sample.fs = Raises ZeroDivisionError.
Proof.
  exact
    (X4_zero_time_step_divides_by_zero 10 Edge.no_step Sample.fs
       Sample.forward30_found
       (fst Edge.no_step_combined) (snd Edge.no_step_combined)
       eq_refl
       ltac:(vm_compute; reflexivity)
       ltac:(vm_compute; reflexivity)
       ltac:(vm_compute; lia)).
Defined.

Module ObjectFacts.

(** The stages behind a returned object and what it records of them. *)
Lemma init_inv (fuel : nat) (cfg : config) (fs : filesystem)
  (self : era5_acc_fields) :
  init fuel cfg fs = Returns self ->
  exists dsc comb_ds bounds s,
    discover fuel cfg fs = Returns dsc
    /\ combine (forward_option cfg) dsc = Returns (comb_ds, bounds)
    /\ slice_fields cfg comb_ds bounds = Returns s
    /\ np_any_isnan (s_U s) || np_any_isnan (s_V s) || np_any_isnan (s_W s)
       = false
    /\ boundary_check cfg = false
    /\ self
       = {| strt_t := d_strt_t dsc;
            forward := forward_option cfg;
            final_t := d_final_t dsc;
            nc_pres_files := d_files dsc;
            drv_fld_dt := s_drv_fld_dt s;
            step_per_inpf := s_step_per_inpf s;
            U := s_U s; V := s_V s; W := s_W s;
            xlat := latitude comb_ds;
            xlon := longitude comb_ds;
            xz := isobaricInhPa comb_ds;
            inp_nfrm := Z.of_nat (length (da_time (s_U s))) |}.
Proof.
  unfold init. intros Hi.
  apply bind_returns in Hi. destruct Hi as (dsc & Hd & Hi).
  apply bind_returns in Hi. destruct Hi as ([comb_ds bounds] & Hc & Hi).
  apply bind_returns in Hi. destruct Hi as (s & Hs & Hf).
  exists dsc, comb_ds, bounds, s. unfold finish in Hf.
  destruct (_ || _); [discriminate Hf | ].
  destruct (boundary_check cfg); [discriminate Hf | ].
  injection Hf as <-. repeat split; assumption.
Qed.

Lemma loc_time_slice_inv (da : DataArray) (lo hi : datetime) (a : DataArray) :
  loc_time_slice da lo hi = Returns a ->
  exists i j,
    get_slice_bound (da_time da) (to_datetime64 lo) false = Returns i
    /\ get_slice_bound (da_time da) (to_datetime64 hi) true = Returns j
    /\ da_time a = py_slice i j (da_time da)
    /\ da_values a = py_slice i j (da_values da).
Proof.
  intros H. apply loc_time_slice_returns in H.
  destruct H as (i & j & _ & _ & Hi & Hj & ->).
  exists i, j. repeat split; assumption.
Qed.

Lemma py_slice_length {A B : Type} (i j : nat) (l : list A) (l' : list B) :
  length l = length l' -> length (py_slice i j l) = length (py_slice i j l').
Proof.
  intros E. unfold py_slice. rewrite !length_firstn, !length_skipn, E.
  reflexivity.
Qed.

(** The instants of the window: the final time lies the configured number
    of hours from the start, in the configured direction. *)
Lemma window_instants (cfg : config) (strt final : datetime) :
  window cfg = Returns (strt, final) ->
  to_datetime64 final
  = to_datetime64 strt
    + forward_option cfg * integration_length cfg * ns_per_hour.
Proof.
  intros Hw. apply window_inv in Hw. destruct Hw as (_ & _ & Eo & Eh).
  unfold to_datetime64. rewrite Eo, Eh.
  generalize (forward_option cfg * integration_length cfg). intros k.
  generalize ns_per_hour. intros c.
  pose proof (Z.div_mod (ordinal strt * 24 + hour strt + k) 24
                ltac:(discriminate)) as E.
  nia.
Qed.

End ObjectFacts.

Import ObjectFacts.

(** X5.  The three wind components of a returned object are cut out of
    the combined dataset at the same positions: they share one time
    axis, [inp_nfrm] is its length, and when the combined variables have
    one frame per time coordinate so has each component. *)
Theorem X5_wind_components_are_aligned
  (fuel : nat) (cfg : config) (fs : filesystem) (dsc : discovered)
  (comb_ds : Dataset) (bounds : option (datetime * datetime))
  (self : era5_acc_fields) :
  discover fuel cfg fs = Returns dsc ->
  combine (forward_option cfg) dsc = Returns (comb_ds, bounds) ->
  init fuel cfg fs = Returns self ->
  exists i j,
    da_time (U self) = py_slice i j (time comb_ds)
    /\ da_time (V self) = da_time (U self)
    /\ da_time (W self) = da_time (U self)
    /\ da_values (U self) = py_slice i j (u comb_ds)
    /\ da_values (V self) = py_slice i j (v comb_ds)
    /\ da_values (W self) = py_slice i j (w comb_ds)
    /\ inp_nfrm self = Z.of_nat (length (da_time (U self)))
    /\ (length (u comb_ds) = length (time comb_ds) ->
        length (v comb_ds) = length (time comb_ds) ->
        length (w comb_ds) = length (time comb_ds) ->
        Z.of_nat (length (da_values (U self))) = inp_nfrm self
        /\ Z.of_nat (length (da_values (V self))) = inp_nfrm self
        /\ Z.of_nat (length (da_values (W self))) = inp_nfrm self).
Proof.
  intros Hd Hc Hi.
  destruct (init_inv _ _ _ _ Hi)
    as (dsc' & comb' & bounds' & s & Hd' & Hc' & Hs & _ & _ & ->).
  rewrite Hd in Hd'. injection Hd' as <-.
  rewrite Hc in Hc'. injection Hc' as <- <-.
  cbn [U V W inp_nfrm].
  destruct (slice_fields_inv _ _ _ _ Hs) as (lo & hi & _ & HU & HV & HW).
  apply loc_time_slice_inv in HU, HV, HW. cbn [var da_time da_values] in *.
  destruct HU as (i & j & Hi1 & Hj1 & HUt & HUv).
  destruct HV as (i2 & j2 & Hi2 & Hj2 & HVt & HVv).
  destruct HW as (i3 & j3 & Hi3 & Hj3 & HWt & HWv).
  rewrite Hi1 in Hi2, Hi3. rewrite Hj1 in Hj2, Hj3.
  injection Hi2 as <-. injection Hi3 as <-.
  injection Hj2 as <-. injection Hj3 as <-.
  exists i, j. rewrite HUt, HVt, HWt, HUv, HVv, HWv.
  repeat split; try reflexivity; f_equal; now apply py_slice_length.
Qed.

Lemma X5_wind_components_are_aligned_witness :
  exists self,
    init 10 Sample.backward30 Sample.fs = Returns self
    /\ da_time (V self) = da_time (U self)
    /\ da_time (W self) = da_time (U self)
    /\ inp_nfrm self = Z.of_nat (length (da_time (U self))).
Proof.
  destruct (init 10 Sample.backward30 Sample.fs) as [self | e | ] eqn:Hi;
    try (vm_compute in Hi; discriminate Hi).
  exists self. split; [reflexivity | ].
  destruct
    (X5_wind_components_are_aligned 10 Sample.backward30 Sample.fs
       Sample.backward30_found
       (fst Sample.backward30_combined) (snd Sample.backward30_combined)
       self
       ltac:(vm_compute; reflexivity)
       ltac:(vm_compute; reflexivity)
       Hi) as (i & j & _ & HV & HW & _ & _ & _ & Hn & _).
  repeat split; assumption.
Defined.

(** X6.  What a returned object records of the window: [forward] is the
    configured direction, both times are dates of the calendar with an
    hour of the day, and [final_t] lies exactly [forward *
    integration_length] hours from [strt_t], whatever the sign of either. *)
Theorem X6_recorded_window
  (fuel : nat) (cfg : config) (fs : filesystem) (self : era5_acc_fields) :
  init fuel cfg fs = Returns self ->
  forward self = forward_option cfg
  /\ valid_datetime (strt_t self) /\ valid_datetime (final_t self)
  /\ to_datetime64 (final_t self)
     = to_datetime64 (strt_t self)
       + forward self * integration_length cfg * ns_per_hour
  /\ strptime_YmdH (start_ymdh cfg) = Returns (strt_t self).
Proof.
  intros Hi.
  destruct (init_inv _ _ _ _ Hi)
    as (dsc & comb_ds & bounds & s & Hd & _ & _ & _ & _ & ->).
  cbn [forward strt_t final_t].
  pose proof (discover_window _ _ _ _ Hd) as Hw.
  destruct (window_inv _ _ _ Hw) as (Vs & Vf & _).
  split; [reflexivity | ]. split; [exact Vs | ]. split; [exact Vf | ].
  split; [now apply window_instants | ].
  unfold window in Hw.
  destruct (strptime_YmdH (start_ymdh cfg)) as [t | e | ]; cbn [bind] in Hw;
    try discriminate Hw.
  destruct (add_hours t _) as [t' | e | ]; cbn [bind] in Hw;
    try discriminate Hw.
  injection Hw as -> _. reflexivity.
Qed.

Lemma X6_recorded_window_witness :
  exists self,
    init 10 Sample.backward30 Sample.fs = Returns self
    /\ to_datetime64 (final_t self)
       = to_datetime64 (strt_t self) + (-1) * 30 * ns_per_hour.
Proof.
  destruct (init 10 Sample.backward30 Sample.fs) as [self | e | ] eqn:Hi;
    try (vm_compute in Hi; discriminate Hi).
  exists self. split; [reflexivity | ].
  destruct (X6_recorded_window 10 Sample.backward30 Sample.fs self Hi)
    as (Hf & _ & _ & Ht & _).
  rewrite Hf in Ht. exact Ht.
Defined.

(** A cursor that stands beyond the final date, on the side it moves to,
    only gets further from it: the loop never returns. *)
Lemma walking_away_never_exits (fs : filesystem) (dir : string) (step : Z)
  (final : datetime) (fuel : nat) :
  step = 1 \/ step = -1 ->
  1 <= ordinal final <= MAXORDINAL ->
  forall st st',
    1 <= ordinal (curr_t st) <= MAXORDINAL ->
    0 < (ordinal (curr_t st) - ordinal final) * step ->
    while_loop fuel fs dir step final st <> Returns st'.
Proof.
  intros Hs Vf. induction fuel as [ | fuel IH]; intros st st' Vc Away;
    assert (N : (ordinal (curr_t st) =? ordinal final) = false)
      by (apply Z.eqb_neq; intros E; rewrite E in Away; lia);
    cbn [while_loop]; rewrite strftime_Ymd_eqb, N by assumption;
    cbn [negb]; [discriminate | ].
  unfold loop_body, add_days.
  destruct ((0 <? ordinal (curr_t st) + step)
            && (ordinal (curr_t st) + step <=? MAXORDINAL)) eqn:R;
    cbn [bind]; [ | discriminate].
  apply andb_true_iff in R. rewrite Z.ltb_lt, Z.leb_le in R.
  destruct (negb _); [discriminate | ].
  destruct (xr_load_dataset fs _) as [ds | e | ]; cbn [bind]; try discriminate.
  apply IH; cbn [curr_t ordinal]; [lia | ].
  destruct Hs as [-> | ->]; lia.
Qed.

(** X7.  With a negative integration length in a forward or backward run
    the final time lies behind the start.  When it falls on another
    calendar day the cursor of lines 93-94 walks away from it and
    discovery never returns, whatever the directory holds; when it falls
    on the start day, a discovery that returns has listed the file of that
    day alone. *)
Theorem X7_negative_length
  (cfg : config) (strt final : datetime) :
  forward_option cfg = 1 \/ forward_option cfg = -1 ->
  integration_length cfg < 0 ->
  window cfg = Returns (strt, final) ->
  (ordinal final <> ordinal strt ->
   forall fuel fs dsc, discover fuel cfg fs <> Returns dsc)
  /\ (ordinal final = ordinal strt ->
      forall fuel fs dsc,
        discover fuel cfg fs = Returns dsc ->
        d_files dsc = [pl_file (input_era5_case cfg) strt]).
Proof.
  intros Hf HL Hw.
  pose proof (window_inv _ _ _ Hw) as ((Vs & Hs) & (Vf & Hh) & Eo & _).
  split.
  - intros Hne fuel fs dsc. unfold discover. rewrite Hw, Z.mul_1_l.
    cbn [bind]. destruct (negb _); [discriminate | ].
    destruct (xr_load_dataset fs _) as [ds | e | ]; cbn [bind];
      try discriminate.
    unfold timedelta_days.
    replace (Z.abs (forward_option cfg) <=? 999999999) with true
      by (symmetry; apply Z.leb_le; lia).
    cbn [bind].
    destruct (while_loop _ _ _ _ _ _) as [st | e | ] eqn:W; cbn [bind];
      try discriminate.
    exfalso. revert W.
    apply walking_away_never_exits; cbn [curr_t]; try assumption.
    destruct Hf as [F | F]; rewrite F in *.
    + assert (ordinal final <= ordinal strt) by (rewrite Eo; divmod). lia.
    + assert (ordinal strt <= ordinal final) by (rewrite Eo; divmod). lia.
  - intros He fuel fs dsc. unfold discover. rewrite Hw. cbn [bind].
    destruct (negb _); [discriminate | ].
    destruct (xr_load_dataset fs _) as [ds | e | ]; cbn [bind];
      try discriminate.
    destruct (timedelta_days _) as [fn_dt | e | ]; cbn [bind];
      try discriminate.
    assert (T : String.eqb (strftime_Ymd strt) (strftime_Ymd final) = true).
    { rewrite strftime_Ymd_eqb by assumption. apply Z.eqb_eq. lia. }
    destruct fuel; cbn [while_loop curr_t]; rewrite T; cbn [negb bind];
      intros E; injection E as <-; reflexivity.
Qed.

Lemma X7_negative_length_witness :
  discover 10 Edge.back_in_time Sample.fs <> Returns Sample.forward30_found
  /\ d_files Edge.same_day_back_found = ["/era5/20200101-pl.grib"%string].
Proof.
  split.
  - apply
      (proj1
         (X7_negative_length Edge.back_in_time
            (mk_datetime 737425 0) (mk_datetime 737423 18)
            (or_introl eq_refl)
            ltac:(vm_compute; reflexivity)
            ltac:(vm_compute; reflexivity))).
    vm_compute. discriminate.
  - apply
      (proj2
         (X7_negative_length Edge.same_day_back
            (mk_datetime 737425 6) (mk_datetime 737425 3)
            (or_introl eq_refl)
            ltac:(vm_compute; reflexivity)
            ltac:(vm_compute; reflexivity)) eq_refl 10%nat Sample.fs).
    vm_compute. reflexivity.
Defined.

Lemma count_le (p q : Z -> bool) (l : list Z) :
  (forall t, p t = true -> q t = true) -> (count p l <= count q l)%nat.
Proof.
  intros H. unfold count. induction l as [ | x l IH]; [apply le_n | ].
  cbn [filter]. destruct (p x) eqn:Px.
  - rewrite (H x Px). cbn [length]. lia.
  - destruct (q x); cbn [length]; lia.
Qed.

(** X8.  With a negative integration length the bounds of the slice are in
    the wrong order, the later instant first.  On an increasing time axis
    a construction that still returns (the window stays within the start
    day) carries no frame at all: U, V and W are empty and [inp_nfrm] is
    0. *)
Theorem X8_negative_length_slices_nothing
  (fuel : nat) (cfg : config) (fs : filesystem) (dsc : discovered)
  (comb_ds : Dataset) (bounds : option (datetime * datetime))
  (self : era5_acc_fields) :
  forward_option cfg = 1 \/ forward_option cfg = -1 ->
  integration_length cfg < 0 ->
  discover fuel cfg fs = Returns dsc ->
  combine (forward_option cfg) dsc = Returns (comb_ds, bounds) ->
  is_monotonic_increasing (time comb_ds) = true ->
  init fuel cfg fs = Returns self ->
  (exists lo hi, bounds = Some (lo, hi)
                 /\ to_datetime64 hi < to_datetime64 lo)
  /\ inp_nfrm self = 0
  /\ da_time (U self) = [] /\ da_values (U self) = []
  /\ da_time (V self) = [] /\ da_values (V self) = []
  /\ da_time (W self) = [] /\ da_values (W self) = [].
Proof.
  intros Hf HL Hd Hc M Hi.
  destruct (init_inv _ _ _ _ Hi)
    as (dsc' & comb' & bounds' & s & Hd' & Hc' & Hs & _ & _ & ->).
  rewrite Hd in Hd'. injection Hd' as <-.
  rewrite Hc in Hc'. injection Hc' as <- <-.
  cbn [U V W inp_nfrm].
  pose proof (discover_window _ _ _ _ Hd) as Hw.
  pose proof (window_instants _ _ _ Hw) as Et.
  destruct (combine_inv _ _ _ _ Hc) as (_ & Hb).
  destruct (slice_fields_inv _ _ _ _ Hs) as (lo & hi & Eb & HU & HV & HW).
  assert (Hlh : to_datetime64 hi < to_datetime64 lo).
  { rewrite Eb in Hb. unfold orient in Hb. unfold ns_per_hour in Et.
    destruct Hf as [F | F]; rewrite F in *; cbn [Z.eqb Pos.eqb snd] in Hb;
      injection Hb as -> ->; lia. }
  assert (Hij : Nat.le
                  (count (fun t => t <=? to_datetime64 hi) (time comb_ds))
                  (count (fun t => t <? to_datetime64 lo) (time comb_ds))).
  { apply count_le. intros t Ht. apply Z.leb_le in Ht. apply Z.ltb_lt. lia. }
  apply loc_time_slice_returns in HU, HV, HW.
  destruct HU as (iU & jU & _ & _ & BiU & BjU & HU).
  destruct HV as (iV & jV & _ & _ & BiV & BjV & HV).
  destruct HW as (iW & jW & _ & _ & BiW & BjW & HW).
  unfold get_slice_bound in BiU, BjU, BiV, BjV, BiW, BjW.
  cbn [var da_time da_values] in *.
  rewrite M in BiU, BjU, BiV, BjV, BiW, BjW.
  injection BiU as <-. injection BjU as <-. injection BiV as <-.
  injection BjV as <-. injection BiW as <-. injection BjW as <-.
  rewrite HU, HV, HW. cbn [da_time da_values]. unfold py_slice.
  replace (Nat.sub (count (fun t => t <=? to_datetime64 hi) (time comb_ds))
             (count (fun t => t <? to_datetime64 lo) (time comb_ds)))
    with 0%nat by lia.
  cbn [firstn length].
  split; [exists lo, hi; split; [exact Eb | exact Hlh] | ].
  repeat split.
Qed.

Lemma X8_negative_length_slices_nothing_witness :
  exists self,
    init 10 Edge.same_day_back Sample.fs = Returns self
    /\ inp_nfrm self = 0 /\ da_values (U self) = [].
Proof.
  destruct (init 10 Edge.same_day_back Sample.fs) as [self | e | ] eqn:Hi;
    try (vm_compute in Hi; discriminate Hi).
  exists self. split; [reflexivity | ].
  destruct
    (X8_negative_length_slices_nothing 10 Edge.same_day_back Sample.fs
       Edge.same_day_back_found
       (fst Edge.same_day_back_combined) (snd Edge.same_day_back_combined)
       self
       (or_introl eq_refl)
       ltac:(vm_compute; reflexivity)
       ltac:(vm_compute; reflexivity)
       ltac:(vm_compute; reflexivity)
       ltac:(vm_compute; reflexivity)
       Hi) as (_ & Hn & _ & HU & _).
  split; [exact Hn | exact HU].
Defined.

Module FileFacts.

Lemma increasing_NoDup (l : list Z) : StronglySorted Z.lt l -> NoDup l.
Proof.
  induction 1 as [ | a l S IH Hall]; constructor; [ | exact IH].
  intros Hin. rewrite Forall_forall in Hall. specialize (Hall a Hin). lia.
Qed.

Lemma decreasing_NoDup (l : list Z) : StronglySorted Z.gt l -> NoDup l.
Proof.
  induction 1 as [ | a l S IH Hall]; constructor; [ | exact IH].
  intros Hin. rewrite Forall_forall in Hall. specialize (Hall a Hin). lia.
Qed.

(** The days a forward or backward run requires are days of the
    calendar. *)
Lemma required_days_in_calendar (fwd : Z) (strt final : datetime) :
  fwd = 1 \/ fwd = -1 ->
  valid_datetime strt -> valid_datetime final ->
  ordinal final = ordinal strt + fwd * Z.of_nat (days_apart strt final) ->
  Forall (fun n => 1 <= n <= MAXORDINAL) (required_days fwd strt final).
Proof.
  intros Hf (Vs & _) (Vf & _) E. unfold required_days.
  constructor; [exact Vs | ].
  apply Forall_forall. intros n Hn. apply walk_bounds in Hn.
  destruct Hn as [H1 H2].
  destruct Hf as [-> | ->]; [specialize (H1 eq_refl) | specialize (H2 eq_refl)];
    lia.
Qed.

Lemma day_files_NoDup (dir : string) (days : list Z) :
  Forall (fun n => 1 <= n <= MAXORDINAL) days ->
  NoDup days -> NoDup (map (day_file dir) days).
Proof.
  intros V N. induction N as [ | n days Hn N IH]; cbn [map]; constructor.
  - inversion V as [ | ? ? Vn V']; subst. intros Hin.
    apply in_map_iff in Hin. destruct Hin as (m & E & Hm).
    rewrite Forall_forall in V'.
    apply day_file_inj in E; [ | now apply V' | exact Vn].
    subst m. contradiction.
  - apply IH. now inversion V.
Qed.

End FileFacts.

Import FileFacts.

(** X9.  In a forward or backward run of non-negative length no file is
    listed, and so none is loaded, twice: the discovered names are
    pairwise different, and there are as many loaded datasets as names. *)
Theorem X9_no_file_is_read_twice
  (fuel : nat) (cfg : config) (fs : filesystem) (dsc : discovered) :
  forward_option cfg = 1 \/ forward_option cfg = -1 ->
  0 <= integration_length cfg ->
  discover fuel cfg fs = Returns dsc ->
  NoDup (d_files dsc) /\ length (d_ds_grib dsc) = length (d_files dsc).
Proof.
  intros Hf HL Hd.
  destruct (discover_returns _ _ _ _ Hf HL Hd) as (Hw & Hfl & H2).
  pose proof (final_ordinal _ _ _ Hw Hf HL) as Eo.
  destruct (window_inv _ _ _ Hw) as (Vs & Vf & _).
  split.
  - rewrite Hfl. apply day_files_NoDup.
    + now apply required_days_in_calendar.
    + destruct Hf as [F | F]; rewrite F.
      * apply increasing_NoDup, walk_increasing.
      * apply decreasing_NoDup, walk_decreasing.
  - rewrite Hfl, length_map. symmetry. exact (Forall2_length H2).
Qed.

Lemma X9_no_file_is_read_twice_witness :
  NoDup (d_files Sample.backward30_found)
  /\ length (d_ds_grib Sample.backward30_found)
     = length (d_files Sample.backward30_found).
Proof.
  exact
    (X9_no_file_is_read_twice 10 Sample.backward30 Sample.fs
       Sample.backward30_found
       (or_intror eq_refl)
       ltac:(vm_compute; discriminate)
       ltac:(vm_compute; reflexivity)).
Defined.

Module MoreLongitudeFacts.

Lemma is_unique_true (l : list Q) : is_unique l = true -> distinct l.
Proof.
  unfold distinct. induction l as [ | a l IH]; intros H; [constructor | ].
  cbn [is_unique] in H. apply andb_true_iff in H. destruct H as [Ha Hl].
  constructor; [ | now apply IH].
  apply Forall_forall. intros b Hb E.
  apply negb_true_iff in Ha.
  assert (T : existsb (Qeq_bool a) l = true).
  { apply existsb_exists. exists b. split; [exact Hb | ].
    now apply Qeq_bool_iff. }
  congruence.
Qed.

Lemma isel_longitude_length (indexer : list nat) (f : field) :
  length (isel_longitude indexer f) = length f.
Proof. unfold isel_longitude. apply length_map. Qed.

End MoreLongitudeFacts.

Import MoreLongitudeFacts.

(** The two ways the longitude normalisation returns: with the input
    itself, no longitude being negative, or, one being negative and the
    remapped labels being pairwise different, with the data reindexed by
    the sorted remapped labels. *)
Lemma normalize_longitude_cases (ds ds' : Dataset) :
  normalize_longitude ds = Returns ds' ->
  (ds' = ds /\ longitude ds <> []
   /\ forall L, In L (longitude ds) -> (0 <= L)%Q)
  \/ ((exists L, In L (longitude ds) /\ (L < 0)%Q)
      /\ distinct (map adjust (longitude ds))
      /\ exists indexer,
           get_indexer (map adjust (longitude ds))
             (sorted (map adjust (longitude ds))) = Returns indexer
           /\ ds' = {| time := time ds;
                       isobaricInhPa := isobaricInhPa ds;
                       latitude := latitude ds;
                       longitude :=
                         take 0%Q indexer (map adjust (longitude ds));
                       u := isel_longitude indexer (u ds);
                       v := isel_longitude indexer (v ds);
                       w := isel_longitude indexer (w ds) |}).
Proof.
  unfold normalize_longitude.
  destruct (longitude ds) as [ | L0 lon] eqn:El; [discriminate | ].
  assert (Hne : L0 :: lon <> []) by discriminate.
  destruct (np_nanmin_negative _ Hne) as (lo & Emin & Hlo).
  rewrite Emin. cbn [bind].
  destruct (Qltb lo 0) eqn:Elo.
  - destruct (get_indexer _ _) as [indexer | e | ] eqn:Eix; cbn [bind];
      try discriminate.
    intros E. injection E as <-. right.
    split; [now apply Hlo | ]. split.
    + apply is_unique_true. unfold get_indexer in Eix.
      destruct (is_unique _); [reflexivity | discriminate Eix].
    + exists indexer. split; reflexivity.
  - intros E. injection E as <-. left.
    split; [reflexivity | ]. split; [exact Hne | ].
    intros L HL. destruct (Qlt_le_dec L 0) as [Neg | Ge]; [ | exact Ge].
    assert (F : false = true) by (apply Hlo; now exists L).
    discriminate F.
Qed.

(** X10.  Whenever the longitude normalisation returns, with no
    assumption on the axis: the time, level and latitude coordinates are
    those of the input, the number of longitudes and of frames is
    unchanged; when no longitude was negative the dataset is the input
    itself; and when one was, the new axis is the remapped labels sorted,
    strictly ascending, a rearrangement of the remapped axis. *)
Theorem X10_normalization_keeps_the_grid (ds ds' : Dataset) :
  normalize_longitude ds = Returns ds' ->
  time ds' = time ds
  /\ isobaricInhPa ds' = isobaricInhPa ds
  /\ latitude ds' = latitude ds
  /\ length (longitude ds') = length (longitude ds)
  /\ length (u ds') = length (u ds)
  /\ length (v ds') = length (v ds)
  /\ length (w ds') = length (w ds)
  /\ ((forall L, In L (longitude ds) -> (0 <= L)%Q) -> ds' = ds)
  /\ ((exists L, In L (longitude ds) /\ (L < 0)%Q) ->
      longitude ds' = sorted (map adjust (longitude ds))
      /\ StronglySorted Qlt (longitude ds')
      /\ Permutation (longitude ds') (map adjust (longitude ds))).
Proof.
  intros Hn.
  destruct (normalize_longitude_cases _ _ Hn)
    as [(-> & Hne & Hall) | ((L & HL & Hneg) & D & indexer & Eix & ->)].
  - do 8 (split; [reflexivity | ]).
    intros (L & HL & Hneg). specialize (Hall L HL). lra.
  - cbn [time isobaricInhPa latitude longitude u v w].
    destruct (get_indexer_sorted _ D) as (ix & Eix' & Hperm & Htake).
    rewrite Eix in Eix'. injection Eix' as <-.
    rewrite !isel_longitude_length, Htake.
    assert (P : Permutation (sorted (map adjust (longitude ds)))
                  (map adjust (longitude ds))) by apply sorted_perm.
    do 3 (split; [reflexivity | ]).
    split; [rewrite (Permutation_length P); apply length_map | ].
    do 3 (split; [reflexivity | ]).
    split.
    + intros Hall. specialize (Hall L HL). lra.
    + intros _. split; [reflexivity | ].
      split; [now apply sorted_increasing | exact P].
Qed.

Lemma X10_normalization_keeps_the_grid_witness :
  longitude (fst Sample.forward30_combined) = [0%Q; 90%Q; (-90 + 360)%Q]
  /\ length (u (fst Sample.forward30_combined)) = 8%nat.
Proof.
  assert (Hn : normalize_longitude
                 {| time := concat (map time (d_ds_grib Sample.forward30_found));
                    isobaricInhPa := [500%Q];
                    latitude := [30%Q];
                    longitude := Sample.lon3;
                    u := concat (map u (d_ds_grib Sample.forward30_found));
                    v := concat (map v (d_ds_grib Sample.forward30_found));
                    w := concat (map w (d_ds_grib Sample.forward30_found)) |}
               = Returns (fst Sample.forward30_combined))
    by (vm_compute; reflexivity).
  destruct (X10_normalization_keeps_the_grid _ _ Hn)
    as (_ & _ & _ & _ & Hu & _ & _ & _ & Hneg).
  split.
  - destruct Hneg as (Hs & _).
    + exists (-90)%Q. split; [now left | ]. unfold Qlt. simpl. lia.
    + rewrite Hs. reflexivity.
  - rewrite Hu. reflexivity.
Defined.

Module MoreObjectFacts.

Lemma Forall2_In_right {A B : Type} (R : A -> B -> Prop)
  (l : list A) (l' : list B) (b : B) :
  Forall2 R l l' -> In b l' -> exists a, In a l /\ R a b.
Proof.
  induction 1 as [ | x y l l' Hxy H IH]; intros Hin; [destruct Hin | ].
  destruct Hin as [<- | Hin].
  - exists x. split; [now left | exact Hxy].
  - destruct (IH Hin) as (a & Ha & Ra). exists a. split; [now right | exact Ra].
Qed.

(** The combined dataset is the normalised concatenation, whose grid is
    that of one of the loaded files. *)
Lemma combine_grid (fwd : Z) (dsc : discovered) (comb_ds : Dataset)
  (bounds : option (datetime * datetime)) :
  combine fwd dsc = Returns (comb_ds, bounds) ->
  exists d0 c0,
    In d0 (d_ds_grib dsc)
    /\ longitude c0 = longitude d0
    /\ latitude c0 = latitude d0
    /\ isobaricInhPa c0 = isobaricInhPa d0
    /\ normalize_longitude c0 = Returns comb_ds.
Proof.
  unfold combine.
  destruct (orient fwd _ _ _) as [grib b] eqn:Eo.
  assert (Hin : forall x, In x grib -> In x (d_ds_grib dsc)).
  { unfold orient in Eo.
    destruct (fwd =? -1); [ | destruct (fwd =? 1)]; injection Eo as <- _;
      intros x Hx; [now apply in_rev | exact Hx | exact Hx]. }
  destruct grib as [ | d0 grib]; cbn [xr_concat bind]; [discriminate | ].
  destruct (forallb (same_grid d0) grib); cbn [bind]; [ | discriminate].
  destruct (normalize_longitude _) as [ds' | e | ] eqn:N; cbn [bind];
    try discriminate.
  intros E. injection E as <- _.
  eexists d0, _. split; [apply Hin; now left | ].
  split; [ | split; [ | split; [ | exact N]]]; reflexivity.
Qed.

End MoreObjectFacts.

Import MoreObjectFacts.

(** X11.  When the longitudes of every file of the directory lie in
    [-360, 360) and the negative ones take the binary64 addition of 360
    without rounding, the longitudes a returned object records as [xlon]
    all lie in [0, 360), whatever the direction of the run. *)
Theorem X11_recorded_longitudes
  (fuel : nat) (cfg : config) (fs : filesystem) (self : era5_acc_fields) :
  (forall p ds, fs p = Some ds ->
                Forall (fun L => (-360 <= L < 360)%Q
                                 /\ ((L < 0)%Q -> exact_plus_360 L = true))
                  (longitude ds)) ->
  init fuel cfg fs = Returns self ->
  Forall (fun L => (0 <= L < 360)%Q) (xlon self).
Proof.
  intros Hfs Hi.
  destruct (init_inv _ _ _ _ Hi)
    as (dsc & comb_ds & bounds & s & Hd & Hc & _ & _ & _ & ->).
  cbn [xlon].
  destruct (combine_grid _ _ _ _ Hc) as (d0 & c0 & Hin & El & _ & _ & Hn).
  destruct (discover_any_direction _ _ _ _ Hd) as (fl & _ & H2 & _).
  destruct (Forall2_In_right _ _ _ _ H2 Hin) as (p & Hp & Fp).
  pose proof (Hfs p d0 Fp) as Hr. rewrite <- El in Hr.
  destruct (normalize_longitude_cases _ _ Hn)
    as [(-> & Hne & Hall) | (_ & D & indexer & Eix & ->)].
  - rewrite Forall_forall in *. intros L HL.
    specialize (Hr L HL). specialize (Hall L HL). lra.
  - cbn [longitude].
    destruct (get_indexer_sorted _ D) as (ix & Eix' & _ & Htake).
    rewrite Eix in Eix'. injection Eix' as <-. rewrite Htake.
    apply Forall_forall. intros L HL.
    apply (Permutation_in _ (sorted_perm _)) in HL. apply in_map_iff in HL.
    destruct HL as (L' & <- & HL').
    rewrite Forall_forall in Hr. destruct (Hr L' HL') as [R X].
    now apply adjust_range.
Qed.

Lemma X11_recorded_longitudes_witness :
  exists self,
    init 10 Sample.backward30 Sample.fs = Returns self
    /\ Forall (fun L => (0 <= L < 360)%Q) (xlon self).
Proof.
  destruct (init 10 Sample.backward30 Sample.fs) as [self | e | ] eqn:Hi;
    try (vm_compute in Hi; discriminate Hi).
  exists self. split; [reflexivity | ].
  apply (X11_recorded_longitudes 10 Sample.backward30 Sample.fs self);
    [ | exact Hi].
  intros p ds. unfold Sample.fs, Sample.directory.
  destruct (find _ _) as [n | ]; [ | discriminate].
  intros E. injection E as <-. simpl. unfold Sample.lon3.
  repeat constructor; try (unfold Qle, Qlt; simpl; lia);
    intros _; vm_compute; reflexivity.
Defined.

Module SourceFileFacts.

Lemma Forall2_last {A B : Type} (R : A -> B -> Prop) (d : A)
  (l : list A) (l' : list B) :
  Forall2 R l l' -> l <> [] ->
  exists pre b, l' = pre ++ [b] /\ R (last l d) b.
Proof.
  induction 1 as [ | x y l l' Hxy H IH]; intros Hne; [congruence | ].
  destruct l as [ | x' l].
  - inversion H; subst. exists [], y. split; [reflexivity | exact Hxy].
  - destruct IH as (pre & b & -> & Hb); [discriminate | ].
    exists (y :: pre), b. split; [reflexivity | exact Hb].
Qed.

Lemma slice_fields_interval (cfg : config) (comb_ds : Dataset)
  (bounds : option (datetime * datetime)) (s : sliced) (t0 t1 : Z)
  (rest : list Z) :
  slice_fields cfg comb_ds bounds = Returns s ->
  time comb_ds = t0 :: t1 :: rest ->
  s_drv_fld_dt s = timedelta_seconds t0 t1.
Proof.
  unfold slice_fields. intros Hs Ht. rewrite Ht in Hs.
  apply bind_returns in Hs. destruct Hs as (steps & _ & Hs).
  destruct bounds as [[lo hi] | ]; [ | discriminate Hs].
  apply bind_returns in Hs. destruct Hs as (aU & _ & Hs).
  apply bind_returns in Hs. destruct Hs as (aV & _ & Hs).
  apply bind_returns in Hs. destruct Hs as (aW & _ & Hs).
  injection Hs as <-. reflexivity.
Qed.

End SourceFileFacts.

Import SourceFileFacts.

(** X12.  The sampling interval of a returned object is read from the
    file of the earliest day of the window, when that file holds two
    frames or more: the file of the start date in a forward run, and,
    because the loaded sequence is reversed before concatenation, the
    file of the final date in a backward run. *)
Theorem X12_sampling_interval_source
  (fuel : nat) (cfg : config) (fs : filesystem) (self : era5_acc_fields)
  (earliest : Dataset) (t0 t1 : Z) (rest : list Z) :
  init fuel cfg fs = Returns self ->
  fs (pl_file (input_era5_case cfg)
        (if forward_option cfg =? -1 then final_t self else strt_t self))
  = Some earliest ->
  time earliest = t0 :: t1 :: rest ->
  drv_fld_dt self = timedelta_seconds t0 t1.
Proof.
  intros Hi Hfs Ht.
  destruct (init_inv _ _ _ _ Hi)
    as (dsc & comb_ds & bounds & s & Hd & Hc & Hs & _ & _ & ->).
  cbn [drv_fld_dt final_t strt_t] in *.
  destruct (discover_any_direction _ _ _ _ Hd) as (fl & Hf & H2 & Hl).
  destruct (combine_inv _ _ _ _ Hc) as (Etime & Eb).
  destruct (slice_fields_inv _ _ _ _ Hs) as (lo & hi & Ebs & _).
  rewrite Ebs in Eb. unfold orient in Etime, Eb.
  destruct (forward_option cfg =? -1) eqn:Fb.
  - (* backward: the last file loaded comes first *)
    cbn [fst] in Etime.
    destruct (Forall2_last _ EmptyString _ _ H2) as (pre & b & Eg & Hb).
    { rewrite Hf. discriminate. }
    rewrite Hl, Hfs in Hb. injection Hb as <-.
    rewrite Eg, rev_app_distr in Etime. cbn [rev app map concat] in Etime.
    rewrite Ht in Etime. cbn [app] in Etime.
    exact (slice_fields_interval _ _ _ _ _ _ _ Hs Etime).
  - destruct (forward_option cfg =? 1); [ | discriminate Eb].
    cbn [fst] in Etime. rewrite Hf in H2.
    inversion H2 as [ | ? d0 ? grib Hd0 H2' Ea Eg]; subst.
    rewrite Hfs in Hd0. injection Hd0 as <-.
    rewrite <- Eg in Etime. cbn [map concat] in Etime.
    rewrite Ht in Etime. cbn [app] in Etime.
    exact (slice_fields_interval _ _ _ _ _ _ _ Hs Etime).
Qed.

Lemma X12_sampling_interval_source_witness :
  exists self,
    init 10 Sample.backward30 Sample.fs = Returns self
    /\ drv_fld_dt self
       = timedelta_seconds (to_datetime64 (mk_datetime 737423 0))
           (to_datetime64 (mk_datetime 737423 6)).
Proof.
  destruct (init 10 Sample.backward30 Sample.fs) as [self | e | ] eqn:Hi;
    try (vm_compute in Hi; discriminate Hi).
  exists self. split; [reflexivity | ].
  assert (Ef : final_t self = mk_datetime 737423 18).
  { vm_compute in Hi. injection Hi as <-. reflexivity. }
  apply (X12_sampling_interval_source 10 Sample.backward30 Sample.fs self
           (Sample.day_dataset 737423) _ _
           [to_datetime64 (mk_datetime 737423 12);
            to_datetime64 (mk_datetime 737423 18)] Hi).
  - rewrite Ef. vm_compute. reflexivity.
  - reflexivity.
Defined.

(** X13.  The fatal error for a missing file names the first required
    file, in the order of discovery, that does not exist: the files asked
    for before it are there, and nothing after it is looked at. *)
Theorem X13_error_names_first_missing_file
  (fuel : nat) (cfg : config) (fs : filesystem) (strt final : datetime)
  (before : list Z) (n : Z) (after : list Z) :
  window cfg = Returns (strt, final) ->
  forward_option cfg = 1 \/ forward_option cfg = -1 ->
  0 <= integration_length cfg ->
  (days_apart strt final <= fuel)%nat ->
  required_days (forward_option cfg) strt final = before ++ n :: after ->
  (forall m, In m before -> fs (day_file (input_era5_case cfg) m) <> None) ->
  fs (day_file (input_era5_case cfg) n) = None ->
  init fuel cfg fs
  = Raises (FatalError (cannot_locate (day_file (input_era5_case cfg) n))).
Proof.
  intros Hw Hf HL Hk Edays Hbefore Hn.
  apply init_discover_raises.
  rewrite (discover_visits fuel cfg fs strt final Hw Hf HL Hk), Edays.
  rewrite visit_app.
  destruct (visit_all_exist fs (input_era5_case cfg) before
              (nothing_read strt) Hbefore) as (st & ->).
  cbn [bind visit]. rewrite Hn. reflexivity.
Qed.

Lemma X13_error_names_first_missing_file_witness :
  init 10 Sample.backward30 Sample.fs_gap
  = Raises (FatalError (cannot_locate "/era5/20191231-pl.grib")).
Proof.
  apply
    (X13_error_names_first_missing_file 10 Sample.backward30 Sample.fs_gap
       (mk_datetime 737425 0) (mk_datetime 737423 18)
       [737425] 737424 [737423]).
  - vm_compute. reflexivity.
  - right. reflexivity.
  - vm_compute. discriminate.
  - vm_compute. lia.
  - reflexivity.
  - intros m [<- | []]. vm_compute. discriminate.
  - vm_compute. reflexivity.
Defined.
